(** * new-milli: lifecycle orchestrator and resilience middleware

    A shallow embedding of the application lifecycle manager ([app.go],
    the application options), of the recovery, rate-limit and
    circuit-breaker middleware, and of the two libraries the middleware
    delegates to (the token bucket and the breaker state machine).

    Conventions.
    - Go's [error] is [option err]: [None] is [nil].
    - [interface{}] values (requests, replies, panic values) are [any];
      a nil-able one is [option any].
    - Time is a number of nanoseconds ([Z]); [time.Duration] likewise.
    - Machine integers are integers of [Z]; the values met below stay
      within the range of their Go types, so no wrap-around is written.
    - A Go function that may panic returns an [outcome]; mutable objects
      captured by closures (buckets, registries, breakers, cancel cells)
      live in heaps of the threaded [State], addressed by index. *)

From Stdlib Require Import ZArith Lia.
From stdpp Require Import base option list gmap strings.

(** ** Values shared by all packages *)

(** Sentinel errors are compared by identity in the source
    ([err == gobreaker.ErrOpenState]); every other error is [Errorf]. *)
Inductive err : Type :=
| ErrLimitExceed
| ErrCircuitOpen
| ErrOpenState
| ErrTooManyRequests
| Canceled
| DeadlineExceeded
| Errorf (msg : string).

Definition error : Type := option err.

Definition Error (e : err) : string :=
  match e with
  | ErrLimitExceed => "rate limit exceeded"
  | ErrCircuitOpen => "circuit breaker is open"
  | ErrOpenState => "circuit breaker is open"
  | ErrTooManyRequests => "too many requests"
  | Canceled => "context canceled"
  | DeadlineExceeded => "context deadline exceeded"
  | Errorf msg => msg
  end.

(** Non-nil [interface{}] values. *)
Inductive any : Type :=
| AnyStr (s : string)
| AnyErr (e : err).

(** The [%v] verb. *)
Definition fmt_v (v : any) : string :=
  match v with
  | AnyStr s => s
  | AnyErr e => Error e
  end.

(** *** transport *)

Record Transporter : Type := {
  Kind : string;
  Operation : string
}.

Definition KindGRPC : string := "grpc".
Definition KindHTTP : string := "http".

Inductive ServerOption : Type :=
| transport_ID (id : string)
| transport_Name (name : string)
| transport_Version (version : string).

(** *** context *)

Record AppInfo : Type := {
  info_ID : string;
  info_Name : string;
  info_Version : string
}.

Inductive ctx_value : Type :=
| appKey (a : AppInfo)
| serverTransportKey (tr : Transporter)
| clientTransportKey (tr : Transporter).

(** A context is the chain of its derivations.  [WithCancel] names the
    cancel cell its [cancel] function sets; [WithDeadline] is done from
    its deadline on. *)
Inductive context : Type :=
| Background
| WithCancel (parent : context) (cell : nat)
| WithDeadline (parent : context) (deadline : Z)
| WithValue (parent : context) (v : ctx_value).

(** Which of two causes of cancellation took effect first is not
    recorded in the cells: a context that is cancelled first and whose
    parent is done later keeps its own error, and one whose parent is done
    first has the parent's.  [own_first] says, for a context on which
    both hold, that its own cause took effect before its parent was
    done. *)
Definition ctx_first (own_first : bool) (inherited own : error) : error :=
  match inherited, own with
  | Some e, Some e' => Some (if own_first then e' else e)
  | Some e, None => Some e
  | None, _ => own
  end.

(** [ctx.Err()] at time [now] with cancel cells [cells]: the error of
    the cause that took effect first, of the parent's and the context's
    own. *)
Fixpoint ctx_Err (own_first : context -> bool) (cells : list bool) (now : Z)
    (ctx : context) : error :=
  match ctx with
  | Background => None
  | WithCancel parent c =>
      ctx_first (own_first ctx) (ctx_Err own_first cells now parent)
        (if default false (cells !! c) then Some Canceled else None)
  | WithDeadline parent d =>
      ctx_first (own_first ctx) (ctx_Err own_first cells now parent)
        (if (d <=? now)%Z then Some DeadlineExceeded else None)
  | WithValue parent _ => ctx_Err own_first cells now parent
  end.

(** [<-ctx.Done()] is ready: some cause up the chain holds. *)
Fixpoint ctx_Done (cells : list bool) (now : Z) (ctx : context) : bool :=
  match ctx with
  | Background => false
  | WithCancel parent c =>
      ctx_Done cells now parent || default false (cells !! c)
  | WithDeadline parent d => ctx_Done cells now parent || (d <=? now)%Z
  | WithValue parent _ => ctx_Done cells now parent
  end.

Fixpoint FromServerContext (ctx : context) : option Transporter :=
  match ctx with
  | Background => None
  | WithCancel parent _ => FromServerContext parent
  | WithDeadline parent _ => FromServerContext parent
  | WithValue parent (serverTransportKey tr) => Some tr
  | WithValue parent _ => FromServerContext parent
  end.

Fixpoint FromClientContext (ctx : context) : option Transporter :=
  match ctx with
  | Background => None
  | WithCancel parent _ => FromClientContext parent
  | WithDeadline parent _ => FromClientContext parent
  | WithValue parent (clientTransportKey tr) => Some tr
  | WithValue parent _ => FromClientContext parent
  end.

Fixpoint FromContext (ctx : context) : option AppInfo :=
  match ctx with
  | Background => None
  | WithCancel parent _ => FromContext parent
  | WithDeadline parent _ => FromContext parent
  | WithValue parent (appKey a) => Some a
  | WithValue parent _ => FromContext parent
  end.

Definition NewContext (ctx : context) (a : AppInfo) : context :=
  WithValue ctx (appKey a).

(** The parent a context was derived from. *)
Definition ctx_parent (ctx : context) : option context :=
  match ctx with
  | Background => None
  | WithCancel p _ | WithDeadline p _ | WithValue p _ => Some p
  end.

(** ** The token bucket *)

Module juju.

(** Modelled from the spec: the token bucket is
    github.com/juju/ratelimit's [Bucket], imported by [ratelimit.go] and
    not part of the source tree.  Section 4.3 of the specification gives
    it a capacity, a refill rate, the available tokens and the time of
    the last refill, refilled lazily from the elapsed time and capped at
    the capacity.  The record keeps that state the way the library does,
    in whole tokens and whole refill periods: every [fillInterval]
    nanoseconds [quantum] tokens are added, and [latestTick] is the
    number of periods already credited since [startTime]. *)
Record Bucket : Type := {
  startTime : Z;
  capacity : Z;
  quantum : Z;
  fillInterval : Z;
  availableTokens : Z;
  latestTick : Z
}.

(** Modelled from the spec: the update of the two fields of the missing
    library's bucket that change, the tokens and the periods credited. *)
Definition set_available (b : Bucket) (tick avail : Z) : Bucket :=
  {| startTime := startTime b; capacity := capacity b;
     quantum := quantum b; fillInterval := fillInterval b;
     availableTokens := avail; latestTick := tick |}.

(** Modelled from the spec: the next quantum the missing library tries
    when it looks for a refill period that matches a rate. *)
Definition nextQuantum (q : Z) : Z :=
  let q1 := Z.quot (q * 11) 10 in
  if (q1 =? q)%Z then (q1 + 1)%Z else q1.

(** Modelled from the spec: the missing library's search for a refill
    period and quantum whose rate is within one percent of the refill
    rate of section 4.3, [rate] tokens per second; [fuel] bounds the
    number of candidates tried (the quantum grows by a tenth each time
    and stops below 2^50). *)
Fixpoint find_quantum (fuel : nat) (rate q : Z) : option (Z * Z) :=
  match fuel with
  | O => None
  | S fuel' =>
      if (2 ^ 50 <=? q)%Z then None
      else
        let fi := Z.quot (1000000000 * q) rate in
        if (fi <=? 0)%Z then find_quantum fuel' rate (nextQuantum q)
        else if (100 * Z.abs (1000000000 * q - rate * fi) <=? rate * fi)%Z
             then Some (q, fi)
             else find_quantum fuel' rate (nextQuantum q)
  end.

(** Modelled from the spec: [NewBucketWithRate] of the missing library,
    called by [Server] and [NewLimiter].  The bucket starts full
    (section 4.3: capacity is the maximal burst).  [rate] is the source's
    float64 rate restricted to whole tokens per second; [None] is the
    library's panic on a capacity or a rate that is not positive. *)
Definition NewBucketWithRate (rate capacity now : Z) : option Bucket :=
  if (capacity <=? 0)%Z then None
  else if (rate <=? 0)%Z then None
  else
    match find_quantum 400 rate 1 with
    | None => None
    | Some (q, fi) =>
        Some {| startTime := now; capacity := capacity; quantum := q;
                fillInterval := fi; availableTokens := capacity;
                latestTick := 0 |}
    end.

(** Modelled from the spec: the elapsed time of section 4.3, in whole
    refill periods of the missing library's bucket. *)
Definition currentTick (b : Bucket) (now : Z) : Z :=
  Z.quot (now - startTime b) (fillInterval b).

(** Modelled from the spec: the lazy refill of section 4.3,
    [available = min(capacity, available + elapsed * refillRate)], in
    whole periods; a bucket already at (or above) capacity is left as it
    is. *)
Definition adjustavailableTokens (b : Bucket) (tick : Z) : Bucket :=
  if (capacity b <=? availableTokens b)%Z then
    set_available b tick (availableTokens b)
  else
    let avail := (availableTokens b + (tick - latestTick b) * quantum b)%Z in
    set_available b tick (Z.min avail (capacity b)).

(** Modelled from the spec: [TakeAvailable] of the missing library, the
    call behind the non-blocking path of [Server] and behind [Allow].
    The specification does not name it; the source compares its int64
    result with zero, and the library documents it as taking up to
    [count] of the tokens that are immediately available and returning
    the number of tokens removed, zero when none is available.  It never
    waits. *)
Definition TakeAvailable (now count : Z) (b : Bucket) : Z * Bucket :=
  if (count <=? 0)%Z then (0%Z, b)
  else
    let b1 := adjustavailableTokens b (currentTick b now) in
    if (availableTokens b1 <=? 0)%Z then (0%Z, b1)
    else
      let n := Z.min count (availableTokens b1) in
      (n, set_available b1 (latestTick b1) (availableTokens b1 - n)).

(** Modelled from the spec: [Take] of the missing library, the blocking
    admission of section 4.3.  It removes [count] tokens at once, going
    into debt when too few are available, and returns how long the
    caller has to sleep until the debt is refilled. *)
Definition Take (now count : Z) (b : Bucket) : Z * Bucket :=
  if (count <=? 0)%Z then (0%Z, b)
  else
    let tick := currentTick b now in
    let b1 := adjustavailableTokens b tick in
    let avail := (availableTokens b1 - count)%Z in
    if (0 <=? avail)%Z then (0%Z, set_available b1 tick avail)
    else
      let endTick := (tick + Z.quot (- avail + quantum b - 1) (quantum b))%Z in
      let endTime := (startTime b + endTick * fillInterval b)%Z in
      ((endTime - now)%Z, set_available b1 tick avail).

(** Modelled from the spec: [Wait] of the missing library: take the
    tokens and sleep for the returned time.  The result is the bucket
    and the time at which the caller resumes. *)
Definition Wait (now count : Z) (b : Bucket) : Z * Bucket :=
  let '(d, b') := Take now count b in
  (if (0 <? d)%Z then (now + d)%Z else now, b').

End juju.

(** ** The circuit breaker state machine *)

Module gobreaker.

(** Modelled from the spec: the [CircuitBreakerState] of section 3; the
    breaker library (github.com/sony/gobreaker, imported by the
    circuit-breaker middleware) is not part of the source tree. *)
Inductive State : Type := StateClosed | StateHalfOpen | StateOpen.

(** Modelled from the spec: the names of the states, as the missing
    library prints them. *)
Definition State_String (s : State) : string :=
  match s with
  | StateClosed => "closed"
  | StateHalfOpen => "half-open"
  | StateOpen => "open"
  end.

(** Modelled from the spec: equality of states. *)
Definition State_eqb (a b : State) : bool :=
  match a, b with
  | StateClosed, StateClosed
  | StateHalfOpen, StateHalfOpen
  | StateOpen, StateOpen => true
  | _, _ => false
  end.

(** Modelled from the spec: the [Counts] of section 3; the breaker
    library (github.com/sony/gobreaker, imported by the circuit-breaker
    middleware) is not part of the source tree. *)
Record Counts : Type := {
  Requests : Z;
  TotalSuccesses : Z;
  TotalFailures : Z;
  ConsecutiveSuccesses : Z;
  ConsecutiveFailures : Z
}.

(** Modelled from the spec: the counts after a reset, and the three
    updates of section 4.4: a request admitted, a success, a failure. *)
Definition Counts_clear : Counts :=
  {| Requests := 0; TotalSuccesses := 0; TotalFailures := 0;
     ConsecutiveSuccesses := 0; ConsecutiveFailures := 0 |}.

Definition Counts_onRequest (c : Counts) : Counts :=
  {| Requests := Requests c + 1; TotalSuccesses := TotalSuccesses c;
     TotalFailures := TotalFailures c;
     ConsecutiveSuccesses := ConsecutiveSuccesses c;
     ConsecutiveFailures := ConsecutiveFailures c |}.

Definition Counts_onSuccess (c : Counts) : Counts :=
  {| Requests := Requests c; TotalSuccesses := TotalSuccesses c + 1;
     TotalFailures := TotalFailures c;
     ConsecutiveSuccesses := ConsecutiveSuccesses c + 1;
     ConsecutiveFailures := 0 |}.

Definition Counts_onFailure (c : Counts) : Counts :=
  {| Requests := Requests c; TotalSuccesses := TotalSuccesses c;
     TotalFailures := TotalFailures c + 1;
     ConsecutiveSuccesses := 0;
     ConsecutiveFailures := ConsecutiveFailures c + 1 |}.

(** Modelled from the spec: the settings of section 6, as the middleware
    passes them to the missing library.  [OnStateChange] is a callback
    with effects of its own; the model keeps the log lines it writes. *)
Record Settings : Type := {
  Name : string;
  MaxRequests : Z;
  Interval : Z;
  Timeout : Z;
  ReadyToTrip : Counts -> bool;
  OnStateChange : string -> State -> State -> list string;
  IsSuccessful : error -> bool
}.

(** Modelled from the spec: the [CircuitBreaker] of section 3: state,
    counts, generation, expiry ([None] is the zero time: no deadline)
    and settings. *)
Record CircuitBreaker : Type := {
  settings : Settings;
  state : State;
  generation : Z;
  counts : Counts;
  expiry : option Z
}.

(** Modelled from the spec: a new generation (section 4.4): the
    generation is bumped and the counts reset; a Closed breaker gets the
    end of its rolling window when an interval is configured, an Open
    one gets [now + timeout], a HalfOpen one no deadline.  (The counts are
    reset on entry into Open as well, as the library does.) *)
Definition toNewGeneration (now : Z) (cb : CircuitBreaker) : CircuitBreaker :=
  {| settings := settings cb;
     state := state cb;
     generation := generation cb + 1;
     counts := Counts_clear;
     expiry :=
       match state cb with
       | StateClosed =>
           if (Interval (settings cb) =? 0)%Z then None
           else Some (now + Interval (settings cb))%Z
       | StateOpen => Some (now + Timeout (settings cb))%Z
       | StateHalfOpen => None
       end |}.

(** Modelled from the spec: a state transition (section 4.4): nothing
    when the state is the same; otherwise the new state, a new
    generation, and the [OnStateChange] callback. *)
Definition setState (s : State) (now : Z) (cb : CircuitBreaker)
  : CircuitBreaker * list string :=
  if State_eqb (state cb) s then (cb, [])
  else
    let prev := state cb in
    let cb1 := {| settings := settings cb; state := s;
                  generation := generation cb; counts := counts cb;
                  expiry := expiry cb |} in
    (toNewGeneration now cb1,
     OnStateChange (settings cb) (Name (settings cb)) prev s).

(** Modelled from the spec: the state as observed at [now]
    (section 4.4): an Open breaker whose expiry is reached
    ([now >= expiry]) becomes HalfOpen, a Closed one whose interval has
    elapsed starts a new generation. *)
Definition currentState (now : Z) (cb : CircuitBreaker)
  : CircuitBreaker * list string :=
  match state cb with
  | StateClosed =>
      match expiry cb with
      | Some e => if (e <=? now)%Z then (toNewGeneration now cb, [])
                  else (cb, [])
      | None => (cb, [])
      end
  | StateOpen =>
      match expiry cb with
      | Some e => if (e <=? now)%Z then setState StateHalfOpen now cb
                  else (cb, [])
      | None => setState StateHalfOpen now cb
      end
  | StateHalfOpen => (cb, [])
  end.

(** Modelled from the spec: the settings given at construction, with
    the library's defaults for the values left at zero (at least one
    trial request, no rolling window for a non-positive interval, a
    timeout of 60 seconds for a non-positive one); the breaker starts
    Closed. *)
Definition NewCircuitBreaker (st : Settings) (now : Z) : CircuitBreaker :=
  let st' :=
    {| Name := Name st;
       MaxRequests := if (MaxRequests st =? 0)%Z then 1%Z else MaxRequests st;
       Interval := if (Interval st <=? 0)%Z then 0%Z else Interval st;
       Timeout := if (Timeout st <=? 0)%Z then 60000000000%Z else Timeout st;
       ReadyToTrip := ReadyToTrip st;
       OnStateChange := OnStateChange st;
       IsSuccessful := IsSuccessful st |} in
  toNewGeneration now
    {| settings := st'; state := StateClosed; generation := 0;
       counts := Counts_clear; expiry := None |}.

(** Modelled from the spec: the breaker with its counts replaced. *)
Definition with_counts (cb : CircuitBreaker) (c : Counts) : CircuitBreaker :=
  {| settings := settings cb; state := state cb;
     generation := generation cb; counts := c; expiry := expiry cb |}.

(** Modelled from the spec: admission (section 4.4).  Open rejects with
    [ErrOpenState]; HalfOpen admits up to [MaxRequests] trials; an
    admitted request is counted.  The result is the generation the
    request belongs to, or the rejection. *)
Definition beforeRequest (now : Z) (cb : CircuitBreaker)
  : CircuitBreaker * list string * (Z + err) :=
  let '(cb1, out) := currentState now cb in
  match state cb1 with
  | StateOpen => (cb1, out, inr ErrOpenState)
  | StateHalfOpen =>
      if (MaxRequests (settings cb1) <=? Requests (counts cb1))%Z
      then (cb1, out, inr ErrTooManyRequests)
      else (with_counts cb1 (Counts_onRequest (counts cb1)), out,
            inl (generation cb1))
  | StateClosed =>
      (with_counts cb1 (Counts_onRequest (counts cb1)), out,
       inl (generation cb1))
  end.

(** Modelled from the spec: a success (section 4.4): counted in Closed;
    in HalfOpen, [MaxRequests] consecutive successes close the breaker. *)
Definition onSuccess (now : Z) (cb : CircuitBreaker)
  : CircuitBreaker * list string :=
  match state cb with
  | StateClosed => (with_counts cb (Counts_onSuccess (counts cb)), [])
  | StateHalfOpen =>
      let cb1 := with_counts cb (Counts_onSuccess (counts cb)) in
      if (MaxRequests (settings cb1) <=? ConsecutiveSuccesses (counts cb1))%Z
      then setState StateClosed now cb1
      else (cb1, [])
  | StateOpen => (cb, [])
  end.

(** Modelled from the spec: a failure (section 4.4): in Closed it is
    counted and [ReadyToTrip] decides on the updated counts whether the
    breaker opens; in HalfOpen it opens the breaker at once. *)
Definition onFailure (now : Z) (cb : CircuitBreaker)
  : CircuitBreaker * list string :=
  match state cb with
  | StateClosed =>
      let cb1 := with_counts cb (Counts_onFailure (counts cb)) in
      if ReadyToTrip (settings cb1) (counts cb1)
      then setState StateOpen now cb1
      else (cb1, [])
  | StateHalfOpen => setState StateOpen now cb
  | StateOpen => (cb, [])
  end.

(** Modelled from the spec: bookkeeping after a request (section 4.4):
    a result tagged with a generation the breaker has left is dropped;
    otherwise the counts are updated and, in Closed, [ReadyToTrip] is
    evaluated on the updated counts. *)
Definition afterRequest (before : Z) (success : bool) (now : Z)
    (cb : CircuitBreaker) : CircuitBreaker * list string :=
  let '(cb1, out) := currentState now cb in
  if negb (generation cb1 =? before)%Z then (cb1, out)
  else
    let '(cb2, out2) :=
      if success then onSuccess now cb1 else onFailure now cb1 in
    (cb2, out ++ out2).

End gobreaker.

(** ** middleware: handlers and the state they run in *)

Module middleware.

(** How a call ends: it returns [(reply, err)] or it panics. *)
Inductive outcome : Type :=
| Return (reply : option any) (e : error)
| Panic (v : any).

(** A nil or dangling pointer dereference. *)
Definition nil_dereference : any :=
  AnyErr (Errorf "runtime error: invalid memory address or nil pointer dereference").

Section WithUser.
Context {U : Type}.

(** What handlers and middleware act on: the application's own state
    [user], the wall clock, the cancel cells of the contexts in use, the
    heaps of the objects the middleware closures capture, and the lines
    written through klog. *)
Record State : Type := {
  user : U;
  clock : Z;
  cells : list bool;
  buckets : list juju.Bucket;
  breakers : list gobreaker.CircuitBreaker;
  registries : list (gmap string nat);
  klog : list string
}.

Definition set_clock (t : Z) (st : State) : State :=
  {| user := user st; clock := t; cells := cells st;
     buckets := buckets st; breakers := breakers st;
     registries := registries st; klog := klog st |}.

Definition set_buckets (bs : list juju.Bucket) (st : State) : State :=
  {| user := user st; clock := clock st; cells := cells st;
     buckets := bs; breakers := breakers st;
     registries := registries st; klog := klog st |}.

Definition set_breakers (cbs : list gobreaker.CircuitBreaker)
    (st : State) : State :=
  {| user := user st; clock := clock st; cells := cells st;
     buckets := buckets st; breakers := cbs;
     registries := registries st; klog := klog st |}.

Definition set_registries (rs : list (gmap string nat))
    (st : State) : State :=
  {| user := user st; clock := clock st; cells := cells st;
     buckets := buckets st; breakers := breakers st;
     registries := rs; klog := klog st |}.

Definition log_lines (ls : list string) (st : State) : State :=
  {| user := user st; clock := clock st; cells := cells st;
     buckets := buckets st; breakers := breakers st;
     registries := registries st; klog := klog st ++ ls |}.

(** Modelled from the spec: the [Handler] and [Middleware] types of the
    [middleware] package, which is not part of the source tree
    (section 3: a handler maps a token and a request to a reply and an
    error, a middleware maps a handler to a handler). *)
Definition Handler : Type := context -> option any -> State -> outcome * State.

Definition Middleware : Type := Handler -> Handler.

End WithUser.
Arguments State : clear implicits.
Arguments Handler : clear implicits.
Arguments Middleware : clear implicits.
End middleware.

(** ** middleware/recovery *)

Module recovery.
Import middleware.
Section WithUser.
Context {U : Type}.
(** The allocation limit of the runtime in bytes (2^48 on most 64-bit
    platforms), and [runtime.Stack]: the text written into a buffer of
    the given size, for the current task or for all of them. *)
Context (maxAlloc : Z) (runtime_Stack : Z -> bool -> string).

Record options : Type := {
  disabled : bool;
  stackSize : Z;
  disableStack : bool;
  disablePrint : bool;
  recoveryHandler : context -> any -> error
}.

Definition Option : Type := options -> options.

Definition WithDisabled (d : bool) : Option := fun o =>
  {| disabled := d; stackSize := stackSize o;
     disableStack := disableStack o; disablePrint := disablePrint o;
     recoveryHandler := recoveryHandler o |}.

Definition WithStackSize (size : Z) : Option := fun o =>
  {| disabled := disabled o; stackSize := size;
     disableStack := disableStack o; disablePrint := disablePrint o;
     recoveryHandler := recoveryHandler o |}.

Definition WithDisableStackAll (d : bool) : Option := fun o =>
  {| disabled := disabled o; stackSize := stackSize o;
     disableStack := d; disablePrint := disablePrint o;
     recoveryHandler := recoveryHandler o |}.

Definition WithDisablePrintStack (d : bool) : Option := fun o =>
  {| disabled := disabled o; stackSize := stackSize o;
     disableStack := disableStack o; disablePrint := d;
     recoveryHandler := recoveryHandler o |}.

Definition WithRecoveryHandler (h : context -> any -> error) : Option :=
  fun o =>
  {| disabled := disabled o; stackSize := stackSize o;
     disableStack := disableStack o; disablePrint := disablePrint o;
     recoveryHandler := h |}.

Definition default_options : options :=
  {| disabled := false;
     stackSize := Z.shiftl 4 10;
     disableStack := false;
     disablePrint := false;
     recoveryHandler := fun _ r => Some (Errorf ("panic: " +:+ fmt_v r)) |}.

Definition configure (opts : list Option) : options :=
  fold_left (fun cfg opt => opt cfg) opts default_options.

(** [make([]byte, n)] panics on a negative length and on a length above
    the allocation limit.  Within the limit it returns the slice, or,
    when the memory is not there, the runtime ends the process: that is
    no panic and nothing can recover from it, and the executions
    followed here are those in which the process goes on. *)
Definition makeslice_len_out_of_range : any :=
  AnyErr (Errorf "runtime error: makeslice: len out of range").

Definition makeslice (n : Z) : option any :=
  if ((n <? 0) || (maxAlloc <? n))%Z then Some makeslice_len_out_of_range
  else None.

(** The deferred function of the wrapped handler, run when the call
    panicked with [r] (the value [recover()] yields, never nil while a
    panic is in progress). *)
Definition recovered (cfg : options) (ctx : context) (r : any)
    (st : State U) : outcome * State U :=
  match makeslice (stackSize cfg) with
  | Some v => (Panic v, st)
  | None =>
      let stack := runtime_Stack (stackSize cfg) (negb (disableStack cfg)) in
      let st1 :=
        if disablePrint cfg then st
        else log_lines ["[Recovery] panic: " +:+ fmt_v r +:+ "
" +:+ stack] st in
      (Return None (recoveryHandler cfg ctx r), st1)
  end.

Definition Server (opts : list Option) : Middleware U :=
  let cfg := configure opts in
  if disabled cfg then fun handler => handler
  else fun handler => fun ctx req st =>
    match handler ctx req st with
    | (Return reply e, st1) => (Return reply e, st1)
    | (Panic r, st1) => recovered cfg ctx r st1
    end.

End WithUser.
End recovery.

(** ** middleware/ratelimit *)

Module ratelimit.
Import middleware.
Section WithUser.
Context {U : Type}.

(** [rate] is a float64 in the source; the model has the rates that are
    whole numbers of tokens per second. *)
Record options : Type := {
  disabled : bool;
  capacity : Z;
  rate : Z;
  waitIfFull : bool
}.

Definition Option : Type := options -> options.

Definition WithDisabled (d : bool) : Option := fun o =>
  {| disabled := d; capacity := capacity o; rate := rate o;
     waitIfFull := waitIfFull o |}.

Definition WithCapacity (c : Z) : Option := fun o =>
  {| disabled := disabled o; capacity := c; rate := rate o;
     waitIfFull := waitIfFull o |}.

Definition WithRate (r : Z) : Option := fun o =>
  {| disabled := disabled o; capacity := capacity o; rate := r;
     waitIfFull := waitIfFull o |}.

Definition WithWaitIfFull (w : bool) : Option := fun o =>
  {| disabled := disabled o; capacity := capacity o; rate := rate o;
     waitIfFull := w |}.

Definition default_options : options :=
  {| disabled := false; capacity := 100; rate := 100; waitIfFull := false |}.

Definition configure (opts : list Option) : options :=
  fold_left (fun cfg opt => opt cfg) opts default_options.

Definition set_bucket (i : nat) (b : juju.Bucket) (st : State U) : State U :=
  set_buckets (<[i := b]> (buckets st)) st.

(** The handler [Server] returns for the bucket at address [bucket]. *)
Definition limited (cfg : options) (bucket : nat) : Middleware U :=
  fun handler => fun ctx req st =>
    let '(kind, operation) :=
      match FromServerContext ctx with
      | Some tr => (Kind tr, Operation tr)
      | None => (""%string, ""%string)
      end in
    match buckets st !! bucket with
    | None => (Panic nil_dereference, st)
    | Some b =>
        let '(taken, st1) :=
          if waitIfFull cfg then
            let '(t, b') := juju.Wait (clock st) 1 b in
            (true, set_clock t (set_bucket bucket b' st))
          else
            let '(n, b') := juju.TakeAvailable (clock st) 1 b in
            ((0 <? n)%Z, set_bucket bucket b' st) in
        if negb taken then
          (Return None (Some ErrLimitExceed),
           log_lines ["[" +:+ kind +:+ "] server " +:+ operation
                      +:+ " rate limit exceeded"] st1)
        else handler ctx req st1
    end.

(** [Server]: the middleware and the state in which its bucket exists;
    [None] when the construction of the bucket panics. *)
Definition Server (opts : list Option) (st : State U)
  : option (Middleware U * State U) :=
  let cfg := configure opts in
  if disabled cfg then Some (fun handler => handler, st)
  else
    match juju.NewBucketWithRate (rate cfg) (capacity cfg) (clock st) with
    | None => None
    | Some b =>
        Some (limited cfg (length (buckets st)),
              set_buckets (buckets st ++ [b]) st)
    end.

Definition NewLimiter (rate capacity : Z) (st : State U)
  : option (nat * State U) :=
  match juju.NewBucketWithRate rate capacity (clock st) with
  | None => None
  | Some b => Some (length (buckets st), set_buckets (buckets st ++ [b]) st)
  end.

(** [Wait]: the result is the returned error; [None] is the panic on a
    nil limiter.  [own_first] is the order of the causes of cancellation
    that [ctx.Err()] depends on. *)
Definition Wait (own_first : context -> bool) (ctx : context) (limiter : nat)
    (n : Z) (st : State U) : option (error * State U) :=
  match ctx_Err own_first (cells st) (clock st) ctx with
  | Some e => Some (Some e, st)
  | None =>
      match buckets st !! limiter with
      | None => None
      | Some b =>
          let '(t, b') := juju.Wait (clock st) n b in
          Some (None, set_clock t (set_bucket limiter b' st))
      end
  end.

Definition Allow (limiter : nat) (n : Z) (st : State U)
  : option (bool * State U) :=
  match buckets st !! limiter with
  | None => None
  | Some b =>
      let '(k, b') := juju.TakeAvailable (clock st) n b in
      Some ((0 <? k)%Z, set_bucket limiter b' st)
  end.

Definition AllowN (limiter : nat) (now : Z) (n : Z) (st : State U)
  : option (bool * State U) :=
  match buckets st !! limiter with
  | None => None
  | Some b =>
      let '(k, b') := juju.TakeAvailable (clock st) n b in
      Some ((0 <? k)%Z, set_bucket limiter b' st)
  end.

(** [k] calls of [Allow limiter n] in a row, with no time passing
    between them. *)
Fixpoint Allow_times (k : nat) (limiter : nat) (n : Z) (st : State U)
  : option (list bool * State U) :=
  match k with
  | O => Some ([], st)
  | S k' =>
      match Allow limiter n st with
      | None => None
      | Some (ok, st1) =>
          match Allow_times k' limiter n st1 with
          | None => None
          | Some (oks, st2) => Some (ok :: oks, st2)
          end
      end
  end.

End WithUser.
End ratelimit.

(** ** middleware/circuitbreaker *)

Module circuitbreaker.
Import middleware.
Section WithUser.
Context {U : Type}.

Record options : Type := {
  disabled : bool;
  name : string;
  maxRequests : Z;
  interval : Z;
  timeout : Z;
  readyToTrip : gobreaker.Counts -> bool;
  onStateChange : string -> gobreaker.State -> gobreaker.State -> list string;
  isSuccessful : error -> bool;
  fallbackHandler : Handler U;
  circuitBreakerName : context -> string
}.

Definition Option : Type := options -> options.

Definition WithDisabled (d : bool) : Option := fun o =>
  {| disabled := d; name := name o; maxRequests := maxRequests o;
     interval := interval o; timeout := timeout o;
     readyToTrip := readyToTrip o; onStateChange := onStateChange o;
     isSuccessful := isSuccessful o; fallbackHandler := fallbackHandler o;
     circuitBreakerName := circuitBreakerName o |}.

Definition WithName (n : string) : Option := fun o =>
  {| disabled := disabled o; name := n; maxRequests := maxRequests o;
     interval := interval o; timeout := timeout o;
     readyToTrip := readyToTrip o; onStateChange := onStateChange o;
     isSuccessful := isSuccessful o; fallbackHandler := fallbackHandler o;
     circuitBreakerName := circuitBreakerName o |}.

Definition WithMaxRequests (n : Z) : Option := fun o =>
  {| disabled := disabled o; name := name o; maxRequests := n;
     interval := interval o; timeout := timeout o;
     readyToTrip := readyToTrip o; onStateChange := onStateChange o;
     isSuccessful := isSuccessful o; fallbackHandler := fallbackHandler o;
     circuitBreakerName := circuitBreakerName o |}.

Definition WithInterval (d : Z) : Option := fun o =>
  {| disabled := disabled o; name := name o; maxRequests := maxRequests o;
     interval := d; timeout := timeout o;
     readyToTrip := readyToTrip o; onStateChange := onStateChange o;
     isSuccessful := isSuccessful o; fallbackHandler := fallbackHandler o;
     circuitBreakerName := circuitBreakerName o |}.

Definition WithTimeout (d : Z) : Option := fun o =>
  {| disabled := disabled o; name := name o; maxRequests := maxRequests o;
     interval := interval o; timeout := d;
     readyToTrip := readyToTrip o; onStateChange := onStateChange o;
     isSuccessful := isSuccessful o; fallbackHandler := fallbackHandler o;
     circuitBreakerName := circuitBreakerName o |}.

Definition WithReadyToTrip (fn : gobreaker.Counts -> bool) : Option := fun o =>
  {| disabled := disabled o; name := name o; maxRequests := maxRequests o;
     interval := interval o; timeout := timeout o;
     readyToTrip := fn; onStateChange := onStateChange o;
     isSuccessful := isSuccessful o; fallbackHandler := fallbackHandler o;
     circuitBreakerName := circuitBreakerName o |}.

Definition WithOnStateChange
    (fn : string -> gobreaker.State -> gobreaker.State -> list string)
  : Option := fun o =>
  {| disabled := disabled o; name := name o; maxRequests := maxRequests o;
     interval := interval o; timeout := timeout o;
     readyToTrip := readyToTrip o; onStateChange := fn;
     isSuccessful := isSuccessful o; fallbackHandler := fallbackHandler o;
     circuitBreakerName := circuitBreakerName o |}.

Definition WithIsSuccessful (fn : error -> bool) : Option := fun o =>
  {| disabled := disabled o; name := name o; maxRequests := maxRequests o;
     interval := interval o; timeout := timeout o;
     readyToTrip := readyToTrip o; onStateChange := onStateChange o;
     isSuccessful := fn; fallbackHandler := fallbackHandler o;
     circuitBreakerName := circuitBreakerName o |}.

Definition WithFallbackHandler (fn : Handler U) : Option := fun o =>
  {| disabled := disabled o; name := name o; maxRequests := maxRequests o;
     interval := interval o; timeout := timeout o;
     readyToTrip := readyToTrip o; onStateChange := onStateChange o;
     isSuccessful := isSuccessful o; fallbackHandler := fn;
     circuitBreakerName := circuitBreakerName o |}.

Definition WithCircuitBreakerName (fn : context -> string) : Option := fun o =>
  {| disabled := disabled o; name := name o; maxRequests := maxRequests o;
     interval := interval o; timeout := timeout o;
     readyToTrip := readyToTrip o; onStateChange := onStateChange o;
     isSuccessful := isSuccessful o; fallbackHandler := fallbackHandler o;
     circuitBreakerName := fn |}.

Definition minute : Z := 60000000000.

(** The default trip predicate divides two float64 conversions of
    uint32 counters and compares with 0.5.  The quotient of two such
    values is at least 0.5 exactly when twice the failures reach the
    requests (no rounding reaches 0.5 from below), which is what the
    integer comparison says; with no request the quotient is NaN and
    the first conjunct is false anyway. *)
Definition default_readyToTrip (c : gobreaker.Counts) : bool :=
  (10 <=? gobreaker.Requests c)%Z
  && (gobreaker.Requests c <=? 2 * gobreaker.TotalFailures c)%Z.

Definition default_options : options :=
  {| disabled := false;
     name := "server";
     maxRequests := 100;
     interval := minute;
     timeout := minute;
     readyToTrip := default_readyToTrip;
     onStateChange := fun n from to =>
       ["Circuit breaker " +:+ n +:+ " changed from "
        +:+ gobreaker.State_String from +:+ " to "
        +:+ gobreaker.State_String to];
     isSuccessful := fun e => match e with None => true | Some _ => false end;
     fallbackHandler := fun _ _ st => (Return None (Some ErrCircuitOpen), st);
     circuitBreakerName := fun ctx =>
       match FromServerContext ctx with
       | Some tr => "server_" +:+ Operation tr
       | None => "server"
       end |}.

Definition configure (opts : list Option) : options :=
  fold_left (fun cfg opt => opt cfg) opts default_options.

Definition Settings_of (cfg : options) (n : string) : gobreaker.Settings :=
  {| gobreaker.Name := n;
     gobreaker.MaxRequests := maxRequests cfg;
     gobreaker.Interval := interval cfg;
     gobreaker.Timeout := timeout cfg;
     gobreaker.ReadyToTrip := readyToTrip cfg;
     gobreaker.OnStateChange := onStateChange cfg;
     gobreaker.IsSuccessful := isSuccessful cfg |}.

Definition set_breaker (p : nat) (cb : gobreaker.CircuitBreaker)
    (st : State U) : State U :=
  set_breakers (<[p := cb]> (breakers st)) st.

(** "Get or create the circuit breaker": the lookup in the registry at
    address [rid] and, on a miss, the creation and the store.  The
    result is the address of the breaker; [None] is the panic of a
    store into a registry that does not exist. *)
Definition acquire (cfg : options) (rid : nat) (n : string) (st : State U)
  : option (nat * State U) :=
  match registries st !! rid with
  | None => None
  | Some registry =>
      match registry !! n with
      | Some cb => Some (cb, st)
      | None =>
          let cb := length (breakers st) in
          let st1 :=
            set_breakers
              (breakers st
               ++ [gobreaker.NewCircuitBreaker (Settings_of cfg n) (clock st)])
              st in
          Some (cb, set_registries
                      (<[rid := <[n := cb]> registry]> (registries st1)) st1)
      end
  end.

(** Modelled from the spec: [Execute] of the missing breaker library
    (section 4.4): admission, the wrapped call, then the bookkeeping
    with the call's generation.  A rejected call returns the
    rejection without running [req]; a call that panics counts as a
    failure and the panic goes on. *)
Definition Execute (p : nat) (req : State U -> outcome * State U)
    (st : State U) : outcome * State U :=
  match breakers st !! p with
  | None => (Panic nil_dereference, st)
  | Some cb =>
      let '(cb1, out, r) := gobreaker.beforeRequest (clock st) cb in
      let st1 := log_lines out (set_breaker p cb1 st) in
      match r with
      | inr e => (Return None (Some e), st1)
      | inl gen =>
          let '(o, st2) := req st1 in
          match breakers st2 !! p with
          | None => (Panic nil_dereference, st2)
          | Some cb2 =>
              let success :=
                match o with
                | Return _ e => gobreaker.IsSuccessful (gobreaker.settings cb2) e
                | Panic _ => false
                end in
              let '(cb3, out3) :=
                gobreaker.afterRequest gen success (clock st2) cb2 in
              (o, log_lines out3 (set_breaker p cb3 st2))
          end
      end
  end.

Definition is_ErrOpenState (e : error) : bool :=
  match e with Some ErrOpenState => true | _ => false end.

Definition nil_map_assignment : any :=
  AnyErr (Errorf "assignment to entry in nil map").

(** The handler [Server] returns for the registry at address [rid]. *)
Definition guarded (cfg : options) (rid : nat) : Middleware U :=
  fun handler => fun ctx req st =>
    let '(kind, operation) :=
      match FromServerContext ctx with
      | Some tr => (Kind tr, Operation tr)
      | None => (""%string, ""%string)
      end in
    let n := circuitBreakerName cfg ctx in
    match acquire cfg rid n st with
    | None => (Panic nil_map_assignment, st)
    | Some (cb, st1) =>
        match Execute cb (handler ctx req) st1 with
        | (Return result e, st2) =>
            if is_ErrOpenState e then
              fallbackHandler cfg ctx req
                (log_lines ["[" +:+ kind +:+ "] server " +:+ operation
                            +:+ " circuit breaker is open"] st2)
            else (Return result e, st2)
        | (Panic v, st2) => (Panic v, st2)
        end
    end.

(** [Server]: the middleware and the state in which its registry
    exists. *)
Definition Server (opts : list Option) (st : State U)
  : Middleware U * State U :=
  let cfg := configure opts in
  if disabled cfg then (fun handler => handler, st)
  else (guarded cfg (length (registries st)),
        set_registries (registries st ++ [∅]) st).

(** *** Request-serving tasks at the granularity of registry accesses

    A task that serves a request first reads [registry[name]] and, on a
    miss, creates a breaker and stores it.  The source puts nothing
    between the two accesses and nothing around them, so tasks serving
    requests at the same time may interleave at these points. *)
Inductive task : Type :=
| AtLookup (n : string)
| AtCreate (n : string)
| Holding (cb : nat)
| Faulted.

Definition task_step (cfg : options) (rid : nat) (t : task) (st : State U)
  : task * State U :=
  match t with
  | AtLookup n =>
      match registries st !! rid with
      | None => (AtCreate n, st)
      | Some registry =>
          match registry !! n with
          | Some cb => (Holding cb, st)
          | None => (AtCreate n, st)
          end
      end
  | AtCreate n =>
      match registries st !! rid with
      | None => (Faulted, st)
      | Some registry =>
          let cb := length (breakers st) in
          let st1 :=
            set_breakers
              (breakers st
               ++ [gobreaker.NewCircuitBreaker (Settings_of cfg n) (clock st)])
              st in
          (Holding cb,
           set_registries
             (<[rid := <[n := cb]> registry]> (registries st1)) st1)
      end
  | Holding cb => (Holding cb, st)
  | Faulted => (Faulted, st)
  end.

(** A schedule names, step by step, the task that moves. *)
Fixpoint run_schedule (cfg : options) (rid : nat) (sched : list nat)
    (tasks : list task) (st : State U) : list task * State U :=
  match sched with
  | [] => (tasks, st)
  | i :: sched' =>
      match tasks !! i with
      | None => run_schedule cfg rid sched' tasks st
      | Some t =>
          let '(t', st') := task_step cfg rid t st in
          run_schedule cfg rid sched' (<[i := t']> tasks) st'
      end
  end.

(** Requests served one after the other. *)
Fixpoint acquire_all (cfg : options) (rid : nat) (names : list string)
    (st : State U) : option (list nat * State U) :=
  match names with
  | [] => Some ([], st)
  | n :: names' =>
      match acquire cfg rid n st with
      | None => None
      | Some (cb, st1) =>
          match acquire_all cfg rid names' st1 with
          | None => None
          | Some (cbs, st2) => Some (cb :: cbs, st2)
          end
      end
  end.

End WithUser.
End circuitbreaker.

(** ** The application (package newMilli) *)

Module newMilli.

Inductive os_Signal : Type := SIGTERM | SIGINT | SIGQUIT | SIGHUP.

Inductive phase : Type :=
| PBeforeStart | PAfterStart | PBeforeStop | PAfterStop.

(** One entry per call the application makes, in the order made; calls
    that return carry what they returned. *)
Inductive event : Type :=
| EvInit (srv : nat) (args : list ServerOption) (r : error)
| EvHook (ph : phase) (i : nat) (r : error)
| EvGoStop (srv : nat)
| EvGoStart (srv : nat)
| EvNotify (ss : list os_Signal)
| EvCancel (cell : nat).

(** The entries of [n] hooks of phase [ph], numbered from [i], that all
    returned nil. *)
Definition hooks_ok (ph : phase) (i n : nat) : list event :=
  map (fun j => EvHook ph j None) (seq i n).

(** The entries of [n] servers, numbered from [i], whose [Init] returned
    nil. *)
Definition inits_ok (args : list ServerOption) (i n : nat) : list event :=
  map (fun j => EvInit j args None) (seq i n).

Section WithWorld.
Context {W : Type}.

(** [transport.Server]: the three methods, acting on the world. *)
Record transport_Server : Type := {
  srv_Init : list ServerOption -> W -> W * error;
  srv_Start : context -> W -> W * error;
  srv_Stop : context -> W -> W * error
}.

Definition Hook : Type := context -> W -> W * error.

Record options : Type := {
  id : string;
  name : string;
  version : string;
  metadata : gmap string string;
  ctx : context;
  sigs : list os_Signal;
  registrarTimeout : Z;
  stopTimeout : Z;
  servers : list transport_Server;
  beforeStart : list Hook;
  afterStart : list Hook;
  beforeStop : list Hook;
  afterStop : list Hook
}.

Definition Option : Type := options -> options.

Definition ID (s : string) : Option := fun o =>
  {| id := s; name := name o; version := version o;
     metadata := metadata o; ctx := ctx o; sigs := sigs o;
     registrarTimeout := registrarTimeout o; stopTimeout := stopTimeout o;
     servers := servers o; beforeStart := beforeStart o;
     afterStart := afterStart o; beforeStop := beforeStop o;
     afterStop := afterStop o |}.

Definition Name (s : string) : Option := fun o =>
  {| id := id o; name := s; version := version o;
     metadata := metadata o; ctx := ctx o; sigs := sigs o;
     registrarTimeout := registrarTimeout o; stopTimeout := stopTimeout o;
     servers := servers o; beforeStart := beforeStart o;
     afterStart := afterStart o; beforeStop := beforeStop o;
     afterStop := afterStop o |}.

Definition Version (s : string) : Option := fun o =>
  {| id := id o; name := name o; version := s;
     metadata := metadata o; ctx := ctx o; sigs := sigs o;
     registrarTimeout := registrarTimeout o; stopTimeout := stopTimeout o;
     servers := servers o; beforeStart := beforeStart o;
     afterStart := afterStart o; beforeStop := beforeStop o;
     afterStop := afterStop o |}.

Definition Metadata (md : gmap string string) : Option := fun o =>
  {| id := id o; name := name o; version := version o;
     metadata := md; ctx := ctx o; sigs := sigs o;
     registrarTimeout := registrarTimeout o; stopTimeout := stopTimeout o;
     servers := servers o; beforeStart := beforeStart o;
     afterStart := afterStart o; beforeStop := beforeStop o;
     afterStop := afterStop o |}.

Definition Context (c : context) : Option := fun o =>
  {| id := id o; name := name o; version := version o;
     metadata := metadata o; ctx := c; sigs := sigs o;
     registrarTimeout := registrarTimeout o; stopTimeout := stopTimeout o;
     servers := servers o; beforeStart := beforeStart o;
     afterStart := afterStart o; beforeStop := beforeStop o;
     afterStop := afterStop o |}.

Definition Signal (ss : list os_Signal) : Option := fun o =>
  {| id := id o; name := name o; version := version o;
     metadata := metadata o; ctx := ctx o; sigs := ss;
     registrarTimeout := registrarTimeout o; stopTimeout := stopTimeout o;
     servers := servers o; beforeStart := beforeStart o;
     afterStart := afterStart o; beforeStop := beforeStop o;
     afterStop := afterStop o |}.

Definition RegistrarTimeout (t : Z) : Option := fun o =>
  {| id := id o; name := name o; version := version o;
     metadata := metadata o; ctx := ctx o; sigs := sigs o;
     registrarTimeout := t; stopTimeout := stopTimeout o;
     servers := servers o; beforeStart := beforeStart o;
     afterStart := afterStart o; beforeStop := beforeStop o;
     afterStop := afterStop o |}.

Definition StopTimeout (t : Z) : Option := fun o =>
  {| id := id o; name := name o; version := version o;
     metadata := metadata o; ctx := ctx o; sigs := sigs o;
     registrarTimeout := registrarTimeout o; stopTimeout := t;
     servers := servers o; beforeStart := beforeStart o;
     afterStart := afterStart o; beforeStop := beforeStop o;
     afterStop := afterStop o |}.

Definition Server (srv : list transport_Server) : Option := fun o =>
  {| id := id o; name := name o; version := version o;
     metadata := metadata o; ctx := ctx o; sigs := sigs o;
     registrarTimeout := registrarTimeout o; stopTimeout := stopTimeout o;
     servers := servers o ++ srv; beforeStart := beforeStart o;
     afterStart := afterStart o; beforeStop := beforeStop o;
     afterStop := afterStop o |}.

Definition BeforeStart (fn : Hook) : Option := fun o =>
  {| id := id o; name := name o; version := version o;
     metadata := metadata o; ctx := ctx o; sigs := sigs o;
     registrarTimeout := registrarTimeout o; stopTimeout := stopTimeout o;
     servers := servers o; beforeStart := beforeStart o ++ [fn];
     afterStart := afterStart o; beforeStop := beforeStop o;
     afterStop := afterStop o |}.

Definition AfterStart (fn : Hook) : Option := fun o =>
  {| id := id o; name := name o; version := version o;
     metadata := metadata o; ctx := ctx o; sigs := sigs o;
     registrarTimeout := registrarTimeout o; stopTimeout := stopTimeout o;
     servers := servers o; beforeStart := beforeStart o;
     afterStart := afterStart o ++ [fn]; beforeStop := beforeStop o;
     afterStop := afterStop o |}.

Definition BeforeStop (fn : Hook) : Option := fun o =>
  {| id := id o; name := name o; version := version o;
     metadata := metadata o; ctx := ctx o; sigs := sigs o;
     registrarTimeout := registrarTimeout o; stopTimeout := stopTimeout o;
     servers := servers o; beforeStart := beforeStart o;
     afterStart := afterStart o; beforeStop := beforeStop o ++ [fn];
     afterStop := afterStop o |}.

Definition AfterStop (fn : Hook) : Option := fun o =>
  {| id := id o; name := name o; version := version o;
     metadata := metadata o; ctx := ctx o; sigs := sigs o;
     registrarTimeout := registrarTimeout o; stopTimeout := stopTimeout o;
     servers := servers o; beforeStart := beforeStart o;
     afterStart := afterStart o; beforeStop := beforeStop o;
     afterStop := afterStop o ++ [fn] |}.

Definition second : Z := 1000000000.

Definition default_options : options :=
  {| id := ""; name := ""; version := "";
     metadata := ∅; ctx := Background;
     sigs := [SIGTERM; SIGINT; SIGQUIT];
     registrarTimeout := 10 * second; stopTimeout := 10 * second;
     servers := []; beforeStart := []; afterStart := [];
     beforeStop := []; afterStop := [] |}.

Definition configure (opts : list Option) : options :=
  fold_left (fun o opt => opt o) opts default_options.

(** *** The state of the process and the calls made *)

Record Process : Type := {
  world : W;
  cells : list bool;
  trace : list event
}.

Definition called (ev : event) (w : W) (p : Process) : Process :=
  {| world := w; cells := cells p; trace := trace p ++ [ev] |}.

Definition noted (ev : event) (p : Process) : Process :=
  {| world := world p; cells := cells p; trace := trace p ++ [ev] |}.

Record App : Type := {
  app_opts : options;
  app_ctx : context;
  app_cancel : option nat
}.

Definition AppInfo_of (a : App) : AppInfo :=
  {| info_ID := id (app_opts a); info_Name := name (app_opts a);
     info_Version := version (app_opts a) |}.

(** The loop over the servers in [New], from the server of index [i]. *)
Fixpoint init_servers (o : options) (i : nat) (srvs : list transport_Server)
    (p : Process) : error * Process :=
  match srvs with
  | [] => (None, p)
  | srv :: rest =>
      let args := [transport_ID (id o); transport_Name (name o);
                   transport_Version (version o)] in
      let '(w, r) := srv_Init srv args (world p) in
      let p1 := called (EvInit i args r) w p in
      match r with
      | Some e => (Some e, p1)
      | None => init_servers o (S i) rest p1
      end
  end.

Definition New (opts : list Option) (p : Process)
  : option App * error * Process :=
  let o := configure opts in
  match init_servers o 0 (servers o) p with
  | (Some e, p1) => (None, Some e, p1)
  | (None, p1) =>
      let cell := length (cells p1) in
      (Some {| app_opts := o; app_ctx := WithCancel (ctx o) cell;
               app_cancel := Some cell |},
       None,
       {| world := world p1; cells := cells p1 ++ [false];
          trace := trace p1 |})
  end.

(** A loop over a list of hooks, from the hook of index [i]: the first
    error ends it. *)
Fixpoint run_hooks (ph : phase) (c : context) (i : nat) (hooks : list Hook)
    (p : Process) : error * Process :=
  match hooks with
  | [] => (None, p)
  | fn :: rest =>
      let '(w, r) := fn c (world p) in
      let p1 := called (EvHook ph i r) w p in
      match r with
      | Some e => (Some e, p1)
      | None => run_hooks ph c (S i) rest p1
      end
  end.

(** The loop that hands, per server, the stop waiter and the start
    task to the error group; [wg.Wait()] then holds [Run] until every
    start task is running.  The entries are the calls of [eg.Go]; what
    the tasks do is [eg_tasks] and [eg_Wait] below. *)
Fixpoint launch (i : nat) (srvs : list transport_Server) (p : Process)
  : Process :=
  match srvs with
  | [] => p
  | _ :: rest => launch (S i) rest (noted (EvGoStart i) (noted (EvGoStop i) p))
  end.

(** The tasks handed to the error group run from then on, side by side
    with the rest of [Run]: the servers start while the hooks after start
    run, and the error group cancels its token as soon as a task fails.
    How they interleave is not decided here: [eg_tasks a c i w cells] is
    what the tasks have made of the world and of the cancel cells when
    [Run] comes to call the hook of index [i]. *)
Context (eg_tasks : App -> context -> nat -> W -> list bool -> W * list bool).

Definition meanwhile (a : App) (c : context) (i : nat) (p : Process)
  : Process :=
  {| world := (eg_tasks a c i (world p) (cells p)).1;
     cells := (eg_tasks a c i (world p) (cells p)).2;
     trace := trace p |}.

(** The loop over the hooks after start: each hook finds the world as
    the tasks have left it meanwhile. *)
Fixpoint run_hooks_among (a : App) (ph : phase) (c : context) (i : nat)
    (hooks : list Hook) (p : Process) : error * Process :=
  match hooks with
  | [] => (None, p)
  | fn :: rest =>
      let p0 := meanwhile a c i p in
      let '(w, r) := fn c (world p0) in
      let p1 := called (EvHook ph i r) w p0 in
      match r with
      | Some e => (Some e, p1)
      | None => run_hooks_among a ph c (S i) rest p1
      end
  end.

(** What the tasks of the error group do from the last hook on, and the
    first error [eg.Wait()] reports, depend on how they interleave; the
    model takes the result of that phase as given. *)
Context (eg_Wait : App -> context -> Process -> error * Process).

Definition cancel (a : App) (p : Process) : Process :=
  match app_cancel a with
  | Some cell =>
      {| world := world p; cells := <[cell := true]> (cells p);
         trace := trace p ++ [EvCancel cell] |}
  | None => p
  end.

Definition Stop (a : App) (p : Process) : error * Process :=
  let c := NewContext (app_ctx a) (AppInfo_of a) in
  match run_hooks PBeforeStop c 0 (beforeStop (app_opts a)) p with
  | (Some e, p1) => (Some e, p1)
  | (None, p1) =>
      let p2 := cancel a p1 in
      run_hooks PAfterStop c 0 (afterStop (app_opts a)) p2
  end.

(** [Run].  The context of the error group is a cancellable child of
    the application's; its cell is allocated on entry. *)
Definition Run (a : App) (p : Process) : error * Process :=
  let cell := length (cells p) in
  let c := WithCancel (NewContext (app_ctx a) (AppInfo_of a)) cell in
  let p0 := {| world := world p; cells := cells p ++ [false];
               trace := trace p |} in
  match run_hooks PBeforeStart c 0 (beforeStart (app_opts a)) p0 with
  | (Some e, p1) => (Some e, p1)
  | (None, p1) =>
      let p2 := launch 0 (servers (app_opts a)) p1 in
      match run_hooks_among a PAfterStart c 0 (afterStart (app_opts a)) p2 with
      | (Some e, p3) => (Some e, p3)
      | (None, p3) =>
          let p4 := noted (EvNotify (sigs (app_opts a))) p3 in
          match eg_Wait a c p4 with
          | (Some Canceled, p5) => (None, p5)
          | (Some e, p5) => (Some e, p5)
          | (None, p5) => (None, p5)
          end
      end
  end.

End WithWorld.
Arguments transport_Server : clear implicits.
Arguments Hook : clear implicits.
Arguments options : clear implicits.
Arguments Option : clear implicits.
Arguments Process : clear implicits.
Arguments App : clear implicits.
End newMilli.

(** ** More of the context keys *)

Definition NewServerContext (ctx : context) (tr : Transporter) : context :=
  WithValue ctx (serverTransportKey tr).

Definition NewClientContext (ctx : context) (tr : Transporter) : context :=
  WithValue ctx (clientTransportKey tr).

(** [extends base ctx]: [ctx] is [base] or was derived from it, by any
    number of [WithCancel], [WithDeadline] and [WithValue]. *)
Inductive extends (base : context) : context -> Prop :=
| extends_refl : extends base base
| extends_cancel ctx c : extends base ctx -> extends base (WithCancel ctx c)
| extends_deadline ctx d : extends base ctx -> extends base (WithDeadline ctx d)
| extends_value ctx v : extends base ctx -> extends base (WithValue ctx v).

(** ** The methods of [App] that read its options *)

Module App.
Section WithWorld.
Context {W : Type}.

Definition ID (a : newMilli.App W) : string := newMilli.id (newMilli.app_opts a).
Definition Name (a : newMilli.App W) : string := newMilli.name (newMilli.app_opts a).
Definition Version (a : newMilli.App W) : string :=
  newMilli.version (newMilli.app_opts a).

End WithWorld.
End App.

(** ** middleware/logging *)

Module logging.
Import middleware.

(** klog's levels. *)
Inductive Level : Type :=
| LevelTrace | LevelDebug | LevelInfo | LevelNotice
| LevelWarn | LevelError | LevelFatal.

Record options : Type := {
  disabled : bool;
  level : Level;
  slowThreshold : Z
}.

Definition Option : Type := options -> options.

Definition WithDisabled (d : bool) : Option := fun o =>
  {| disabled := d; level := level o; slowThreshold := slowThreshold o |}.

Definition WithLevel (l : Level) : Option := fun o =>
  {| disabled := disabled o; level := l; slowThreshold := slowThreshold o |}.

Definition WithSlowThreshold (t : Z) : Option := fun o =>
  {| disabled := disabled o; level := level o; slowThreshold := t |}.

Definition millisecond : Z := 1000000.

Definition default_options : options :=
  {| disabled := false; level := LevelInfo;
     slowThreshold := millisecond * 500 |}.

Definition configure (opts : list Option) : options :=
  fold_left (fun cfg opt => opt cfg) opts default_options.

Section WithUser.
Context {U : Type}.
(** [time.Duration]'s [String], and the [%d] verb. *)
Context (Duration_String : Z -> string) (fmt_d : Z -> string).

(** The line written for a call: the format of the source, after the
    tag of the level it is written at (this is the one package where
    the level differs from call to call). *)
Definition request_line (slow : bool) (kind side operation : string)
    (code : Z) (reason : string) (duration : Z) : string :=
  (if slow then "[Warn] " else "[Info] ")
  +:+ "[" +:+ kind +:+ "] " +:+ side +:+ " " +:+ operation +:+ " "
  +:+ fmt_d code +:+ " " +:+ reason +:+ " " +:+ Duration_String duration.

Definition Server (opts : list Option) : Middleware U :=
  let cfg := configure opts in
  if disabled cfg then fun handler => handler
  else fun handler => fun ctx req st =>
    let start := clock st in
    let '(kind, operation) :=
      match FromServerContext ctx with
      | Some tr => (Kind tr, Operation tr)
      | None => (""%string, ""%string)
      end in
    match handler ctx req st with
    | (Return reply e, st1) =>
        let duration := (clock st1 - start)%Z in
        let '(code, reason) :=
          match e with
          | Some er => (500%Z, Error er)
          | None => (200%Z, "OK"%string)
          end in
        (Return reply e,
         log_lines [request_line (slowThreshold cfg <? duration)%Z kind "server"
                      operation code reason duration] st1)
    | (Panic v, st1) => (Panic v, st1)
    end.

Definition Client (opts : list Option) : Middleware U :=
  let cfg := configure opts in
  if disabled cfg then fun handler => handler
  else fun handler => fun ctx req st =>
    let start := clock st in
    let '(kind, operation) :=
      match FromClientContext ctx with
      | Some tr => (Kind tr, Operation tr)
      | None => (""%string, ""%string)
      end in
    match handler ctx req st with
    | (Return reply e, st1) =>
        let duration := (clock st1 - start)%Z in
        let '(code, reason) :=
          match e with
          | Some er => (500%Z, Error er)
          | None => (200%Z, "OK"%string)
          end in
        (Return reply e,
         log_lines [request_line (slowThreshold cfg <? duration)%Z kind "client"
                      operation code reason duration] st1)
    | (Panic v, st1) => (Panic v, st1)
    end.

End WithUser.
End logging.

(** ** transport: the server options *)

Module transport.
Section WithUser.
Context {U : Type}.

Record Options : Type := {
  o_ID : string;
  o_Name : string;
  o_Version : string;
  o_Address : string;
  o_Timeout : Z;
  o_RegisterTTL : Z;
  o_RegisterInterval : Z;
  o_Middleware : list (middleware.Middleware U)
}.

(** [ServerOptions]: a function on the options; its [Apply] is the
    application. *)
Definition ServerOptions : Type := Options -> Options.

Definition ID (s : string) : ServerOptions := fun o =>
  {| o_ID := s; o_Name := o_Name o; o_Version := o_Version o;
     o_Address := o_Address o; o_Timeout := o_Timeout o;
     o_RegisterTTL := o_RegisterTTL o;
     o_RegisterInterval := o_RegisterInterval o;
     o_Middleware := o_Middleware o |}.

Definition Name (s : string) : ServerOptions := fun o =>
  {| o_ID := o_ID o; o_Name := s; o_Version := o_Version o;
     o_Address := o_Address o; o_Timeout := o_Timeout o;
     o_RegisterTTL := o_RegisterTTL o;
     o_RegisterInterval := o_RegisterInterval o;
     o_Middleware := o_Middleware o |}.

Definition Version (s : string) : ServerOptions := fun o =>
  {| o_ID := o_ID o; o_Name := o_Name o; o_Version := s;
     o_Address := o_Address o; o_Timeout := o_Timeout o;
     o_RegisterTTL := o_RegisterTTL o;
     o_RegisterInterval := o_RegisterInterval o;
     o_Middleware := o_Middleware o |}.

Definition Address (s : string) : ServerOptions := fun o =>
  {| o_ID := o_ID o; o_Name := o_Name o; o_Version := o_Version o;
     o_Address := s; o_Timeout := o_Timeout o;
     o_RegisterTTL := o_RegisterTTL o;
     o_RegisterInterval := o_RegisterInterval o;
     o_Middleware := o_Middleware o |}.

Definition Timeout (t : Z) : ServerOptions := fun o =>
  {| o_ID := o_ID o; o_Name := o_Name o; o_Version := o_Version o;
     o_Address := o_Address o; o_Timeout := t;
     o_RegisterTTL := o_RegisterTTL o;
     o_RegisterInterval := o_RegisterInterval o;
     o_Middleware := o_Middleware o |}.

Definition Middleware (m : list (middleware.Middleware U)) : ServerOptions :=
  fun o =>
  {| o_ID := o_ID o; o_Name := o_Name o; o_Version := o_Version o;
     o_Address := o_Address o; o_Timeout := o_Timeout o;
     o_RegisterTTL := o_RegisterTTL o;
     o_RegisterInterval := o_RegisterInterval o;
     o_Middleware := o_Middleware o ++ m |}.

Definition RegisterTTL (t : Z) : ServerOptions := fun o =>
  {| o_ID := o_ID o; o_Name := o_Name o; o_Version := o_Version o;
     o_Address := o_Address o; o_Timeout := o_Timeout o;
     o_RegisterTTL := t;
     o_RegisterInterval := o_RegisterInterval o;
     o_Middleware := o_Middleware o |}.

Definition RegisterInterval (t : Z) : ServerOptions := fun o =>
  {| o_ID := o_ID o; o_Name := o_Name o; o_Version := o_Version o;
     o_Address := o_Address o; o_Timeout := o_Timeout o;
     o_RegisterTTL := o_RegisterTTL o;
     o_RegisterInterval := t;
     o_Middleware := o_Middleware o |}.

(** The three options [New] passes to [Init], as the functions they
    are. *)
Definition Apply (so : ServerOption) : ServerOptions :=
  match so with
  | transport_ID s => ID s
  | transport_Name s => Name s
  | transport_Version s => Version s
  end.

(** [&transport.Options{}]. *)
Definition zero_Options : Options :=
  {| o_ID := ""; o_Name := ""; o_Version := ""; o_Address := "";
     o_Timeout := 0; o_RegisterTTL := 0; o_RegisterInterval := 0;
     o_Middleware := [] |}.

End WithUser.
Arguments Options : clear implicits.
Arguments ServerOptions : clear implicits.
End transport.

(** ** transport/grpc: the server *)

Module grpc.
Section WithUser.
Context {U : Type}.
(** The Kitex server behind the wrapper, with what its [Run] and [Stop]
    return. *)
Context {Kitex : Type} (kitex_Run kitex_Stop : Kitex -> error).
(** [net.ResolveTCPAddr]: the error text for an address that does not
    resolve; and the [%T] verb. *)
Context (ResolveTCPAddr : string -> option string) (fmt_T : any -> string).

Record Server : Type := {
  opts : transport.Options U;
  server : option Kitex
}.

Definition NewServer (os : list (transport.ServerOptions U)) : Server :=
  {| opts := fold_left (fun o f => f o) os transport.zero_Options;
     server := None |}.

Definition Init (args : list ServerOption) (s : Server) : Server * error :=
  ({| opts := fold_left (fun o a => transport.Apply a o) args (opts s);
      server := server s |},
   None).

(** [RegisterService]: the server is left as it is; the result is the
    lines written. *)
Definition RegisterService (service : any) (s : Server) : Server * list string :=
  (s,
   (if String.eqb (transport.o_Address (opts s)) "" then []
    else match ResolveTCPAddr (transport.o_Address (opts s)) with
         | Some e => ["Failed to resolve address "
                      +:+ transport.o_Address (opts s) +:+ ": " +:+ e]
         | None => []
         end)
   ++ map (fun _ => "Adding middleware: middleware.Middleware"%string)
        (transport.o_Middleware (opts s))
   ++ ["Registered service: " +:+ fmt_T service]).

Definition Start (ctx : context) (s : Server) : error :=
  match server s with
  | None => None
  | Some k => kitex_Run k
  end.

Definition Stop (ctx : context) (s : Server) : error :=
  match server s with
  | None => None
  | Some k => kitex_Stop k
  end.

Definition GetKitexServer (s : Server) : option Kitex := server s.

(** The servers of a process, by address, and the server at address [i]
    as the [transport.Server] the application holds. *)
Definition with_server (w : nat -> Server) (i : nat) (s : Server)
  : nat -> Server :=
  fun j => if Nat.eqb j i then s else w j.

Definition as_transport_Server (i : nat)
  : newMilli.transport_Server (nat -> Server) :=
  {| newMilli.srv_Init := fun args w =>
       (with_server w i (Init args (w i)).1, (Init args (w i)).2);
     newMilli.srv_Start := fun ctx w => (w, Start ctx (w i));
     newMilli.srv_Stop := fun ctx w => (w, Stop ctx (w i)) |}.

(** What a program does to a server after [NewServer]. *)
Inductive use : Type :=
| UseInit (args : list ServerOption)
| UseRegisterService (service : any).

Definition use_step (s : Server) (u : use) : Server :=
  match u with
  | UseInit args => (Init args s).1
  | UseRegisterService service => (RegisterService service s).1
  end.

End WithUser.
Arguments Server : clear implicits.
End grpc.

(** ** transport/govern: the header carrier and the middleware adapter *)

Module govern.
Import middleware.

(** A carrier's map is nil until the first [Set]. *)
Record HeaderCarrier : Type := {
  header : option (gmap string string)
}.

Definition HeaderCarrier_Get (hc : HeaderCarrier) (key : string) : string :=
  match header hc with
  | None => ""
  | Some m => default ""%string (m !! key)
  end.

Definition HeaderCarrier_Set (hc : HeaderCarrier) (key value : string)
  : HeaderCarrier :=
  {| header := Some (<[key := value]> (default ∅ (header hc))) |}.

(** The keys, in one of the orders in which the map may be ranged
    over. *)
Definition HeaderCarrier_Keys (hc : HeaderCarrier) : list string :=
  match header hc with
  | None => []
  | Some m => (map_to_list m).*1
  end.

Section WithUser.
Context {U : Type}.

(** What the adapter uses of a Hertz request context: the path of the
    request, [Next] (the rest of the handler chain; [Some v] is a panic)
    and [AbortWithStatus]. *)
Record RequestContext : Type := {
  URI_Path : string;
  Next : context -> State U -> option any * State U;
  AbortWithStatus : Z -> State U -> State U
}.

Definition StatusInternalServerError : Z := 500.

(** The handler the adapter hands to the middleware. *)
Definition next_handler (rc : RequestContext) : Handler U :=
  fun c _ st =>
    match Next rc c st with
    | (None, st1) => (Return None None, st1)
    | (Some v, st1) => (Panic v, st1)
    end.

Definition convertMiddleware (m : Middleware U)
  : context -> RequestContext -> State U -> option any * State U :=
  fun c rc st =>
    let tr := {| Kind := KindHTTP; Operation := URI_Path rc |} in
    let newCtx := NewServerContext c tr in
    let h := m (next_handler rc) in
    match h newCtx None st with
    | (Return _ (Some _), st1) =>
        (None, AbortWithStatus rc StatusInternalServerError st1)
    | (Return _ None, st1) => (None, st1)
    | (Panic v, st1) => (Some v, st1)
    end.

End WithUser.
Arguments RequestContext : clear implicits.
End govern.

(** ** Notions used to state the properties *)

(** The entries of the launch loop of [Run] for [n] servers numbered from
    [i]: per server the stop waiter, then the start task. *)
Definition launched (i n : nat) : list newMilli.event :=
  flat_map (fun j => [newMilli.EvGoStop j; newMilli.EvGoStart j]) (seq i n).

(** The world after the hooks of a list have been called in order, each
    on the world the one before has left, when every one of them
    returned nil. *)
Fixpoint hooks_pass {W : Type} (c : context) (hooks : list (newMilli.Hook W))
    (w : W) : option W :=
  match hooks with
  | [] => Some w
  | fn :: rest =>
      match fn c w with
      | (w1, None) => hooks_pass c rest w1
      | (_, Some _) => None
      end
  end.

(** The world after [Init] has been called with [args] on the servers of
    a list in order, when every call returned nil. *)
Fixpoint inits_pass {W : Type} (args : list ServerOption)
    (srvs : list (newMilli.transport_Server W)) (w : W) : option W :=
  match srvs with
  | [] => Some w
  | srv :: rest =>
      match newMilli.srv_Init srv args w with
      | (w1, None) => inits_pass args rest w1
      | (_, Some _) => None
      end
  end.

(** [Run] hides the cancellation that ends the error group. *)
Definition hide_Canceled (r : error) : error :=
  match r with
  | Some Canceled => None
  | _ => r
  end.

(** A logging option that neither reads nor lets the level decide what
    it does to the two other settings. *)
Definition level_blind (o : logging.Option) : Prop :=
  forall cfg cfg',
    logging.disabled cfg = logging.disabled cfg' ->
    logging.slowThreshold cfg = logging.slowThreshold cfg' ->
    logging.disabled (o cfg) = logging.disabled (o cfg') /\
    logging.slowThreshold (o cfg) = logging.slowThreshold (o cfg').

(** Two circuit-breaker configurations that differ at most in [name]. *)
Definition same_but_name {U : Type} (cfg cfg' : @circuitbreaker.options U)
  : Prop :=
  circuitbreaker.disabled cfg = circuitbreaker.disabled cfg' /\
  circuitbreaker.maxRequests cfg = circuitbreaker.maxRequests cfg' /\
  circuitbreaker.interval cfg = circuitbreaker.interval cfg' /\
  circuitbreaker.timeout cfg = circuitbreaker.timeout cfg' /\
  circuitbreaker.readyToTrip cfg = circuitbreaker.readyToTrip cfg' /\
  circuitbreaker.onStateChange cfg = circuitbreaker.onStateChange cfg' /\
  circuitbreaker.isSuccessful cfg = circuitbreaker.isSuccessful cfg' /\
  circuitbreaker.fallbackHandler cfg = circuitbreaker.fallbackHandler cfg' /\
  circuitbreaker.circuitBreakerName cfg = circuitbreaker.circuitBreakerName cfg'.

(** A circuit-breaker option that does not let the name decide what it
    does to the other settings. *)
Definition name_blind {U : Type} (o : @circuitbreaker.Option U) : Prop :=
  forall cfg cfg', same_but_name cfg cfg' -> same_but_name (o cfg) (o cfg').

(** A handler that leaves the breaker at address [q] as it is. *)
Definition keeps_breaker {U : Type} (q : nat) (h : middleware.Handler U)
  : Prop :=
  forall ctx req st o st',
    h ctx req st = (o, st') ->
    middleware.breakers st' !! q = middleware.breakers st !! q.

(** Calls of [Allow] one after the other; each entry gives the time that
    passes before the call and the number of tokens asked for. *)
Fixpoint Allow_after {U : Type} (calls : list (Z * Z)) (limiter : nat)
    (st : middleware.State U) : option (list bool * middleware.State U) :=
  match calls with
  | [] => Some ([], st)
  | (delay, n) :: calls' =>
      match ratelimit.Allow limiter n
              (middleware.set_clock (middleware.clock st + delay)%Z st) with
      | None => None
      | Some (ok, st1) =>
          match Allow_after calls' limiter st1 with
          | None => None
          | Some (oks, st2) => Some (ok :: oks, st2)
          end
      end
  end.

(** A bucket in good standing at time [now]: its tokens are between
    zero and its capacity, its refill period and quantum are positive,
    and it has not been credited for periods that have not passed. *)
Definition bucket_sound (b : juju.Bucket) (now : Z) : Prop :=
  (0 <= juju.availableTokens b <= juju.capacity b)%Z /\
  (0 < juju.quantum b)%Z /\
  (0 < juju.fillInterval b)%Z /\
  (juju.latestTick b <= juju.currentTick b now)%Z.

(** The line the breaker middleware writes when it turns to the
    fallback. *)
Definition breaker_open_line (ctx : context) : string :=
  let '(kind, operation) :=
    match FromServerContext ctx with
    | Some tr => (Kind tr, Operation tr)
    | None => (""%string, ""%string)
    end in
  "[" +:+ kind +:+ "] server " +:+ operation +:+ " circuit breaker is open".

(** The timeout a breaker works with: the configured one, or the
    library's 60 seconds when that is not positive. *)
Definition effective_timeout {U : Type} (cfg : @circuitbreaker.options U) : Z :=
  if (circuitbreaker.timeout cfg <=? 0)%Z then 60000000000%Z
  else circuitbreaker.timeout cfg.

(** A breaker that works with the predicates, the callback and the
    limits of a configuration. *)
Definition configured {U : Type} (cfg : @circuitbreaker.options U)
    (cb : gobreaker.CircuitBreaker) : Prop :=
  gobreaker.ReadyToTrip (gobreaker.settings cb) = circuitbreaker.readyToTrip cfg /\
  gobreaker.IsSuccessful (gobreaker.settings cb)
  = circuitbreaker.isSuccessful cfg /\
  gobreaker.OnStateChange (gobreaker.settings cb)
  = circuitbreaker.onStateChange cfg /\
  gobreaker.Timeout (gobreaker.settings cb) = effective_timeout cfg /\
  gobreaker.MaxRequests (gobreaker.settings cb)
  = (if (circuitbreaker.maxRequests cfg =? 0)%Z then 1%Z
     else circuitbreaker.maxRequests cfg) /\
  gobreaker.Interval (gobreaker.settings cb)
  = (if (circuitbreaker.interval cfg <=? 0)%Z then 0%Z
     else circuitbreaker.interval cfg).

(** A registry whose every entry is the address of a breaker that bears
    the key as its name and works with the configuration. *)
Definition registry_ok {U : Type} (cfg : @circuitbreaker.options U)
    (reg : gmap string nat) (bs : list gobreaker.CircuitBreaker) : Prop :=
  forall n p, reg !! n = Some p ->
    exists cb, bs !! p = Some cb /\
      gobreaker.Name (gobreaker.settings cb) = n /\
      configured cfg cb.

(** Modelled from the spec: the requests on one breaker at the
    granularity of the breaker's own guard.  [Execute] of the missing
    library holds the breaker's lock twice, for the admission and for
    the bookkeeping, and runs the wrapped call unlocked in between
    (section 4.4); a request is about to be admitted, or runs in a
    generation, or has left.  [success] is how its call will end. *)
Inductive breaker_task : Type :=
| Entering (success : bool)
| Running (gen : Z) (success : bool)
| Gone.

(** Modelled from the spec: one guarded operation of the missing
    library on behalf of a request, at time [now]. *)
Definition breaker_step (now : Z) (t : breaker_task)
    (cb : gobreaker.CircuitBreaker) : breaker_task * gobreaker.CircuitBreaker :=
  match t with
  | Entering s =>
      let '(cb1, _, r) := gobreaker.beforeRequest now cb in
      (match r with inl gen => Running gen s | inr _ => Gone end, cb1)
  | Running gen s => (Gone, (gobreaker.afterRequest gen s now cb).1)
  | Gone => (Gone, cb)
  end.

(** A schedule names, step by step, the request that moves and the time
    at which it does. *)
Fixpoint run_breaker (sched : list (nat * Z)) (ts : list breaker_task)
    (cb : gobreaker.CircuitBreaker)
  : list breaker_task * gobreaker.CircuitBreaker :=
  match sched with
  | [] => (ts, cb)
  | (i, now) :: sched' =>
      match ts !! i with
      | None => run_breaker sched' ts cb
      | Some t =>
          let '(t', cb') := breaker_step now t cb in
          run_breaker sched' (<[i := t']> ts) cb'
      end
  end.

(** The requests among [ts] that run in generation [g]. *)
Definition runs_in (g : Z) (t : breaker_task) : Z :=
  match t with
  | Running g' _ => if (g' =? g)%Z then 1%Z else 0%Z
  | _ => 0%Z
  end.

Fixpoint running (g : Z) (ts : list breaker_task) : Z :=
  match ts with
  | [] => 0%Z
  | t :: rest => (runs_in g t + running g rest)%Z
  end.

(** The counters of a breaker account for the requests [ts]: the
    requests counted in the current generation are those whose result
    has been recorded and those that still run in it; no request runs
    in a generation to come, and none in the generation of an Open
    breaker. *)
Definition not_ahead (g : Z) (t : breaker_task) : Prop :=
  match t with
  | Running g' _ => (g' <= g)%Z
  | _ => True
  end.

Definition accounted (ts : list breaker_task) (cb : gobreaker.CircuitBreaker)
  : Prop :=
  Forall (not_ahead (gobreaker.generation cb)) ts /\
  gobreaker.Requests (gobreaker.counts cb)
  = (gobreaker.TotalSuccesses (gobreaker.counts cb)
     + gobreaker.TotalFailures (gobreaker.counts cb)
     + running (gobreaker.generation cb) ts)%Z /\
  (gobreaker.state cb = gobreaker.StateOpen ->
   running (gobreaker.generation cb) ts = 0%Z).

(** The counts of a breaker that has seen [j] requests, all failed. *)
Definition failures (j : nat) : gobreaker.Counts :=
  {| gobreaker.Requests := Z.of_nat j; gobreaker.TotalSuccesses := 0;
     gobreaker.TotalFailures := Z.of_nat j;
     gobreaker.ConsecutiveSuccesses := 0;
     gobreaker.ConsecutiveFailures := Z.of_nat j |}.

(** A handler whose calls with [ctx] and [req] all fail: each panics or
    returns an error that the configuration counts as a failure (and
    that is not the rejection of another breaker); it takes no time and
    cannot reach the breakers and registries of the middleware. *)
Definition fails_quietly {U : Type} (cfg : @circuitbreaker.options U)
    (h : middleware.Handler U) (ctx : context) (req : option any) : Prop :=
  forall st, exists o st',
    h ctx req st = (o, st') /\
    match o with
    | middleware.Return _ e =>
        circuitbreaker.isSuccessful cfg e = false /\
        circuitbreaker.is_ErrOpenState e = false
    | middleware.Panic _ => True
    end /\
    middleware.clock st' = middleware.clock st /\
    middleware.breakers st' = middleware.breakers st /\
    middleware.registries st' = middleware.registries st.

(** The state after [k] calls of a handler with the same token and
    request, one after the other. *)
Fixpoint after_calls {U : Type} (k : nat) (wrapped : middleware.Handler U)
    (ctx : context) (req : option any) (st : middleware.State U)
  : middleware.State U :=
  match k with
  | O => st
  | S k' => after_calls k' wrapped ctx req (wrapped ctx req st).2
  end.

(** ** Concrete inputs used below *)

Module examples.
Import newMilli.

(** A hook that counts its runs in the world, and one that fails. *)
Definition counting_hook : Hook nat := fun _ w => (S w, None).
Definition failing_hook : Hook nat := fun _ w => (w, Some (Errorf "boom")).

Definition idle_server : transport_Server nat :=
  {| srv_Init := fun _ w => (w, None);
     srv_Start := fun _ w => (w, None);
     srv_Stop := fun _ w => (w, None) |}.

Definition fresh : Process nat := {| world := 0; cells := []; trace := [] |}.

(** An application with one server whose second beforeStart hook fails. *)
Definition failing_start_app : App nat :=
  {| app_opts := configure [Server [idle_server]; BeforeStart counting_hook;
                            BeforeStart failing_hook; BeforeStart counting_hook];
     app_ctx := WithCancel Background 0;
     app_cancel := Some 0 |}.

(** An application with one counting hook before and one after stop. *)
Definition stopping_app : App nat :=
  {| app_opts := configure [BeforeStop counting_hook; AfterStop counting_hook];
     app_ctx := WithCancel Background 0;
     app_cancel := Some 0 |}.

Definition started : Process nat := {| world := 0; cells := [false]; trace := [] |}.

(** Tasks that have done nothing by the time a hook runs, and tasks of
    which one has failed, so that the error group has cancelled its
    token (the cell [Run] allocates in [started]) and the world has
    moved on. *)
Definition quiet_tasks : App nat -> context -> nat -> nat -> list bool
                         -> nat * list bool :=
  fun _ _ _ w cs => (w, cs).
Definition failed_task : App nat -> context -> nat -> nat -> list bool
                         -> nat * list bool :=
  fun _ _ _ w cs => (w + 10, <[1 := true]> cs).

(** A server that counts the calls of its [Init]. *)
Definition counting_server : transport_Server nat :=
  {| srv_Init := fun _ w => (S w, None);
     srv_Start := fun _ w => (w, None);
     srv_Stop := fun _ w => (w, None) |}.

(** A server whose [Init] fails, after counting the call. *)
Definition broken_server : transport_Server nat :=
  {| srv_Init := fun _ w => (S w, Some (Errorf "no port"));
     srv_Start := fun _ w => (w, None);
     srv_Stop := fun _ w => (w, None) |}.

(** A state with nothing allocated, at time [t]. *)
Definition idle (t : Z) : middleware.State unit :=
  {| middleware.user := tt; middleware.clock := t; middleware.cells := [];
     middleware.buckets := []; middleware.breakers := [];
     middleware.registries := []; middleware.klog := [] |}.

(** A handler that panics, one that serves, one whose backend is down. *)
Definition panicking : middleware.Handler unit :=
  fun _ _ st => (middleware.Panic (AnyStr "boom"), st).
Definition serving : middleware.Handler unit :=
  fun _ _ st => (middleware.Return (Some (AnyStr "served")) None, st).
Definition failing : middleware.Handler unit :=
  fun _ _ st => (middleware.Return None (Some (Errorf "backend down")), st).

Definition no_stack : Z -> bool -> string := fun _ _ => ""%string.

(** The allocation limit of the 64-bit platforms. *)
Definition maxAlloc64 : Z := 2 ^ 48.

(** The bucket of capacity 10 refilled at 10 tokens per second (one
    token every 100 ms), created at time [t], holding [a] tokens. *)
Definition bucket10 (t a : Z) : juju.Bucket :=
  {| juju.startTime := t; juju.capacity := 10; juju.quantum := 1;
     juju.fillInterval := 100000000; juju.availableTokens := a;
     juju.latestTick := 0 |}.

(** The state at time 0 whose only bucket is [bucket10 0 a]. *)
Definition with_bucket (a : Z) : middleware.State unit :=
  middleware.set_buckets [bucket10 0 a] (idle 0).

(** The order of causes in which a parent that is done was done
    first. *)
Definition parent_first : context -> bool := fun _ => false.

(** A token with a deadline 50 ms from time 0. *)
Definition deadline_50ms : context := WithDeadline Background 50000000.

(** [k] calls in a row through a wrapped handler, at a clock that stands
    still. *)
Fixpoint call_times (k : nat) (wrapped : middleware.Handler unit)
    (st : middleware.State unit) : middleware.State unit :=
  match k with
  | O => st
  | S k' => call_times k' wrapped (wrapped Background None st).2
  end.

(** The breaker middleware with the default options, built at time 0:
    its registry is at address 0. *)
Definition default_breaker : @circuitbreaker.options unit :=
  circuitbreaker.configure [].
Definition breaker_built : middleware.State unit :=
  (circuitbreaker.Server [] (idle 0)).2.

(** The settings of the breaker the default middleware creates for a
    request that carries no transport. *)
Definition server_settings : gobreaker.Settings :=
  gobreaker.settings
    (gobreaker.NewCircuitBreaker
       (circuitbreaker.Settings_of default_breaker "server") 0).

(** That breaker, Closed in its first generation, after [k] requests that
    all failed. *)
Definition after_failures (k : Z) : gobreaker.CircuitBreaker :=
  {| gobreaker.settings := server_settings;
     gobreaker.state := gobreaker.StateClosed;
     gobreaker.generation := 1;
     gobreaker.counts :=
       {| gobreaker.Requests := k; gobreaker.TotalSuccesses := 0;
          gobreaker.TotalFailures := k; gobreaker.ConsecutiveSuccesses := 0;
          gobreaker.ConsecutiveFailures := k |};
     gobreaker.expiry := Some 60000000000%Z |}.

(** The breaker of [after_failures k] with one more request admitted. *)
Definition admitted (k : Z) : gobreaker.CircuitBreaker :=
  gobreaker.with_counts (after_failures k)
    (gobreaker.Counts_onRequest (gobreaker.counts (after_failures k))).

(** The same breaker once tripped at time 0. *)
Definition tripped : gobreaker.CircuitBreaker :=
  {| gobreaker.settings := server_settings;
     gobreaker.state := gobreaker.StateOpen;
     gobreaker.generation := 2;
     gobreaker.counts := gobreaker.Counts_clear;
     gobreaker.expiry := Some 60000000000%Z |}.

(** The state after nine calls whose handler fails. *)
Definition nine_failures : middleware.State unit :=
  {| middleware.user := tt; middleware.clock := 0; middleware.cells := [];
     middleware.buckets := []; middleware.breakers := [after_failures 9];
     middleware.registries := [{[ "server"%string := 0 ]}];
     middleware.klog := [] |}.

(** The state after the tenth. *)
Definition ten_failures : middleware.State unit :=
  {| middleware.user := tt; middleware.clock := 0; middleware.cells := [];
     middleware.buckets := []; middleware.breakers := [tripped];
     middleware.registries := [{[ "server"%string := 0 ]}];
     middleware.klog :=
       ["Circuit breaker server changed from closed to open"%string] |}.

(** An application whose only afterStart hook fails, with two servers. *)
Definition failing_afterStart_app : App nat :=
  {| app_opts := configure [Server [idle_server; idle_server];
                            BeforeStart counting_hook;
                            AfterStart failing_hook];
     app_ctx := WithCancel Background 0;
     app_cancel := Some 0 |}.

(** An application with one server and one hook at each start phase. *)
Definition starting_app : App nat :=
  {| app_opts := configure [Server [idle_server];
                            BeforeStart counting_hook;
                            AfterStart counting_hook];
     app_ctx := WithCancel Background 0;
     app_cancel := Some 0 |}.

(** An application whose beforeStop hook fails. *)
Definition stuck_app : App nat :=
  {| app_opts := configure [BeforeStop failing_hook; AfterStop counting_hook];
     app_ctx := WithCancel Background 0;
     app_cancel := Some 0 |}.

(** A breaker middleware that opens on three failures in a row, for
    five seconds, and then answers from a cache. *)
Definition strict_breaker : @circuitbreaker.options unit :=
  circuitbreaker.configure
    [circuitbreaker.WithReadyToTrip
       (fun c => (3 <=? gobreaker.ConsecutiveFailures c)%Z);
     circuitbreaker.WithTimeout 5000000000;
     circuitbreaker.WithFallbackHandler
       (fun _ _ st => (middleware.Return (Some (AnyStr "cached")) None, st))].

(** A request for the operation [/pay] arriving over HTTP. *)
Definition pay_request : context :=
  NewServerContext Background {| Kind := KindHTTP; Operation := "/pay" |}.

(** A handler that hands on the rejection of a breaker further down. *)
Definition nested_open : middleware.Handler unit :=
  fun _ _ st => (middleware.Return None (Some ErrOpenState), st).

(** The breaker middleware that keeps one breaker, under the key
    [server], for all requests. *)
Definition one_breaker : @circuitbreaker.options unit :=
  circuitbreaker.configure [circuitbreaker.WithCircuitBreakerName (fun _ => "server"%string)].

(** The Hertz side of a request for [/pay]: setting a status leaves a
    line, and the rest of the chain is [next]. *)
Definition pay_page (next : context -> middleware.State unit
                            -> option any * middleware.State unit)
  : govern.RequestContext unit :=
  {| govern.URI_Path := "/pay";
     govern.Next := next;
     govern.AbortWithStatus := fun code st =>
       middleware.log_lines
         [if (code =? 500)%Z then "status 500" else "status"]%string st |}.

(** The rest of a chain that answers with status 500 itself. *)
Definition answers_500 : context -> middleware.State unit
                         -> option any * middleware.State unit :=
  fun _ st => (None, middleware.log_lines ["status 500"%string] st).

(** A process with two gRPC servers built with an address each. *)
Definition two_grpc : Process (nat -> grpc.Server unit unit) :=
  {| world := fun j =>
       grpc.NewServer [transport.Address (if Nat.eqb j 0 then ":9000" else ":9001")%string];
     cells := []; trace := [] |}.

End examples.

(** * Properties *)

(** ** Contexts *)

Lemma ctx_first_inherited (own_first : bool) (inherited own : error) :
  is_Some inherited -> is_Some (ctx_first own_first inherited own).
Proof.
  intros [e ->]. destruct own; simpl; eauto.
Qed.

(** Whether a context is done does not depend on the order of the
    causes. *)
Lemma ctx_Err_Done (own_first : context -> bool) cs now ctx :
  is_Some (ctx_Err own_first cs now ctx) <-> ctx_Done cs now ctx = true.
Proof.
  induction ctx as [|parent IH c|parent IH d|parent IH v]; simpl.
  - split; [by intros [? ?]|discriminate].
  - rewrite orb_true_iff, <- IH.
    destruct (ctx_Err own_first cs now parent), (default false (cs !! c));
      simpl; split; eauto; intros [[? ?]|?]; eauto; discriminate.
  - rewrite orb_true_iff, <- IH.
    destruct (ctx_Err own_first cs now parent), (d <=? now)%Z;
      simpl; split; eauto; intros [[? ?]|?]; eauto; discriminate.
  - exact IH.
Qed.

(** ** The application *)

Section AppProps.
Import newMilli.
Context {W : Type}.
Implicit Types (p : Process W) (a : App W).

Lemma run_hooks_trace ph c hooks : forall i p,
  let '(r, p') := run_hooks ph c i hooks p in
  cells p' = cells p /\
  match r with
  | None => trace p' = trace p ++ hooks_ok ph i (length hooks)
  | Some e =>
      exists k, k < length hooks /\
        trace p' = trace p ++ hooks_ok ph i k ++ [EvHook ph (i + k) (Some e)]
  end.
Proof.
  induction hooks as [|fn rest IH]; intros i p; simpl.
  - split; [reflexivity|]. unfold hooks_ok; simpl. by rewrite app_nil_r.
  - destruct (fn c (world p)) as [w r] eqn:Hfn.
    destruct r as [e|].
    + split; [reflexivity|]. exists 0. split; [lia|].
      simpl. by rewrite Nat.add_0_r.
    + specialize (IH (S i) (called (EvHook ph i None) w p)).
      destruct (run_hooks ph c (S i) rest _) as [r p'].
      destruct IH as [Hc Ht]. split; [exact Hc|].
      destruct r as [e|].
      * destruct Ht as (k & Hk & Ht). exists (S k). split; [lia|].
        rewrite Ht. simpl. rewrite <- app_assoc. simpl.
        by replace (i + S k) with (S i + k) by lia.
      * rewrite Ht. simpl. by rewrite <- app_assoc.
Qed.

Lemma run_hooks_prefix_fail ph c (pre : list (Hook W)) (h : Hook W)
    (post : list (Hook W)) e w2 : forall i p p1,
  run_hooks ph c i pre p = (None, p1) ->
  h c (world p1) = (w2, Some e) ->
  run_hooks ph c i (pre ++ h :: post) p
  = (Some e, called (EvHook ph (i + length pre) (Some e)) w2 p1).
Proof.
  induction pre as [|fn rest IH]; intros i p p1 Hpre Hh; simpl in *.
  - inversion Hpre; subst. rewrite Hh. by rewrite Nat.add_0_r.
  - destruct (fn c (world p)) as [w r]. destruct r as [e'|]; [discriminate|].
    rewrite (IH _ _ _ Hpre Hh). by replace (S i + length rest) with (i + S (length rest)) by lia.
Qed.

Lemma init_servers_trace o srvs : forall i p,
  let args := [transport_ID (id o); transport_Name (name o);
               transport_Version (version o)] in
  let '(r, p') := init_servers o i srvs p in
  cells p' = cells p /\
  match r with
  | None => trace p' = trace p ++ inits_ok args i (length srvs)
  | Some e =>
      exists k, k < length srvs /\
        trace p' = trace p ++ inits_ok args i k ++ [EvInit (i + k) args (Some e)]
  end.
Proof.
  induction srvs as [|srv rest IH]; intros i p; simpl.
  - split; [reflexivity|]. unfold inits_ok; simpl. by rewrite app_nil_r.
  - destruct (srv_Init srv _ (world p)) as [w r] eqn:Hfn.
    destruct r as [e|].
    + split; [reflexivity|]. exists 0. split; [lia|].
      simpl. by rewrite Nat.add_0_r.
    + specialize (IH (S i)
        (called (EvInit i [transport_ID (id o); transport_Name (name o);
                           transport_Version (version o)] None) w p)).
      simpl in IH.
      destruct (init_servers o (S i) rest _) as [r p'].
      destruct IH as [Hc Ht]. split; [exact Hc|].
      destruct r as [e|].
      * destruct Ht as (k & Hk & Ht). exists (S k). split; [lia|].
        rewrite Ht. simpl. rewrite <- app_assoc. simpl.
        by replace (i + S k) with (S i + k) by lia.
      * rewrite Ht. simpl. by rewrite <- app_assoc.
Qed.

Lemma Process_eta p :
  {| world := world p; cells := cells p; trace := trace p |} = p.
Proof. by destruct p. Qed.

(** Hooks that all return nil take the world through each of them. *)
Lemma run_hooks_pass ph c (hooks : list (Hook W)) : forall i p w',
  hooks_pass c hooks (world p) = Some w' ->
  run_hooks ph c i hooks p
  = (None, {| world := w'; cells := cells p;
              trace := trace p ++ hooks_ok ph i (length hooks) |}).
Proof.
  induction hooks as [|fn rest IH]; intros i p w'; simpl.
  - intros H; inversion H; subst. unfold hooks_ok. simpl.
    by rewrite app_nil_r, Process_eta.
  - destruct (fn c (world p)) as [w [e|]]; [discriminate|].
    intros H. rewrite (IH (S i) (called (EvHook ph i None) w p) w' H).
    simpl. by rewrite <- app_assoc.
Qed.

(** The first hook that fails, after hooks that return nil, ends the
    loop with its error and the world it left. *)
Lemma run_hooks_fail ph c (pre : list (Hook W)) (h : Hook W)
    (post : list (Hook W)) e w1 w2 i p :
  hooks_pass c pre (world p) = Some w1 ->
  h c w1 = (w2, Some e) ->
  run_hooks ph c i (pre ++ h :: post) p
  = (Some e, {| world := w2; cells := cells p;
                trace := trace p ++ hooks_ok ph i (length pre)
                           ++ [EvHook ph (i + length pre) (Some e)] |}).
Proof.
  intros Hpre Hh.
  rewrite (run_hooks_prefix_fail ph c pre h post e w2 i p _
             (run_hooks_pass ph c pre i p w1 Hpre) Hh).
  unfold called. simpl. by rewrite <- app_assoc.
Qed.

Lemma init_servers_pass o (srvs : list (transport_Server W)) : forall i p w',
  let args := [transport_ID (id o); transport_Name (name o);
               transport_Version (version o)] in
  inits_pass args srvs (world p) = Some w' ->
  init_servers o i srvs p
  = (None, {| world := w'; cells := cells p;
              trace := trace p ++ inits_ok args i (length srvs) |}).
Proof.
  induction srvs as [|srv rest IH]; intros i p w'; simpl.
  - intros H; inversion H; subst. unfold inits_ok. simpl.
    by rewrite app_nil_r, Process_eta.
  - destruct (srv_Init srv _ (world p)) as [w [e|]]; [discriminate|].
    intros H. simpl in IH.
    rewrite (IH (S i)
               (called (EvInit i [transport_ID (id o); transport_Name (name o);
                                  transport_Version (version o)] None) w p)
               w' H).
    simpl. by rewrite <- app_assoc.
Qed.

Lemma init_servers_fail o (pre : list (transport_Server W))
    (srv : transport_Server W) (post : list (transport_Server W)) e w2 :
  forall i p w1,
  let args := [transport_ID (id o); transport_Name (name o);
               transport_Version (version o)] in
  inits_pass args pre (world p) = Some w1 ->
  srv_Init srv args w1 = (w2, Some e) ->
  init_servers o i (pre ++ srv :: post) p
  = (Some e, {| world := w2; cells := cells p;
                trace := trace p ++ inits_ok args i (length pre)
                           ++ [EvInit (i + length pre) args (Some e)] |}).
Proof.
  induction pre as [|s0 rest IH]; intros i p w1; simpl.
  - intros H Hs; inversion H; subst. rewrite Hs.
    unfold inits_ok. simpl. by rewrite Nat.add_0_r.
  - destruct (srv_Init s0 _ (world p)) as [w [e'|]]; [discriminate|].
    intros H Hs. simpl in IH.
    rewrite (IH (S i)
               (called (EvInit i [transport_ID (id o); transport_Name (name o);
                                  transport_Version (version o)] None) w p)
               w1 H Hs).
    simpl. rewrite <- app_assoc. unfold inits_ok. simpl.
    by replace (i + S (length rest)) with (S (i + length rest)) by lia.
Qed.

End AppProps.

Section AppTheorems.
Import newMilli.
Context {W : Type}.
Implicit Types (p : Process W) (a : App W).

(** C3.  If, running the beforeStart hooks in order, the hooks [pre]
    return nil and the next hook [h] returns the error [e], then [Run]
    returns [e]; the calls it made are exactly those of [pre] and of
    [h], in order: no hook after [h] runs, and no start task of any
    server is launched, whatever the task phase would have done. *)
Theorem Run_beforeStart_error
    (eg_tasks : App W -> context -> nat -> W -> list bool -> W * list bool)
    (eg_Wait : App W -> context -> Process W -> error * Process W)
    a p (pre : list (Hook W)) (h : Hook W) (post : list (Hook W))
    (e : err) p1 (w2 : W) :
  let c := WithCancel (NewContext (app_ctx a) (AppInfo_of a))
                      (length (cells p)) in
  let p0 := {| world := world p; cells := cells p ++ [false];
               trace := trace p |} in
  beforeStart (app_opts a) = pre ++ h :: post ->
  run_hooks PBeforeStart c 0 pre p0 = (None, p1) ->
  h c (world p1) = (w2, Some e) ->
  exists p', Run eg_tasks eg_Wait a p = (Some e, p') /\
    world p' = w2 /\
    trace p' = trace p ++ hooks_ok PBeforeStart 0 (length pre)
                       ++ [EvHook PBeforeStart (length pre) (Some e)] /\
    (forall i, EvGoStart i ∈ trace p' -> EvGoStart i ∈ trace p).
Proof.
  intros c p0 Hhooks Hpre Hh.
  pose proof (run_hooks_prefix_fail PBeforeStart c pre h post e w2 0 p0 p1 Hpre Hh) as Hrun.
  pose proof (run_hooks_trace PBeforeStart c pre 0 p0) as Htr.
  rewrite Hpre in Htr. destruct Htr as [_ Htr]. simpl in Htr.
  eexists. split.
  - unfold Run. rewrite Hhooks. subst c p0. rewrite Hrun. reflexivity.
  - simpl. split; [reflexivity|].
    assert (Heq : trace p1 ++ [EvHook PBeforeStart (length pre) (Some e)]
                  = trace p ++ hooks_ok PBeforeStart 0 (length pre)
                      ++ [EvHook PBeforeStart (length pre) (Some e)]).
    { rewrite Htr. by rewrite <- app_assoc. }
    split; [exact Heq|].
    intros i Hin. rewrite Heq in Hin.
    apply elem_of_app in Hin as [Hin|Hin]; [exact Hin|].
    exfalso. apply elem_of_app in Hin as [Hin|Hin].
    + unfold hooks_ok in Hin. apply list_elem_of_fmap in Hin as (j & Hj & _).
      discriminate.
    + apply list_elem_of_singleton in Hin. discriminate.
Qed.

(** C2 (as amended).  A second [Stop], when the root token is already
    cancelled, does not fault and leaves the token cancelled, but it is
    not a no-op: it calls the beforeStop hooks in order again, each on
    the world the one before has left, and, when none of them fails,
    calls the cancel function again (without effect) and calls the
    afterStop hooks in order again; it returns the error of the first
    hook that fails, calling no hook after it, or nil. *)
Theorem Stop_again_runs_hooks a p (c : nat) :
  app_cancel a = Some c ->
  cells p !! c = Some true ->
  let cx := NewContext (app_ctx a) (AppInfo_of a) in
  let before := beforeStop (app_opts a) in
  let after := afterStop (app_opts a) in
  (forall w1 w2,
      hooks_pass cx before (world p) = Some w1 ->
      hooks_pass cx after w1 = Some w2 ->
      Stop a p
      = (None,
         {| world := w2; cells := cells p;
            trace := trace p ++ hooks_ok PBeforeStop 0 (length before)
                       ++ [EvCancel c]
                       ++ hooks_ok PAfterStop 0 (length after) |})) /\
  (forall pre h post e w1 w2,
      before = pre ++ h :: post ->
      hooks_pass cx pre (world p) = Some w1 ->
      h cx w1 = (w2, Some e) ->
      Stop a p
      = (Some e,
         {| world := w2; cells := cells p;
            trace := trace p ++ hooks_ok PBeforeStop 0 (length pre)
                       ++ [EvHook PBeforeStop (length pre) (Some e)] |})) /\
  (forall w1 pre h post e w2 w3,
      hooks_pass cx before (world p) = Some w1 ->
      after = pre ++ h :: post ->
      hooks_pass cx pre w1 = Some w2 ->
      h cx w2 = (w3, Some e) ->
      Stop a p
      = (Some e,
         {| world := w3; cells := cells p;
            trace := trace p ++ hooks_ok PBeforeStop 0 (length before)
                       ++ [EvCancel c]
                       ++ hooks_ok PAfterStop 0 (length pre)
                       ++ [EvHook PAfterStop (length pre) (Some e)] |})).
Proof.
  intros Hc Hcell cx before after.
  assert (Hcan : forall w1,
             cancel a {| world := w1; cells := cells p;
                         trace := trace p
                                  ++ hooks_ok PBeforeStop 0 (length before) |}
             = {| world := w1; cells := cells p;
                  trace := (trace p ++ hooks_ok PBeforeStop 0 (length before))
                           ++ [EvCancel c] |}).
  { intros w1. unfold cancel. rewrite Hc. simpl.
    by rewrite (list_insert_id _ _ _ Hcell). }
  split; [|split].
  - intros w1 w2 Hb Ha. unfold Stop. fold cx before after.
    rewrite (run_hooks_pass PBeforeStop cx before 0 p w1 Hb), Hcan.
    rewrite (run_hooks_pass PAfterStop cx after 0
               {| world := w1; cells := cells p;
                  trace := (trace p ++ hooks_ok PBeforeStop 0 (length before))
                           ++ [EvCancel c] |} w2 Ha).
    simpl. by rewrite <- !app_assoc.
  - intros pre h post e w1 w2 Hsplit Hpre Hh. unfold Stop.
    fold cx before. rewrite Hsplit.
    by rewrite (run_hooks_fail PBeforeStop cx pre h post e w1 w2 0 p Hpre Hh).
  - intros w1 pre h post e w2 w3 Hb Hsplit Hpre Hh. unfold Stop.
    fold cx before after.
    rewrite (run_hooks_pass PBeforeStop cx before 0 p w1 Hb), Hcan, Hsplit.
    rewrite (run_hooks_fail PAfterStop cx pre h post e w2 w3 0
               {| world := w1; cells := cells p;
                  trace := (trace p ++ hooks_ok PBeforeStop 0 (length before))
                           ++ [EvCancel c] |} Hpre Hh).
    simpl. by rewrite <- !app_assoc.
Qed.

(** C9.  [New] calls [Init] on the servers in list order, each on the
    world the one before has left and each with the configured id, name
    and version.  When every call returns nil, [New] returns an
    application with the configured options whose root token is a new
    cancellable child of the configured parent context (the one given
    with the [Context] option): as long as its own cancel function has
    not been called it reports what the parent reports, and it is done
    whenever the parent is.  When an [Init] returns an error, after
    servers whose [Init] returned nil, [New] returns that error and no
    application, whatever servers follow in the list: none of them is
    initialised, and no token is created. *)
Theorem New_inits_in_order (opts : list (Option W)) p :
  let o := configure opts in
  let args := [transport_ID (id o); transport_Name (name o);
               transport_Version (version o)] in
  (forall w',
      inits_pass args (servers o) (world p) = Some w' ->
      exists a,
        New opts p
        = (Some a, None,
           {| world := w'; cells := cells p ++ [false];
              trace := trace p ++ inits_ok args 0 (length (servers o)) |}) /\
        app_opts a = o /\
        app_ctx a = WithCancel (ctx o) (length (cells p)) /\
        app_cancel a = Some (length (cells p)) /\
        ctx_parent (app_ctx a) = Some (ctx o) /\
        (forall own_first cs now,
            default false (cs !! length (cells p)) = false ->
            ctx_Err own_first cs now (app_ctx a)
            = ctx_Err own_first cs now (ctx o)) /\
        (forall own_first cs now,
            is_Some (ctx_Err own_first cs now (ctx o)) ->
            is_Some (ctx_Err own_first cs now (app_ctx a)))) /\
  (forall pre srv post e w1 w2,
      servers o = pre ++ srv :: post ->
      inits_pass args pre (world p) = Some w1 ->
      srv_Init srv args w1 = (w2, Some e) ->
      New opts p
      = (None, Some e,
         {| world := w2; cells := cells p;
            trace := trace p ++ inits_ok args 0 (length pre)
                       ++ [EvInit (length pre) args (Some e)] |})) /\
  (forall c, ctx (configure (opts ++ [Context c])) = c).
Proof.
  intros o args. split; [|split].
  - intros w' Hpass. unfold New. fold o.
    rewrite (init_servers_pass o (servers o) 0 p w' Hpass). simpl.
    eexists. split; [reflexivity|]. simpl.
    repeat split; try reflexivity.
    + intros own_first cs now Hcell. simpl. rewrite Hcell.
      by destruct (ctx_Err own_first cs now (ctx o)).
    + intros own_first cs now He. simpl. by apply ctx_first_inherited.
  - intros pre srv post e w1 w2 Hsplit Hpre Hs. unfold New. fold o.
    rewrite Hsplit.
    by rewrite (init_servers_fail o pre srv post e w2 0 p w1 Hpre Hs).
  - intros c. unfold configure. by rewrite fold_left_app.
Qed.

End AppTheorems.

(** [New] on three servers, the second of which fails to initialise:
    the third is never asked, and no token is created. *)
Example New_stops_at_first_failure :
  newMilli.New [newMilli.ID "i"; newMilli.Name "n"; newMilli.Version "v";
                newMilli.Server [examples.idle_server; examples.broken_server;
                                 examples.idle_server]]
    examples.fresh
  = (None, Some (Errorf "no port"),
     {| newMilli.world := 1; newMilli.cells := [];
        newMilli.trace :=
          [newMilli.EvInit 0
             [transport_ID "i"; transport_Name "n"; transport_Version "v"] None;
           newMilli.EvInit 1
             [transport_ID "i"; transport_Name "n"; transport_Version "v"]
             (Some (Errorf "no port"))] |}).
Proof. reflexivity. Qed.

(** C3 at a concrete application: the second of three beforeStart hooks
    fails. *)
Lemma Run_beforeStart_error_witness :
  exists p', newMilli.Run examples.failed_task (fun _ _ p => (None, p))
               examples.failing_start_app examples.started
             = (Some (Errorf "boom"), p') /\
    newMilli.world p' = 1 /\
    newMilli.trace p'
    = [] ++ newMilli.hooks_ok newMilli.PBeforeStart 0 1
         ++ [newMilli.EvHook newMilli.PBeforeStart 1 (Some (Errorf "boom"))] /\
    (forall i, newMilli.EvGoStart i ∈ newMilli.trace p' ->
               newMilli.EvGoStart i ∈ @nil newMilli.event).
Proof.
  exact (Run_beforeStart_error examples.failed_task (fun _ _ p => (None, p))
           examples.failing_start_app examples.started
           [examples.counting_hook] examples.failing_hook
           [examples.counting_hook] (Errorf "boom")
           _ 1 eq_refl eq_refl eq_refl).
Defined.

(** C2 fails: on an application with one hook before and one after stop,
    the second [Stop] finds the root token cancelled and still runs both
    hooks again. *)
Lemma Stop_twice_runs_hooks_twice :
  let p1 := (newMilli.Stop examples.stopping_app examples.started).2 in
  let r2 := (newMilli.Stop examples.stopping_app p1).1 in
  let p2 := (newMilli.Stop examples.stopping_app p1).2 in
  ctx_Err examples.parent_first (newMilli.cells p1) 0
    (newMilli.app_ctx examples.stopping_app) = Some Canceled /\
  r2 = None /\
  p2 <> p1 /\
  newMilli.world p1 = 2 /\ newMilli.world p2 = 4 /\
  newMilli.trace p2
  = newMilli.trace p1
    ++ [newMilli.EvHook newMilli.PBeforeStop 0 None; newMilli.EvCancel 0;
        newMilli.EvHook newMilli.PAfterStop 0 None].
Proof.
  cbv zeta. repeat split; try reflexivity. discriminate.
Qed.

(** The amended C2 at the same application: the second [Stop] takes the
    world through both hooks again. *)
Lemma Stop_again_runs_hooks_witness :
  newMilli.Stop examples.stopping_app
    (newMilli.Stop examples.stopping_app examples.started).2
  = (None,
     {| newMilli.world := 4; newMilli.cells := [true];
        newMilli.trace :=
          newMilli.trace
            (newMilli.Stop examples.stopping_app examples.started).2
          ++ newMilli.hooks_ok newMilli.PBeforeStop 0 1
          ++ [newMilli.EvCancel 0]
          ++ newMilli.hooks_ok newMilli.PAfterStop 0 1 |}).
Proof.
  exact (proj1 (Stop_again_runs_hooks examples.stopping_app
                  (newMilli.Stop examples.stopping_app examples.started).2 0
                  eq_refl eq_refl) 3 4 eq_refl eq_refl).
Defined.

(** C9 at three servers of which the second fails to initialise, and at
    two servers that initialise. *)
Lemma New_inits_in_order_witness :
  newMilli.New [newMilli.ID "i"; newMilli.Name "n"; newMilli.Version "v";
                newMilli.Server [examples.counting_server;
                                 examples.broken_server;
                                 examples.counting_server]]
    examples.fresh
  = (None, Some (Errorf "no port"),
     {| newMilli.world := 2; newMilli.cells := [];
        newMilli.trace :=
          [] ++ newMilli.inits_ok
                  [transport_ID "i"; transport_Name "n"; transport_Version "v"]
                  0 1
             ++ [newMilli.EvInit 1
                   [transport_ID "i"; transport_Name "n"; transport_Version "v"]
                   (Some (Errorf "no port"))] |}) /\
  exists a,
    newMilli.New [newMilli.ID "i"; newMilli.Name "n"; newMilli.Version "v";
                  newMilli.Server [examples.counting_server;
                                   examples.counting_server]]
      examples.fresh
    = (Some a, None,
       {| newMilli.world := 2; newMilli.cells := [] ++ [false];
          newMilli.trace :=
            [] ++ newMilli.inits_ok
                    [transport_ID "i"; transport_Name "n";
                     transport_Version "v"] 0 2 |}) /\
    newMilli.app_ctx a = WithCancel Background 0.
Proof.
  split.
  - exact (proj1 (proj2 (New_inits_in_order
                           [newMilli.ID "i"; newMilli.Name "n";
                            newMilli.Version "v";
                            newMilli.Server [examples.counting_server;
                                             examples.broken_server;
                                             examples.counting_server]]
                           examples.fresh))
             [examples.counting_server] examples.broken_server
             [examples.counting_server] (Errorf "no port") 1 2
             eq_refl eq_refl eq_refl).
  - destruct (proj1 (New_inits_in_order
                       [newMilli.ID "i"; newMilli.Name "n";
                        newMilli.Version "v";
                        newMilli.Server [examples.counting_server;
                                         examples.counting_server]]
                       examples.fresh) 2 eq_refl)
      as (a & Hnew & _ & Hctx & _).
    exists a. split; [exact Hnew|exact Hctx].
Defined.

(** ** Recovery *)

Section RecoveryTheorems.
Import middleware recovery.
Context {U : Type} (maxAlloc : Z) (runtime_Stack : Z -> bool -> string).

Lemma makeslice_allocates (n : Z) :
  (0 <= n <= maxAlloc)%Z -> makeslice maxAlloc n = None.
Proof.
  intros Hn. unfold makeslice.
  destruct (Z.ltb_spec n 0); [lia|].
  destruct (Z.ltb_spec maxAlloc n); [lia|]. reflexivity.
Qed.

Lemma makeslice_refuses (n : Z) :
  (n < 0 \/ maxAlloc < n)%Z ->
  makeslice maxAlloc n = Some makeslice_len_out_of_range.
Proof.
  intros Hn. unfold makeslice.
  destruct (Z.ltb_spec n 0); [reflexivity|].
  destruct (Z.ltb_spec maxAlloc n); [reflexivity|lia].
Qed.

(** A normal return passes through the enabled middleware. *)
Lemma recovery_Server_returns (opts : list recovery.Option) (h : Handler U)
    ctx req st reply e st1 :
  recovery.disabled (recovery.configure opts) = false ->
  h ctx req st = (Return reply e, st1) ->
  recovery.Server maxAlloc runtime_Stack opts h ctx req st
  = (Return reply e, st1).
Proof.
  intros Hen Hh. unfold recovery.Server. rewrite Hen, Hh. reflexivity.
Qed.

(** A panic of the handler is handed to the deferred function. *)
Lemma recovery_Server_panics (opts : list recovery.Option) (h : Handler U)
    ctx req st r st1 :
  recovery.disabled (recovery.configure opts) = false ->
  h ctx req st = (Panic r, st1) ->
  recovery.Server maxAlloc runtime_Stack opts h ctx req st
  = recovered maxAlloc runtime_Stack (recovery.configure opts) ctx r st1.
Proof.
  intros Hen Hh. unfold recovery.Server. rewrite Hen, Hh. reflexivity.
Qed.

(** C4.  The enabled middleware does not recover from every panic: the
    stack size is taken as configured, and when it is negative or above
    the allocation limit, the allocation of the stack buffer in the
    deferred function panics in its turn; the call then ends in that
    panic, the translator is not called and no error is returned. *)
Theorem recovery_Server_panics_on_stackSize (opts : list recovery.Option)
    (h : Handler U) ctx req st r st1 :
  recovery.disabled (recovery.configure opts) = false ->
  (stackSize (recovery.configure opts) < 0
   \/ maxAlloc < stackSize (recovery.configure opts))%Z ->
  h ctx req st = (Panic r, st1) ->
  recovery.Server maxAlloc runtime_Stack opts h ctx req st
  = (Panic makeslice_len_out_of_range, st1) /\
  forall size, stackSize (recovery.configure (opts ++ [WithStackSize size]))
               = size.
Proof.
  intros Hen Hsz Hh. split.
  - rewrite (recovery_Server_panics _ _ _ _ _ _ _ Hen Hh).
    unfold recovered. by rewrite (makeslice_refuses _ Hsz).
  - intros size. unfold recovery.configure. by rewrite fold_left_app.
Qed.

End RecoveryTheorems.

(** C4 at a stack size of -1 and at one of 2^62 bytes, with the
    allocation limit of the 64-bit platforms. *)
Lemma recovery_Server_panics_on_stackSize_witness :
  recovery.Server examples.maxAlloc64 examples.no_stack
    [recovery.WithStackSize (-1)]
    examples.panicking Background None (examples.idle 0)
  = (middleware.Panic recovery.makeslice_len_out_of_range, examples.idle 0) /\
  recovery.Server examples.maxAlloc64 examples.no_stack
    [recovery.WithStackSize (2 ^ 62)]
    examples.panicking Background None (examples.idle 0)
  = (middleware.Panic recovery.makeslice_len_out_of_range, examples.idle 0).
Proof.
  split.
  - exact (proj1 (recovery_Server_panics_on_stackSize examples.maxAlloc64
                    examples.no_stack [recovery.WithStackSize (-1)]
                    examples.panicking Background None (examples.idle 0)
                    (AnyStr "boom") (examples.idle 0) eq_refl
                    (or_introl eq_refl) eq_refl)).
  - exact (proj1 (recovery_Server_panics_on_stackSize examples.maxAlloc64
                    examples.no_stack [recovery.WithStackSize (2 ^ 62)]
                    examples.panicking Background None (examples.idle 0)
                    (AnyStr "boom") (examples.idle 0) eq_refl
                    (or_intror eq_refl) eq_refl)).
Defined.

(** ** Rate limiting *)

Section RateLimitLemmas.
Import middleware ratelimit.
Context {U : Type}.
Implicit Types (st : State U).

Lemma set_bucket_lookup l b b' st :
  buckets st !! l = Some b -> buckets (set_bucket l b' st) !! l = Some b'.
Proof.
  intros H. unfold set_bucket. simpl.
  apply list_lookup_insert_eq. by eapply lookup_lt_Some.
Qed.

Lemma Allow_at l n st b :
  buckets st !! l = Some b ->
  Allow l n st
  = Some ((0 <? (juju.TakeAvailable (clock st) n b).1)%Z,
          set_bucket l (juju.TakeAvailable (clock st) n b).2 st).
Proof.
  intros H. unfold Allow. rewrite H.
  by destruct (juju.TakeAvailable (clock st) n b).
Qed.

(** One token taken at the creation time of the 10-token bucket. *)
Lemma TakeAvailable_bucket10 t a :
  (0 < a <= 10)%Z ->
  juju.TakeAvailable t 1 (examples.bucket10 t a)
  = (1%Z, examples.bucket10 t (a - 1)).
Proof.
  intros Ha. unfold juju.TakeAvailable, juju.adjustavailableTokens,
    juju.currentTick, juju.set_available, examples.bucket10. simpl.
  rewrite Z.sub_diag. change (Z.quot 0 100000000) with 0%Z.
  replace (a + (0 - 0) * 1)%Z with a by lia.
  destruct (Z.leb_spec 10 a) as [H10|H10]; cbn [juju.availableTokens juju.latestTick].
  - destruct (Z.leb_spec a 0); [lia|]. rewrite Z.min_l by lia. reflexivity.
  - rewrite (Z.min_l a 10) by lia.
    destruct (Z.leb_spec a 0); [lia|]. rewrite Z.min_l by lia. reflexivity.
Qed.

Lemma TakeAvailable_bucket10_empty t :
  juju.TakeAvailable t 1 (examples.bucket10 t 0) = (0%Z, examples.bucket10 t 0).
Proof.
  unfold juju.TakeAvailable, juju.adjustavailableTokens,
    juju.currentTick, juju.set_available, examples.bucket10. simpl.
  rewrite Z.sub_diag. reflexivity.
Qed.

Lemma TakeAvailable_bucket10_later t :
  (juju.TakeAvailable (t + 1000000000) 1 (examples.bucket10 t 0)).1 = 1%Z.
Proof.
  unfold juju.TakeAvailable, juju.adjustavailableTokens,
    juju.currentTick, juju.set_available, examples.bucket10. simpl.
  replace (t + 1000000000 - t)%Z with 1000000000%Z by lia. reflexivity.
Qed.

Lemma Allow_times_drains (k : nat) : forall l st,
  buckets st !! l = Some (examples.bucket10 (clock st) (Z.of_nat k)) ->
  (k <= 10)%nat ->
  exists st',
    Allow_times (S k) l 1 st = Some (replicate k true ++ [false], st') /\
    clock st' = clock st /\
    buckets st' !! l = Some (examples.bucket10 (clock st) 0).
Proof.
  induction k as [|k IH]; intros l st Hb Hk.
  - simpl. rewrite (Allow_at _ _ _ _ Hb), TakeAvailable_bucket10_empty. simpl.
    eexists. split; [reflexivity|]. split; [reflexivity|].
    by eapply set_bucket_lookup.
  - cbn [Allow_times]. cbn [Allow_times] in IH.
    rewrite (Allow_at _ _ _ _ Hb), TakeAvailable_bucket10 by lia. cbn [fst snd].
    set (st1 := set_bucket l _ st).
    assert (Hb1 : buckets st1 !! l
                  = Some (examples.bucket10 (clock st1) (Z.of_nat k))).
    { unfold st1. erewrite set_bucket_lookup by exact Hb.
      simpl. do 2 f_equal. lia. }
    destruct (IH l st1 Hb1 ltac:(lia)) as (st' & Hrun & Hclk & Hbk).
    destruct (Allow l 1 st1) as [[ok st2]|] eqn:HA; [|discriminate].
    destruct (Allow_times k l 1 st2) as [[oks st3]|] eqn:HT; [|discriminate].
    inversion Hrun; subst. exists st'. split; [|split].
    + simpl. by rewrite H0.
    + exact Hclk.
    + exact Hbk.
Qed.

End RateLimitLemmas.

Section RateLimitTheorems.
Import middleware ratelimit.
Context {U : Type}.
Implicit Types (st : State U) (h : Handler U).

(** C5.  Without waiting, when the bucket, refilled for the time that
    has passed, holds less than the one token a call asks for, the
    wrapped handler returns the "rate limit exceeded" error whatever
    the handler is (it is not invoked) and the bucket keeps what it
    holds.  And for a limiter of capacity 10 and rate 10 per second:
    of eleven immediate [Allow(1)] the first ten succeed and the
    eleventh fails; one second later [Allow(1)] succeeds again. *)
Theorem ratelimit_rejects_without_tokens :
  (forall (cfg : ratelimit.options) (bucket : nat) h h' ctx req st b,
      waitIfFull cfg = false ->
      buckets st !! bucket = Some b ->
      let b1 := juju.adjustavailableTokens b (juju.currentTick b (clock st)) in
      (juju.availableTokens b1 < 1)%Z ->
      exists st',
        limited cfg bucket h ctx req st
        = (Return None (Some ErrLimitExceed), st') /\
        limited cfg bucket h' ctx req st
        = (Return None (Some ErrLimitExceed), st') /\
        buckets st' !! bucket = Some b1 /\
        user st' = user st /\ clock st' = clock st) /\
  (forall st,
      exists l st0 st11 st12,
        NewLimiter 10 10 st = Some (l, st0) /\
        Allow_times 11 l 1 st0 = Some (replicate 10 true ++ [false], st11) /\
        clock st11 = clock st /\
        Allow l 1 (set_clock (clock st + 1000000000) st11) = Some (true, st12)).
Proof.
  split.
  - intros cfg bucket h h' ctx req st b Hw Hb b1 Hlt.
    assert (Htake : juju.TakeAvailable (clock st) 1 b = (0%Z, b1)).
    { unfold juju.TakeAvailable. simpl. fold b1.
      destruct (Z.leb_spec (juju.availableTokens b1) 0); [reflexivity|lia]. }
    unfold limited. rewrite Hb, Hw, Htake. simpl.
    destruct (FromServerContext ctx) as [tr|]; simpl;
      (eexists; split; [reflexivity|]; split; [reflexivity|];
       split; [by eapply set_bucket_lookup|]; split; reflexivity).
  - intros st.
    set (t := clock st).
    set (st0 := set_buckets (buckets st ++ [examples.bucket10 t 10]) st).
    assert (Hb0 : buckets st0 !! length (buckets st)
                  = Some (examples.bucket10 (clock st0) (Z.of_nat 10))).
    { unfold st0. simpl. by apply list_lookup_middle. }
    destruct (Allow_times_drains 10 (length (buckets st)) st0 Hb0 ltac:(lia))
      as (st11 & Hrun & Hclk & Hb11).
    exists (length (buckets st)), st0, st11.
    eexists. split; [reflexivity|]. split; [exact Hrun|].
    split; [exact Hclk|].
    assert (Hb12 : buckets (set_clock (t + 1000000000) st11) !! length (buckets st)
                   = Some (examples.bucket10 t 0)) by exact Hb11.
    rewrite (Allow_at _ _ _ _ Hb12). simpl.
    rewrite TakeAvailable_bucket10_later. reflexivity.
Qed.

(** C6 (as amended).  [Wait] returns the token's cancellation error,
    taking nothing, only when the token is already cancelled at the
    moment of the call.  Otherwise it takes the tokens, sleeps for the
    whole time the bucket asks for and returns nil, whatever becomes of
    the token meanwhile.  In blocking mode the middleware does not
    look at the token at all: it waits for its one token and then
    invokes the handler. *)
Theorem blocking_wait_checks_token_only_before
    (own_first : context -> bool) (ctx : context) :
  (forall l n st e,
      ctx_Err own_first (cells st) (clock st) ctx = Some e ->
      ratelimit.Wait own_first ctx l n st = Some (Some e, st)) /\
  (forall l n st b,
      ctx_Err own_first (cells st) (clock st) ctx = None ->
      buckets st !! l = Some b ->
      ratelimit.Wait own_first ctx l n st
      = Some (None, set_clock (juju.Wait (clock st) n b).1
                      (set_bucket l (juju.Wait (clock st) n b).2 st)) /\
      ratelimit.Wait own_first ctx l n st
      = ratelimit.Wait own_first Background l n st) /\
  (forall (cfg : ratelimit.options) bucket h req st b,
      waitIfFull cfg = true ->
      buckets st !! bucket = Some b ->
      limited cfg bucket h ctx req st
      = h ctx req (set_clock (juju.Wait (clock st) 1 b).1
                     (set_bucket bucket (juju.Wait (clock st) 1 b).2 st))).
Proof.
  repeat split.
  - intros l n st e He. unfold ratelimit.Wait. by rewrite He.
  - unfold ratelimit.Wait. rewrite H, H0.
    by destruct (juju.Wait (clock st) n b).
  - unfold ratelimit.Wait. rewrite H, H0. reflexivity.
  - intros cfg bucket h req st b Hw Hb. unfold limited. rewrite Hb, Hw.
    destruct (FromServerContext ctx); destruct (juju.Wait (clock st) 1 b);
      reflexivity.
Qed.

End RateLimitTheorems.

(** C5 at a concrete state: an empty bucket rejects the call to a handler
    that would serve it. *)
Lemma ratelimit_rejects_without_tokens_witness :
  exists st',
    ratelimit.limited ratelimit.default_options 0 examples.serving
      Background None (examples.with_bucket 0)
    = (middleware.Return None (Some ErrLimitExceed), st').
Proof.
  destruct (@ratelimit_rejects_without_tokens unit) as [Hrej _].
  destruct (Hrej ratelimit.default_options 0 examples.serving examples.serving
              Background None (examples.with_bucket 0) (examples.bucket10 0 0)
              eq_refl eq_refl eq_refl) as (st' & H & _).
  exists st'. exact H.
Defined.

(** C6 fails as stated: a token with a deadline at 50 ms is not yet
    cancelled at time 0, the missing token accrues at 100 ms, and [Wait]
    called at time 0 returns nil at 100 ms instead of the deadline error;
    the blocking middleware, given a token that is already cancelled,
    waits all the same and invokes the handler. *)
Lemma Wait_outlasts_cancellation :
  ctx_Err examples.parent_first [] 0 examples.deadline_50ms = None /\
  ctx_Err examples.parent_first [] 50000000 examples.deadline_50ms
  = Some DeadlineExceeded /\
  (exists st',
      ratelimit.Wait examples.parent_first examples.deadline_50ms 0 1
        (examples.with_bucket 0)
      = Some (None, st') /\
      middleware.clock st' = 100000000%Z) /\
  ctx_Err examples.parent_first [] 0 (WithDeadline Background 0)
  = Some DeadlineExceeded /\
  (exists st',
      ratelimit.limited (ratelimit.configure [ratelimit.WithWaitIfFull true]) 0
        examples.serving (WithDeadline Background 0) None
        (examples.with_bucket 0)
      = (middleware.Return (Some (AnyStr "served")) None, st') /\
      middleware.clock st' = 100000000%Z).
Proof.
  repeat split; try reflexivity; eexists; split; reflexivity.
Qed.

(** The amended C6 at the same bucket and token. *)
Lemma blocking_wait_checks_token_only_before_witness :
  ratelimit.Wait examples.parent_first (WithDeadline Background 0) 0 1
    (examples.with_bucket 0)
  = Some (Some DeadlineExceeded, examples.with_bucket 0) /\
  ratelimit.Wait examples.parent_first examples.deadline_50ms 0 1
    (examples.with_bucket 0)
  = ratelimit.Wait examples.parent_first Background 0 1
      (examples.with_bucket 0).
Proof.
  split.
  - destruct (@blocking_wait_checks_token_only_before unit
                examples.parent_first (WithDeadline Background 0)) as (H & _).
    exact (H 0 1%Z (examples.with_bucket 0) DeadlineExceeded eq_refl).
  - destruct (@blocking_wait_checks_token_only_before unit
                examples.parent_first examples.deadline_50ms) as (_ & H & _).
    exact (proj2 (H 0 1%Z (examples.with_bucket 0) (examples.bucket10 0 0)
                    eq_refl eq_refl)).
Defined.

(** What [Allow] decides on: it admits exactly when at least one token is
    asked for and at least one is available after the refill, and then
    takes as many of the [n] as there are. *)
Lemma Allow_admits_iff_some_token {U : Type} (l : nat) (n : Z)
    (st : middleware.State U) (b : juju.Bucket) :
  middleware.buckets st !! l = Some b ->
  let b1 := juju.adjustavailableTokens b (juju.currentTick b (middleware.clock st)) in
  exists st',
    ratelimit.Allow l n st
    = Some (((0 <? n) && (0 <? juju.availableTokens b1))%Z, st') /\
    ((0 < n)%Z -> (0 < juju.availableTokens b1)%Z ->
     exists b', middleware.buckets st' !! l = Some b' /\
       juju.availableTokens b'
       = (juju.availableTokens b1 - Z.min n (juju.availableTokens b1))%Z).
Proof.
  intros Hb b1. rewrite (Allow_at _ _ _ _ Hb). eexists. split.
  - f_equal. f_equal. unfold juju.TakeAvailable. fold b1.
    destruct (Z.leb_spec n 0) as [Hn|Hn]; simpl.
    + destruct (Z.ltb_spec 0 n); [lia|reflexivity].
    + destruct (Z.ltb_spec 0 n); [|lia]. simpl.
      destruct (Z.leb_spec (juju.availableTokens b1) 0) as [Ha|Ha]; simpl.
      * destruct (Z.ltb_spec 0 (juju.availableTokens b1)); [lia|reflexivity].
      * destruct (Z.ltb_spec 0 (juju.availableTokens b1)); [|lia].
        apply Z.ltb_lt. lia.
  - intros Hn Ha. eexists. split; [by eapply set_bucket_lookup|].
    unfold juju.TakeAvailable. fold b1.
    destruct (Z.leb_spec n 0); [lia|].
    destruct (Z.leb_spec (juju.availableTokens b1) 0); [lia|]. reflexivity.
Qed.

(** C7 is what [Allow] is documented to do and does not do.  After 7 of
    the 10 tokens are taken, 3 are available; [Allow] for 5 tokens
    returns true all the same, and takes the 3. *)
Lemma Allow_admits_beyond_available :
  ratelimit.NewLimiter 10 10 (examples.idle 0)
  = Some (0, examples.with_bucket 10) /\
  ratelimit.Allow 0 7 (examples.with_bucket 10)
  = Some (true, examples.with_bucket 3) /\
  juju.availableTokens
    (juju.adjustavailableTokens (examples.bucket10 0 3)
       (juju.currentTick (examples.bucket10 0 3) 0)) = 3%Z /\
  ratelimit.Allow 0 5 (examples.with_bucket 3)
  = Some (true, examples.with_bucket 0).
Proof. repeat split; reflexivity. Qed.

(** ** Disabled middleware *)

(** C10.  Built with [disabled] set, the rate-limit middleware and the
    circuit-breaker middleware are the identity on handlers, and building
    them changes nothing: no bucket and no registry is created, so a call
    through the result is a call of the handler itself. *)
Theorem disabled_middleware_is_identity {U : Type}
    (ro : list ratelimit.Option) (co : list (@circuitbreaker.Option U))
    (st : middleware.State U) :
  (ratelimit.disabled (ratelimit.configure ro) = true ->
   exists mw, ratelimit.Server ro st = Some (mw, st) /\
              forall h : middleware.Handler U, mw h = h) /\
  (circuitbreaker.disabled (circuitbreaker.configure co) = true ->
   exists mw, circuitbreaker.Server co st = (mw, st) /\
              forall h : middleware.Handler U, mw h = h).
Proof.
  split; intros Hd.
  - unfold ratelimit.Server. rewrite Hd. eexists. split; reflexivity.
  - unfold circuitbreaker.Server. rewrite Hd. eexists. split; reflexivity.
Qed.

(** C10 at the options that only disable, and a handler. *)
Lemma disabled_middleware_is_identity_witness :
  (exists mw, ratelimit.Server [ratelimit.WithDisabled true] (examples.idle 0)
              = Some (mw, examples.idle 0) /\
              forall h : middleware.Handler unit, mw h = h) /\
  (exists mw, circuitbreaker.Server [circuitbreaker.WithDisabled true]
                (examples.idle 0) = (mw, examples.idle 0) /\
              forall h : middleware.Handler unit, mw h = h).
Proof.
  destruct (disabled_middleware_is_identity
              [ratelimit.WithDisabled true] [circuitbreaker.WithDisabled true]
              (examples.idle 0)) as [Hr Hc].
  split; [exact (Hr eq_refl) | exact (Hc eq_refl)].
Defined.

(** ** Circuit breaking *)

Section BreakerLemmas.
Import middleware circuitbreaker.
Context {U : Type}.
Implicit Types (st : State U) (h : Handler U) (cfg : @options U).

Lemma State_eta st :
  {| user := user st; clock := clock st; cells := cells st;
     buckets := buckets st; breakers := breakers st;
     registries := registries st; klog := klog st |} = st.
Proof. by destruct st. Qed.

Lemma set_breaker_same p cb st :
  breakers st !! p = Some cb -> log_lines [] (set_breaker p cb st) = st.
Proof.
  intros H. unfold log_lines, set_breaker, set_breakers. simpl.
  rewrite (list_insert_id _ _ _ H), app_nil_r. apply State_eta.
Qed.

Lemma set_breaker_lookup p cb cb' st :
  breakers st !! p = Some cb -> breakers (set_breaker p cb' st) !! p = Some cb'.
Proof.
  intros H. unfold set_breaker. simpl.
  apply list_lookup_insert_eq. by eapply lookup_lt_Some.
Qed.

Lemma beforeRequest_admitted now cb cbB out gen :
  gobreaker.beforeRequest now cb = (cbB, out, inl gen) ->
  gobreaker.generation cbB = gen.
Proof.
  unfold gobreaker.beforeRequest.
  destruct (gobreaker.currentState now cb) as [cb1 o1].
  destruct (gobreaker.state cb1); [| |discriminate].
  - intros H; inversion H; subst. reflexivity.
  - destruct (_ <=? _)%Z; [discriminate|].
    intros H; inversion H; subst. reflexivity.
Qed.

(** A failure recorded in Closed, on counts that trip the breaker. *)
Lemma afterRequest_trips now cb :
  gobreaker.state cb = gobreaker.StateClosed ->
  gobreaker.currentState now cb = (cb, []) ->
  gobreaker.ReadyToTrip (gobreaker.settings cb)
    (gobreaker.Counts_onFailure (gobreaker.counts cb)) = true ->
  let cb' := (gobreaker.afterRequest (gobreaker.generation cb) false now cb).1 in
  gobreaker.state cb' = gobreaker.StateOpen /\
  gobreaker.expiry cb'
  = Some (now + gobreaker.Timeout (gobreaker.settings cb))%Z /\
  gobreaker.generation cb' = (gobreaker.generation cb + 1)%Z.
Proof.
  intros Hs Hcur Htrip. unfold gobreaker.afterRequest. rewrite Hcur.
  rewrite Z.eqb_refl. simpl. unfold gobreaker.onFailure. rewrite Hs.
  simpl. rewrite Htrip. unfold gobreaker.setState. simpl. rewrite Hs.
  simpl. repeat split; reflexivity.
Qed.

(** A failure recorded in Closed, on counts that do not trip it. *)
Lemma afterRequest_stays now cb :
  gobreaker.state cb = gobreaker.StateClosed ->
  gobreaker.currentState now cb = (cb, []) ->
  gobreaker.ReadyToTrip (gobreaker.settings cb)
    (gobreaker.Counts_onFailure (gobreaker.counts cb)) = false ->
  gobreaker.afterRequest (gobreaker.generation cb) false now cb
  = (gobreaker.with_counts cb (gobreaker.Counts_onFailure (gobreaker.counts cb)),
     []).
Proof.
  intros Hs Hcur Htrip. unfold gobreaker.afterRequest. rewrite Hcur.
  rewrite Z.eqb_refl. simpl. unfold gobreaker.onFailure. rewrite Hs.
  simpl. rewrite Htrip. reflexivity.
Qed.

(** Existing entries of the registry survive [acquire], and the entry
    asked for exists afterwards. *)
Lemma acquire_registry cfg rid n st cb st1 :
  acquire cfg rid n st = Some (cb, st1) ->
  exists reg reg1,
    registries st !! rid = Some reg /\
    registries st1 !! rid = Some reg1 /\
    reg1 !! n = Some cb /\
    (forall m q, reg !! m = Some q -> reg1 !! m = Some q).
Proof.
  unfold acquire. destruct (registries st !! rid) as [reg|] eqn:Hr; [|discriminate].
  destruct (reg !! n) as [q|] eqn:Hn.
  - intros H; inversion H; subst. exists reg, reg. auto.
  - intros H; inversion H; subst. clear H.
    exists reg, (<[n := length (breakers st)]> reg). simpl.
    split; [reflexivity|]. split.
    { apply list_lookup_insert_eq. by eapply lookup_lt_Some. }
    split; [apply lookup_insert_eq|].
    intros m q Hm. rewrite lookup_insert_ne; [exact Hm|congruence].
Qed.

Lemma acquire_total cfg rid n st reg :
  registries st !! rid = Some reg -> is_Some (acquire cfg rid n st).
Proof.
  intros Hr. unfold acquire. rewrite Hr. destruct (reg !! n); eauto.
Qed.

Lemma acquire_all_known cfg rid n q : forall names st cbs st' reg,
  acquire_all cfg rid names st = Some (cbs, st') ->
  registries st !! rid = Some reg ->
  reg !! n = Some q ->
  (exists reg', registries st' !! rid = Some reg' /\ reg' !! n = Some q) /\
  (forall j, names !! j = Some n -> cbs !! j = Some q).
Proof.
  induction names as [|m names IH]; intros st cbs st' reg Hall Hr Hn; simpl in Hall.
  - inversion Hall; subst. split; [eauto|]. intros j Hj. discriminate.
  - destruct (acquire cfg rid m st) as [[cb st1]|] eqn:Hacq; [|discriminate].
    destruct (acquire_all cfg rid names st1) as [[cbs1 st2]|] eqn:Hrest; [|discriminate].
    inversion Hall; subst. clear Hall.
    destruct (acquire_registry _ _ _ _ _ _ Hacq) as (reg0 & reg1 & Hr0 & Hr1 & Hm & Hkeep).
    assert (reg0 = reg) by congruence. subst reg0.
    destruct (IH _ _ _ _ Hrest Hr1 (Hkeep _ _ Hn)) as [Hreg Hpos].
    split; [exact Hreg|].
    intros [|j] Hj; simpl in *.
    + inversion Hj; subst. f_equal.
      pose proof (Hkeep _ _ Hn). congruence.
    + by apply Hpos.
Qed.

(** The library's operations keep the settings of a breaker. *)
Lemma setState_settings s now cb :
  gobreaker.settings (gobreaker.setState s now cb).1 = gobreaker.settings cb.
Proof. unfold gobreaker.setState. by destruct (gobreaker.State_eqb _ _). Qed.

Lemma currentState_settings now cb :
  gobreaker.settings (gobreaker.currentState now cb).1 = gobreaker.settings cb.
Proof.
  unfold gobreaker.currentState.
  destruct (gobreaker.state cb); [| reflexivity |];
    destruct (gobreaker.expiry cb) as [e|];
    try destruct (e <=? now)%Z; try reflexivity; apply setState_settings.
Qed.

Lemma beforeRequest_settings now cb :
  gobreaker.settings (gobreaker.beforeRequest now cb).1.1 = gobreaker.settings cb.
Proof.
  unfold gobreaker.beforeRequest.
  pose proof (currentState_settings now cb) as H.
  destruct (gobreaker.currentState now cb) as [cb1 o1]. simpl in H.
  destruct (gobreaker.state cb1); [exact H| |exact H].
  by destruct (_ <=? _)%Z.
Qed.

Lemma afterRequest_settings gen s now cb :
  gobreaker.settings (gobreaker.afterRequest gen s now cb).1
  = gobreaker.settings cb.
Proof.
  unfold gobreaker.afterRequest.
  pose proof (currentState_settings now cb) as H.
  destruct (gobreaker.currentState now cb) as [cb1 o1]. simpl in H.
  destruct (negb _); [exact H|].
  assert (H2 : gobreaker.settings
                 (if s then gobreaker.onSuccess now cb1
                  else gobreaker.onFailure now cb1).1
               = gobreaker.settings cb1).
  { destruct s; unfold gobreaker.onSuccess, gobreaker.onFailure;
      destruct (gobreaker.state cb1); try reflexivity.
    - destruct (_ <=? _)%Z; [|reflexivity]. by rewrite setState_settings.
    - destruct (gobreaker.ReadyToTrip _ _); [|reflexivity].
      by rewrite setState_settings.
    - by rewrite setState_settings. }
  destruct (if s then _ else _) as [cb2 out2]. simpl in *. congruence.
Qed.

Lemma configured_settings cfg cb cb' :
  gobreaker.settings cb' = gobreaker.settings cb ->
  configured cfg cb -> configured cfg cb'.
Proof. unfold configured. by intros ->. Qed.

(** The breaker the middleware creates for a key. *)
Lemma NewCircuitBreaker_configured cfg n now :
  configured cfg (gobreaker.NewCircuitBreaker (Settings_of cfg n) now).
Proof. unfold configured, effective_timeout. simpl. repeat split. Qed.

Lemma acquire_hit cfg rid n st reg p :
  registries st !! rid = Some reg -> reg !! n = Some p ->
  acquire cfg rid n st = Some (p, st).
Proof. intros Hr Hn. unfold acquire. by rewrite Hr, Hn. Qed.

Lemma acquire_miss cfg rid n st reg :
  registries st !! rid = Some reg -> reg !! n = None ->
  acquire cfg rid n st
  = Some (length (breakers st),
          set_registries
            (<[rid := <[n := length (breakers st)]> reg]> (registries st))
            (set_breakers
               (breakers st
                ++ [gobreaker.NewCircuitBreaker (Settings_of cfg n) (clock st)])
               st)).
Proof. intros Hr Hn. unfold acquire. by rewrite Hr, Hn. Qed.

(** An Open breaker whose expiry is not reached rejects the call: the
    handler is not invoked and the fallback answers. *)
Lemma guarded_open_rejects cfg rid h ctx req st reg p cb e :
  registries st !! rid = Some reg ->
  reg !! circuitBreakerName cfg ctx = Some p ->
  breakers st !! p = Some cb ->
  gobreaker.state cb = gobreaker.StateOpen ->
  gobreaker.expiry cb = Some e ->
  (clock st < e)%Z ->
  guarded cfg rid h ctx req st
  = fallbackHandler cfg ctx req (log_lines [breaker_open_line ctx] st).
Proof.
  intros Hreg Hn Hcb Hopen Hexp Hlt.
  assert (Hbefore : gobreaker.beforeRequest (clock st) cb
                    = (cb, [], inr ErrOpenState)).
  { unfold gobreaker.beforeRequest, gobreaker.currentState.
    rewrite Hopen, Hexp.
    destruct (Z.leb_spec e (clock st)); [lia|]. by rewrite Hopen. }
  unfold guarded, breaker_open_line.
  rewrite (acquire_hit _ _ _ _ _ _ Hreg Hn). unfold Execute.
  rewrite Hcb, Hbefore. rewrite (set_breaker_same _ _ _ Hcb). simpl.
  destruct (FromServerContext ctx) as [tr|]; reflexivity.
Qed.

(** A breaker created at [t0] does not roll its window over at [t0]. *)
Lemma fresh_currentState cfg n t0 c :
  gobreaker.currentState t0
    (gobreaker.with_counts
       (gobreaker.NewCircuitBreaker (Settings_of cfg n) t0) c)
  = (gobreaker.with_counts
       (gobreaker.NewCircuitBreaker (Settings_of cfg n) t0) c, []).
Proof.
  unfold gobreaker.currentState. simpl.
  destruct (Z.leb_spec (interval cfg) 0); simpl; [reflexivity|].
  destruct (Z.eqb_spec (interval cfg) 0); [lia|].
  destruct (Z.leb_spec (t0 + interval cfg) t0); [lia|reflexivity].
Qed.

Lemma failures_next j :
  gobreaker.Counts_onFailure (gobreaker.Counts_onRequest (failures j))
  = failures (S j).
Proof.
  unfold failures, gobreaker.Counts_onFailure, gobreaker.Counts_onRequest.
  simpl gobreaker.Requests. simpl gobreaker.TotalFailures.
  simpl gobreaker.ConsecutiveFailures. simpl gobreaker.TotalSuccesses.
  rewrite Nat2Z.inj_succ. unfold Z.succ. reflexivity.
Qed.

(** One failing call through a Closed breaker that has seen [j] failures
    and nothing else since it was created, at the time it was created:
    what is left at the breaker's address is the breaker after the
    library has recorded the failure. *)
Lemma guarded_failure_step cfg rid h ctx req st reg p t0 j :
  let n := circuitBreakerName cfg ctx in
  let cb0 := gobreaker.NewCircuitBreaker (Settings_of cfg n) t0 in
  fails_quietly cfg h ctx req ->
  clock st = t0 ->
  registries st !! rid = Some reg ->
  reg !! n = Some p ->
  breakers st !! p = Some (gobreaker.with_counts cb0 (failures j)) ->
  let st' := (guarded cfg rid h ctx req st).2 in
  clock st' = t0 /\
  registries st' = registries st /\
  breakers st' !! p
  = Some (gobreaker.onFailure t0
            (gobreaker.with_counts cb0
               (gobreaker.Counts_onRequest (failures j)))).1.
Proof.
  intros n cb0 Hh Hclk Hreg Hn Hcb st'.
  subst st'. unfold guarded. fold n.
  rewrite (acquire_hit _ _ _ _ _ _ Hreg Hn). unfold Execute. rewrite Hcb.
  unfold gobreaker.beforeRequest. rewrite Hclk.
  unfold cb0. rewrite fresh_currentState. fold cb0.
  cbn [gobreaker.state gobreaker.with_counts].
  change (gobreaker.state cb0) with gobreaker.StateClosed. cbv iota.
  set (cb1 := gobreaker.with_counts _ (gobreaker.Counts_onRequest _)).
  set (st1 := log_lines [] (set_breaker p cb1 st)).
  destruct (Hh st1) as (o & st2 & Hcall & Hfail & Hc2 & Hb2 & Hr2).
  rewrite Hcall.
  assert (Hcb1 : breakers st2 !! p = Some cb1).
  { rewrite Hb2. unfold st1. simpl. apply list_lookup_insert_eq.
    by eapply lookup_lt_Some. }
  rewrite Hcb1.
  assert (Hclk2 : clock st2 = t0) by (rewrite Hc2; exact Hclk).
  assert (Hsucc : match o with
                  | Return _ e => gobreaker.IsSuccessful (gobreaker.settings cb1) e
                  | Panic _ => false
                  end = false).
  { destruct o as [reply e|v]; [|reflexivity]. by destruct Hfail. }
  rewrite Hsucc, Hclk2.
  unfold gobreaker.afterRequest.
  assert (Hcur : gobreaker.currentState t0 cb1 = (cb1, [])).
  { unfold cb1, cb0. cbn [gobreaker.with_counts].
    exact (fresh_currentState cfg n t0 _). }
  rewrite Hcur.
  change (gobreaker.generation cb1) with 1%Z. cbv [negb Z.eqb Pos.eqb].
  destruct (gobreaker.onFailure t0 cb1) as [cb3 out3] eqn:Hof.
  assert (Hres : forall r, (let '(kind, operation) := r in
                   match o with
                   | Return result e =>
                       if is_ErrOpenState e
                       then fallbackHandler cfg ctx req
                              (log_lines ["[" +:+ kind +:+ "] server "
                                          +:+ operation
                                          +:+ " circuit breaker is open"]
                                 (log_lines ([] ++ out3) (set_breaker p cb3 st2)))
                       else (Return result e,
                             log_lines ([] ++ out3) (set_breaker p cb3 st2))
                   | Panic v =>
                       (Panic v, log_lines ([] ++ out3) (set_breaker p cb3 st2))
                   end).2 = log_lines ([] ++ out3) (set_breaker p cb3 st2)).
  { intros [kind operation]. destruct o as [reply e|v]; [|reflexivity].
    destruct Hfail as [_ ->]. reflexivity. }
  simpl. rewrite Hres. simpl.
  split; [exact Hclk2|]. split; [exact Hr2|].
  apply list_lookup_insert_eq. by eapply lookup_lt_Some.
Qed.

Lemma onFailure_closed cfg n t0 j :
  let cb0 := gobreaker.NewCircuitBreaker (Settings_of cfg n) t0 in
  gobreaker.onFailure t0
    (gobreaker.with_counts cb0 (gobreaker.Counts_onRequest (failures j)))
  = if readyToTrip cfg (failures (S j))
    then gobreaker.setState gobreaker.StateOpen t0
           (gobreaker.with_counts cb0 (failures (S j)))
    else (gobreaker.with_counts cb0 (failures (S j)), []).
Proof.
  intros cb0. unfold gobreaker.onFailure.
  cbn [gobreaker.state gobreaker.with_counts gobreaker.counts
       gobreaker.settings].
  rewrite failures_next. reflexivity.
Qed.

Lemma after_calls_snoc (k : nat) (w : Handler U) ctx req : forall st,
  after_calls (S k) w ctx req st = (w ctx req (after_calls k w ctx req st)).2.
Proof.
  induction k as [|k IH]; intros st; [reflexivity|].
  change (after_calls (S (S k)) w ctx req st)
    with (after_calls (S k) w ctx req (w ctx req st).2).
  by rewrite IH.
Qed.

(** A call that finds no breaker for its key goes on as a call in the
    state in which the breaker has been created. *)
Lemma guarded_after_acquire cfg rid h ctx req st p stA :
  acquire cfg rid (circuitBreakerName cfg ctx) st = Some (p, stA) ->
  guarded cfg rid h ctx req st = guarded cfg rid h ctx req stA.
Proof.
  intros Hacq.
  destruct (acquire_registry _ _ _ _ _ _ Hacq) as (reg & reg1 & _ & Hr1 & Hn & _).
  unfold guarded. by rewrite Hacq, (acquire_hit _ _ _ _ _ _ Hr1 Hn).
Qed.

(** Failing calls one after the other, as long as the trip predicate
    stays false, leave the breaker Closed with the failures counted. *)
Lemma failures_counted cfg rid h ctx req reg p t0 : forall k j st,
  let n := circuitBreakerName cfg ctx in
  let cb0 := gobreaker.NewCircuitBreaker (Settings_of cfg n) t0 in
  fails_quietly cfg h ctx req ->
  clock st = t0 ->
  registries st !! rid = Some reg ->
  reg !! n = Some p ->
  breakers st !! p = Some (gobreaker.with_counts cb0 (failures j)) ->
  Forall (fun i => readyToTrip cfg (failures i) = false) (seq (S j) k) ->
  let st' := after_calls k (guarded cfg rid h) ctx req st in
  clock st' = t0 /\
  registries st' = registries st /\
  breakers st' !! p = Some (gobreaker.with_counts cb0 (failures (j + k))).
Proof.
  induction k as [|k IH]; intros j st n cb0 Hh Hclk Hreg Hn Hcb Hno st'.
  - subst st'. simpl. rewrite Nat.add_0_r. auto.
  - subst st'. simpl.
    destruct (guarded_failure_step cfg rid h ctx req st reg p t0 j
                Hh Hclk Hreg Hn Hcb) as (Hc1 & Hr1 & Hb1).
    fold n cb0 in Hb1. unfold cb0 in Hb1. rewrite onFailure_closed in Hb1.
    fold n in Hb1. fold cb0 in Hb1.
    inversion Hno as [|i l Hi Hrest]; subst.
    rewrite Hi in Hb1. simpl in Hb1.
    destruct (IH (S j) (guarded cfg rid h ctx req st).2 Hh Hc1
                ltac:(by rewrite Hr1) Hn Hb1 Hrest) as (Hc & Hr & Hb).
    split; [exact Hc|]. split; [by rewrite Hr|].
    by replace (j + S k) with (S j + k) by lia.
Qed.

(** Requests served one after the other: a breaker is created exactly
    for the keys that are not yet registered, and every request gets
    the breaker registered for its key. *)
Lemma acquire_all_registry cfg rid : forall names st reg,
  registries st !! rid = Some reg ->
  registry_ok cfg reg (breakers st) ->
  exists cbs st' reg' created,
    acquire_all cfg rid names st = Some (cbs, st') /\
    length cbs = length names /\
    registries st' !! rid = Some reg' /\
    registry_ok cfg reg' (breakers st') /\
    (forall i n, names !! i = Some n -> cbs !! i = reg' !! n) /\
    dom reg' = dom reg ∪ list_to_set names /\
    reg ⊆ reg' /\
    breakers st' = breakers st ++ created /\
    length created = size reg' - size reg.
Proof.
  induction names as [|n names IH]; intros st reg Hreg Hok.
  - exists [], st, reg, []. simpl. rewrite app_nil_r, Nat.sub_diag.
    repeat split; try done. by rewrite (right_id_L ∅ (∪)).
  - simpl. destruct (reg !! n) as [p|] eqn:Hn.
    + rewrite (acquire_hit _ _ _ _ _ _ Hreg Hn).
      destruct (IH st reg Hreg Hok)
        as (cbs & st' & reg' & created & Hall & Hlen & Hreg' & Hok' & Hget
            & Hdom & Hsub & Hbs & Hcr).
      rewrite Hall. exists (p :: cbs), st', reg', created.
      split; [reflexivity|]. split; [simpl; by rewrite Hlen|].
      split; [exact Hreg'|]. split; [exact Hok'|]. split.
      { intros [|i] m Hi; simpl in *.
        - inversion Hi; subst. symmetry. by eapply lookup_weaken.
        - by apply Hget. }
      split; [|done].
      rewrite Hdom. apply (elem_of_dom_2 reg) in Hn.
      rewrite (assoc_L (∪)), (comm_L (∪) (dom reg) {[n]}).
      rewrite (subseteq_union_1_L {[n]} (dom reg)); [reflexivity|].
      by apply singleton_subseteq_l.
    + rewrite (acquire_miss _ _ _ _ _ Hreg Hn).
      set (p := length (breakers st)).
      set (cb0 := gobreaker.NewCircuitBreaker (Settings_of cfg n) (clock st)).
      set (stA := set_registries _ _).
      assert (HregA : registries stA !! rid = Some (<[n := p]> reg)).
      { unfold stA. simpl. apply list_lookup_insert_eq.
        by eapply lookup_lt_Some. }
      assert (HokA : registry_ok cfg (<[n := p]> reg) (breakers stA)).
      { intros m q Hm. unfold stA. simpl.
        destruct (decide (m = n)) as [->|Hne].
        - rewrite lookup_insert_eq in Hm. inversion Hm; subst.
          exists cb0. split; [by apply list_lookup_middle|].
          split; [reflexivity|apply NewCircuitBreaker_configured].
        - rewrite lookup_insert_ne in Hm by done.
          destruct (Hok m q Hm) as (cb & Hcb & Hname & Hcfg).
          exists cb. split; [|done].
          rewrite lookup_app_l; [exact Hcb|by eapply lookup_lt_Some]. }
      destruct (IH stA (<[n := p]> reg) HregA HokA)
        as (cbs & st' & reg' & created & Hall & Hlen & Hreg' & Hok' & Hget
            & Hdom & Hsub & Hbs & Hcr).
      rewrite Hall. exists (p :: cbs), st', reg', (cb0 :: created).
      split; [reflexivity|]. split; [simpl; by rewrite Hlen|].
      split; [exact Hreg'|]. split; [exact Hok'|]. split.
      { intros [|i] m Hi; simpl in *.
        - inversion Hi; subst. symmetry.
          eapply lookup_weaken; [apply lookup_insert_eq|exact Hsub].
        - by apply Hget. }
      split.
      { rewrite Hdom, dom_insert_L.
        by rewrite (assoc_L (∪)), (comm_L (∪) (dom reg) {[n]}). }
      split; [etrans; [by apply insert_subseteq|exact Hsub]|].
      split; [rewrite Hbs; unfold stA; simpl; by rewrite <- app_assoc|].
      apply map_subseteq_size in Hsub.
      rewrite map_size_insert_None in Hsub by exact Hn.
      rewrite map_size_insert_None in Hcr by exact Hn.
      simpl. lia.
Qed.

(** Two requests for a key that is not registered, each looking the key
    up before the other has stored its breaker: both create one. *)
Lemma unguarded_first_access cfg rid n st reg :
  registries st !! rid = Some reg ->
  reg !! n = None ->
  (run_schedule cfg rid [0; 1; 0; 1] [AtLookup n; AtLookup n] st).1
  = [Holding (length (breakers st)); Holding (S (length (breakers st)))].
Proof.
  intros Hreg Hn. simpl. rewrite Hreg, Hn. simpl. rewrite Hreg, Hn. simpl.
  rewrite Hreg. simpl.
  rewrite list_lookup_insert_eq by (by eapply lookup_lt_Some). simpl.
  rewrite length_app. simpl. by rewrite Nat.add_1_r.
Qed.

(** *** Requests interleaved on one breaker *)

Lemma running_zero (G g : Z) ts :
  Forall (not_ahead G) ts -> (G < g)%Z -> running g ts = 0%Z.
Proof.
  induction 1 as [|t ts Ht _ IH]; intros Hlt; simpl; [reflexivity|].
  rewrite IH by exact Hlt. destruct t as [s|g' s|]; simpl in *; try reflexivity.
  destruct (Z.eqb_spec g' g); lia.
Qed.

Lemma running_insert (g : Z) ts : forall i t t',
  ts !! i = Some t ->
  running g (<[i := t']> ts) = (running g ts - runs_in g t + runs_in g t')%Z.
Proof.
  induction ts as [|t0 ts IH]; intros [|i] t t' Hi; simpl in *;
    try discriminate.
  - inversion Hi; subst. lia.
  - rewrite (IH i t t' Hi). lia.
Qed.

Lemma not_ahead_mono (G G' : Z) ts :
  (G <= G')%Z -> Forall (not_ahead G) ts -> Forall (not_ahead G') ts.
Proof.
  intros Hle Hts. eapply Forall_impl; [exact Hts|].
  intros [s|g s|]; simpl; try done. lia.
Qed.

(** A new generation starts with nothing counted and nothing running. *)
Lemma bump_accounted ts cb cb' :
  Forall (not_ahead (gobreaker.generation cb)) ts ->
  gobreaker.generation cb' = (gobreaker.generation cb + 1)%Z ->
  gobreaker.counts cb' = gobreaker.Counts_clear ->
  accounted ts cb'.
Proof.
  intros Hts Hg Hc. unfold accounted. rewrite Hg, Hc.
  rewrite (running_zero (gobreaker.generation cb)) by (exact Hts || lia).
  split; [eapply not_ahead_mono; [|exact Hts]; lia|]. by split.
Qed.

Lemma setState_bump s now cb :
  gobreaker.State_eqb (gobreaker.state cb) s = false ->
  gobreaker.generation (gobreaker.setState s now cb).1
  = (gobreaker.generation cb + 1)%Z /\
  gobreaker.counts (gobreaker.setState s now cb).1 = gobreaker.Counts_clear.
Proof. unfold gobreaker.setState. by intros ->. Qed.

Lemma currentState_accounted now ts cb :
  accounted ts cb -> accounted ts (gobreaker.currentState now cb).1.
Proof.
  intros Hacc. pose proof Hacc as (Hts & _).
  unfold gobreaker.currentState.
  destruct (gobreaker.state cb) eqn:Hs; [| exact Hacc |];
    destruct (gobreaker.expiry cb) as [e|];
    try destruct (e <=? now)%Z; try exact Hacc.
  - by apply (bump_accounted ts cb).
  - destruct (setState_bump gobreaker.StateHalfOpen now cb) as [Hg Hc];
      [by rewrite Hs|]. by apply (bump_accounted ts cb).
  - destruct (setState_bump gobreaker.StateHalfOpen now cb) as [Hg Hc];
      [by rewrite Hs|]. by apply (bump_accounted ts cb).
Qed.

Lemma admit_accounted ts cb i s0 s :
  ts !! i = Some (Entering s0) ->
  gobreaker.state cb <> gobreaker.StateOpen ->
  accounted ts cb ->
  accounted (<[i := Running (gobreaker.generation cb) s]> ts)
    (gobreaker.with_counts cb
       (gobreaker.Counts_onRequest (gobreaker.counts cb))).
Proof.
  intros Hi Hs (Hts & Hcount & _). unfold accounted. simpl.
  split; [apply Forall_insert; [exact Hts|simpl; lia]|].
  split; [|done].
  rewrite (running_insert _ _ _ _ _ Hi). simpl. rewrite Z.eqb_refl. lia.
Qed.

Lemma leave_accounted ts cb i t :
  ts !! i = Some t ->
  runs_in (gobreaker.generation cb) t = 0%Z ->
  accounted ts cb ->
  accounted (<[i := Gone]> ts) cb.
Proof.
  intros Hi Hidle (Hts & Hcount & Hopen). unfold accounted.
  rewrite (running_insert _ _ _ _ _ Hi), Hidle. simpl.
  split; [by apply Forall_insert|].
  split; [lia|]. intros Hs. rewrite (Hopen Hs). reflexivity.
Qed.

Lemma running_nonneg (g : Z) ts : (0 <= running g ts)%Z.
Proof.
  induction ts as [|t ts IH]; simpl; [lia|].
  destruct t as [s|g' s|]; simpl; try lia. destruct (g' =? g)%Z; lia.
Qed.

Lemma running_member (g : Z) ts : forall i t,
  ts !! i = Some t -> (runs_in g t <= running g ts)%Z.
Proof.
  induction ts as [|t0 ts IH]; intros [|i] t Hi; simpl in *; try discriminate.
  - inversion Hi; subst. pose proof (running_nonneg g ts). lia.
  - pose proof (IH i t Hi).
    assert (0 <= runs_in g t0)%Z; [|lia].
    destruct t0 as [s|g' s|]; simpl; try lia. destruct (g' =? g)%Z; lia.
Qed.

(** The result of a request of the current generation is recorded. *)
Lemma record_accounted ts cb i s now :
  ts !! i = Some (Running (gobreaker.generation cb) s) ->
  accounted ts cb ->
  accounted (<[i := Gone]> ts)
    (if s then gobreaker.onSuccess now cb else gobreaker.onFailure now cb).1.
Proof.
  intros Hi Hacc. pose proof Hacc as (Hts & Hcount & Hopen).
  pose proof (running_member (gobreaker.generation cb) ts i _ Hi) as Hrun.
  simpl in Hrun. rewrite Z.eqb_refl in Hrun.
  assert (Hts' : Forall (not_ahead (gobreaker.generation cb))
                   (<[i := Gone]> ts)) by (by apply Forall_insert).
  assert (Hrun' : running (gobreaker.generation cb) (<[i := Gone]> ts)
                  = (running (gobreaker.generation cb) ts - 1)%Z).
  { rewrite (running_insert _ _ _ _ _ Hi). simpl. rewrite Z.eqb_refl. lia. }
  assert (Hcounted : forall c (s0 : gobreaker.State),
             s0 <> gobreaker.StateOpen ->
             (gobreaker.Requests c
              = gobreaker.TotalSuccesses c + gobreaker.TotalFailures c
                + (running (gobreaker.generation cb) ts - 1))%Z ->
             accounted (<[i := Gone]> ts)
               {| gobreaker.settings := gobreaker.settings cb;
                  gobreaker.state := s0;
                  gobreaker.generation := gobreaker.generation cb;
                  gobreaker.counts := c;
                  gobreaker.expiry := gobreaker.expiry cb |}).
  { intros c s0 Hst Hc. unfold accounted. simpl. rewrite Hrun'.
    split; [exact Hts'|]. by split. }
  destruct s; unfold gobreaker.onSuccess, gobreaker.onFailure;
    destruct (gobreaker.state cb) eqn:Hs;
    try (specialize (Hopen eq_refl); lia).
  - unfold gobreaker.with_counts. rewrite Hs. apply Hcounted; [done|].
    simpl. lia.
  - destruct (_ <=? _)%Z.
    + destruct (setState_bump gobreaker.StateClosed now
                  (gobreaker.with_counts cb
                     (gobreaker.Counts_onSuccess (gobreaker.counts cb))))
        as [Hg Hc]; [simpl; by rewrite Hs|].
      by apply (bump_accounted _
                  (gobreaker.with_counts cb
                     (gobreaker.Counts_onSuccess (gobreaker.counts cb)))).
    + unfold gobreaker.with_counts. rewrite Hs. apply Hcounted; [done|].
      simpl. lia.
  - destruct (gobreaker.ReadyToTrip _ _).
    + destruct (setState_bump gobreaker.StateOpen now
                  (gobreaker.with_counts cb
                     (gobreaker.Counts_onFailure (gobreaker.counts cb))))
        as [Hg Hc]; [simpl; by rewrite Hs|].
      by apply (bump_accounted _
                  (gobreaker.with_counts cb
                     (gobreaker.Counts_onFailure (gobreaker.counts cb)))).
    + unfold gobreaker.with_counts. rewrite Hs. apply Hcounted; [done|].
      simpl. lia.
  - destruct (setState_bump gobreaker.StateOpen now cb) as [Hg Hc];
      [by rewrite Hs|].
    by apply (bump_accounted _ cb).
Qed.

Lemma breaker_step_accounted now ts cb i t :
  ts !! i = Some t ->
  accounted ts cb ->
  accounted (<[i := (breaker_step now t cb).1]> ts) (breaker_step now t cb).2.
Proof.
  intros Hi Hacc.
  pose proof (currentState_accounted now ts cb Hacc) as H1.
  destruct t as [s|g s|]; simpl.
  - unfold gobreaker.beforeRequest.
    destruct (gobreaker.currentState now cb) as [cb1 o1]. simpl in H1.
    destruct (gobreaker.state cb1) eqn:Hs1; simpl.
    + apply (admit_accounted ts cb1 i s s Hi); [by rewrite Hs1|exact H1].
    + destruct (_ <=? _)%Z; simpl.
      * by apply (leave_accounted ts cb1 i (Entering s)).
      * apply (admit_accounted ts cb1 i s s Hi); [by rewrite Hs1|exact H1].
    + by apply (leave_accounted ts cb1 i (Entering s)).
  - unfold gobreaker.afterRequest.
    destruct (gobreaker.currentState now cb) as [cb1 o1]. simpl in H1.
    destruct (Z.eqb_spec (gobreaker.generation cb1) g) as [Heq|Hne]; simpl.
    + subst g.
      pose proof (record_accounted ts cb1 i s now Hi H1) as Hrec.
      by destruct (if s then _ else _) as [cb2 out2].
    + apply (leave_accounted ts cb1 i (Running g s)); [exact Hi| |exact H1].
      simpl. destruct (Z.eqb_spec g (gobreaker.generation cb1)); congruence.
  - by rewrite (list_insert_id _ _ _ Hi).
Qed.

(** However the requests interleave at the breaker's guarded
    operations, its counters account for them. *)
Lemma run_breaker_accounted : forall sched ts cb,
  accounted ts cb ->
  accounted (run_breaker sched ts cb).1 (run_breaker sched ts cb).2.
Proof.
  induction sched as [|[i now] sched IH]; intros ts cb Hacc; simpl;
    [exact Hacc|].
  destruct (ts !! i) as [t|] eqn:Hi; [|by apply IH].
  pose proof (breaker_step_accounted now ts cb i t Hi Hacc) as Hstep.
  destruct (breaker_step now t cb) as [t' cb']. by apply IH.
Qed.

(** A call writes no breaker but the one of its key. *)
Lemma guarded_frame cfg rid h ctx req st reg (q : nat) o st' :
  registries st !! rid = Some reg ->
  reg !! circuitBreakerName cfg ctx <> Some q ->
  (q < length (breakers st))%nat ->
  keeps_breaker q h ->
  keeps_breaker q (fallbackHandler cfg) ->
  guarded cfg rid h ctx req st = (o, st') ->
  breakers st' !! q = breakers st !! q.
Proof.
  intros Hreg Hne Hq Hh Hf. unfold guarded.
  destruct (acquire cfg rid (circuitBreakerName cfg ctx) st)
    as [[p st1]|] eqn:Ha.
  2: { destruct (FromServerContext ctx); intros H; inversion H; subst;
       reflexivity. }
  assert (Hp : p <> q /\ breakers st1 !! q = breakers st !! q).
  { unfold acquire in Ha. rewrite Hreg in Ha.
    destruct (reg !! circuitBreakerName cfg ctx) as [p'|] eqn:Hk.
    - inversion Ha; subst. split; [congruence|reflexivity].
    - inversion Ha; subst. simpl. split; [lia|]. by rewrite lookup_app_l. }
  destruct Hp as [Hpq Hst1].
  assert (HE : forall o2 st2,
             Execute p (h ctx req) st1 = (o2, st2) ->
             breakers st2 !! q = breakers st !! q).
  { unfold Execute. intros o2 st2.
    destruct (breakers st1 !! p) as [cb|];
      [|intros H; inversion H; subst; exact Hst1].
    destruct (gobreaker.beforeRequest (clock st1) cb) as [[cb1 out] [gen|e]].
    - destruct (h ctx req (log_lines out (set_breaker p cb1 st1)))
        as [o3 st3] eqn:Hcall.
      apply Hh in Hcall. simpl in Hcall.
      rewrite list_lookup_insert_ne in Hcall by exact Hpq.
      destruct (breakers st3 !! p) as [cb2|].
      + destruct (gobreaker.afterRequest _ _ _ _) as [cb3 out3].
        intros H; inversion H; subst. simpl.
        rewrite list_lookup_insert_ne by exact Hpq. congruence.
      + intros H; inversion H; subst. congruence.
    - intros H; inversion H; subst. simpl.
      rewrite list_lookup_insert_ne by exact Hpq. exact Hst1. }
  destruct (Execute p (h ctx req) st1) as [[result e|v] st2] eqn:HEx.
  - specialize (HE _ _ eq_refl).
    destruct (is_ErrOpenState e).
    + destruct (FromServerContext ctx); intros H; apply Hf in H;
        simpl in H; congruence.
    + destruct (FromServerContext ctx); intros H; inversion H; subst;
        exact HE.
  - specialize (HE _ _ eq_refl).
    destruct (FromServerContext ctx); intros H; inversion H; subst; exact HE.
Qed.

End BreakerLemmas.

Section BreakerTheorems.
Import middleware circuitbreaker.
Context {U : Type}.
Implicit Types (st : State U) (h : Handler U).

(** C1.  The breaker the middleware creates for a key works with the
    configured trip predicate, success predicate, callback and timeout,
    and the library's operations keep them.  Take a call through the
    middleware whose breaker is Closed when the call is admitted and
    whose handler fails (a panic, or an error the configured success
    predicate counts as a failure) within the same generation: if the
    configured trip predicate is false on the updated counts the
    breaker stays Closed with those counts; if it is true the call
    leaves the breaker Open with its expiry one timeout later.  While
    the breaker is Open and its expiry not reached, a call returns what
    the fallback handler returns, whatever the wrapped handler is: it is
    not invoked.  So for failing calls one after the other from the
    first request for a key: as long as the configured trip predicate
    is false on the failures counted the breaker is Closed, and when it
    is first true, the call leaves the breaker Open and the
    next call, whatever its handler, is answered by the fallback
    handler.  The default trip predicate is "at least 10 requests, at
    least half of them failed"; the default fallback returns the
    "circuit breaker is open" error. *)
Theorem breaker_trips_then_rejects (cfg : @options U) (rid : nat) :
  (forall ctx st reg,
      registries st !! rid = Some reg ->
      reg !! circuitBreakerName cfg ctx = None ->
      exists stA cb reg',
        acquire cfg rid (circuitBreakerName cfg ctx) st
        = Some (length (breakers st), stA) /\
        breakers stA !! length (breakers st) = Some cb /\
        configured cfg cb /\
        gobreaker.state cb = gobreaker.StateClosed /\
        gobreaker.counts cb = gobreaker.Counts_clear /\
        registries stA !! rid = Some reg' /\
        reg' !! circuitBreakerName cfg ctx = Some (length (breakers st))) /\
  (forall h ctx req st p stA cb cbB out gen o stC,
      acquire cfg rid (circuitBreakerName cfg ctx) st = Some (p, stA) ->
      breakers stA !! p = Some cb ->
      configured cfg cb ->
      gobreaker.beforeRequest (clock stA) cb = (cbB, out, inl gen) ->
      gobreaker.state cbB = gobreaker.StateClosed ->
      h ctx req (log_lines out (set_breaker p cbB stA)) = (o, stC) ->
      breakers stC !! p = Some cbB ->
      gobreaker.currentState (clock stC) cbB = (cbB, []) ->
      match o with
      | Return _ e => isSuccessful cfg e = false
      | Panic _ => True
      end ->
      let counts' := gobreaker.Counts_onFailure (gobreaker.counts cbB) in
      exists stD cbD line,
        breakers stD !! p = Some cbD /\
        configured cfg cbD /\
        (readyToTrip cfg counts' = false ->
         gobreaker.state cbD = gobreaker.StateClosed /\
         gobreaker.counts cbD = counts') /\
        (readyToTrip cfg counts' = true ->
         gobreaker.state cbD = gobreaker.StateOpen /\
         gobreaker.expiry cbD
         = Some (clock stC + effective_timeout cfg)%Z) /\
        guarded cfg rid h ctx req st
        = match o with
          | Return _ e =>
              if is_ErrOpenState e
              then fallbackHandler cfg ctx req (log_lines [line] stD)
              else (o, stD)
          | Panic _ => (o, stD)
          end) /\
  (forall h ctx req st reg p cb e,
      registries st !! rid = Some reg ->
      reg !! circuitBreakerName cfg ctx = Some p ->
      breakers st !! p = Some cb ->
      gobreaker.state cb = gobreaker.StateOpen ->
      gobreaker.expiry cb = Some e ->
      (clock st < e)%Z ->
      guarded cfg rid h ctx req st
      = fallbackHandler cfg ctx req (log_lines [breaker_open_line ctx] st)) /\
  (forall h ctx req st0 reg k,
      registries st0 !! rid = Some reg ->
      reg !! circuitBreakerName cfg ctx = None ->
      fails_quietly cfg h ctx req ->
      Forall (fun i => readyToTrip cfg (failures i) = false) (seq 1 k) ->
      readyToTrip cfg (failures (S k)) = true ->
      let p := length (breakers st0) in
      let stk := after_calls k (guarded cfg rid h) ctx req st0 in
      let stT := after_calls (S k) (guarded cfg rid h) ctx req st0 in
      (0 < k ->
       exists cb, breakers stk !! p = Some cb /\
         configured cfg cb /\
         gobreaker.state cb = gobreaker.StateClosed /\
         gobreaker.counts cb = failures k) /\
      exists cb, breakers stT !! p = Some cb /\
        gobreaker.state cb = gobreaker.StateOpen /\
        gobreaker.expiry cb = Some (clock st0 + effective_timeout cfg)%Z /\
        forall h',
          guarded cfg rid h' ctx req stT
          = fallbackHandler cfg ctx req
              (log_lines [breaker_open_line ctx] stT)) /\
  (forall c,
      readyToTrip (@default_options U) c = true <->
      (10 <= gobreaker.Requests c)%Z /\
      (gobreaker.Requests c <= 2 * gobreaker.TotalFailures c)%Z) /\
  (forall ctx req st,
      fallbackHandler default_options ctx req st
      = (Return None (Some ErrCircuitOpen), st)).
Proof.
  split; [|split; [|split; [|split; [|split]]]].
  - intros ctx st reg Hreg Hmiss.
    rewrite (acquire_miss cfg rid _ st reg Hreg Hmiss).
    eexists _, _, _. split; [reflexivity|]. simpl.
    split; [by apply list_lookup_middle|].
    split; [apply NewCircuitBreaker_configured|].
    split; [reflexivity|]. split; [reflexivity|].
    split; [apply list_lookup_insert_eq; by eapply lookup_lt_Some|].
    apply lookup_insert_eq.
  - intros h ctx req st p stA cb cbB out gen o stC
      Hacq Hcb Hcfg Hbefore Hclosed Hh HcbC Hcur Hfail counts'.
    pose proof (beforeRequest_admitted _ _ _ _ _ Hbefore) as Hgen.
    assert (HcfgB : configured cfg cbB).
    { eapply configured_settings; [|exact Hcfg].
      pose proof (beforeRequest_settings (clock stA) cb) as Hs.
      by rewrite Hbefore in Hs. }
    destruct HcfgB as (Htripf & Hsuccf & HcfgB').
    pose proof HcfgB' as (_ & Htimeout & _).
    destruct (gobreaker.afterRequest gen false (clock stC) cbB) as [cb3 out3] eqn:Har.
    exists (log_lines out3 (set_breaker p cb3 stC)), cb3.
    assert (Hex : Execute p (h ctx req) stA
                  = (o, log_lines out3 (set_breaker p cb3 stC))).
    { unfold Execute. rewrite Hcb, Hbefore, Hh, HcbC.
      destruct o as [reply e|v]; [rewrite Hsuccf, Hfail|]; rewrite Har;
        reflexivity. }
    assert (Hcfg3 : configured cfg cb3).
    { eapply configured_settings; [|exact (conj Htripf (conj Hsuccf HcfgB'))].
      pose proof (afterRequest_settings gen false (clock stC) cbB) as Hs.
      by rewrite Har in Hs. }
    assert (Hstay : readyToTrip cfg counts' = false ->
                    gobreaker.state cb3 = gobreaker.StateClosed /\
                    gobreaker.counts cb3 = counts').
    { intros Hno. rewrite <- Htripf in Hno.
      pose proof (afterRequest_stays (clock stC) cbB Hclosed Hcur Hno) as Hs.
      rewrite Hgen, Har in Hs. inversion Hs; subst. split; [exact Hclosed|reflexivity]. }
    assert (Htrips : readyToTrip cfg counts' = true ->
                     gobreaker.state cb3 = gobreaker.StateOpen /\
                     gobreaker.expiry cb3
                     = Some (clock stC + effective_timeout cfg)%Z).
    { intros Hyes. rewrite <- Htripf in Hyes.
      pose proof (afterRequest_trips (clock stC) cbB Hclosed Hcur Hyes) as Ht.
      rewrite Hgen, Har in Ht. simpl in Ht. destruct Ht as (H1 & H2 & _).
      rewrite Htimeout in H2. auto. }
    unfold guarded. rewrite Hacq, Hex.
    destruct (FromServerContext ctx) as [tr|]; eexists;
      (split; [by eapply set_breaker_lookup|]);
      (split; [exact Hcfg3|]);
      (split; [exact Hstay|]); (split; [exact Htrips|]);
      destruct o as [reply e|v]; reflexivity.
  - intros h ctx req st reg p cb e. apply guarded_open_rejects.
  - intros h ctx req st0 reg k Hreg Hmiss Hh Hno Htrip p stk stT.
    set (n := circuitBreakerName cfg ctx) in *.
    set (t0 := clock st0).
    set (cb0 := gobreaker.NewCircuitBreaker (Settings_of cfg n) t0).
    pose proof (acquire_miss cfg rid n st0 reg Hreg Hmiss) as Hacq.
    set (stA := set_registries _ _) in Hacq. fold p in Hacq.
    assert (HregA : registries stA !! rid = Some (<[n := p]> reg)).
    { unfold stA. simpl. apply list_lookup_insert_eq. by eapply lookup_lt_Some. }
    assert (HnA : <[n := p]> reg !! n = Some p) by apply lookup_insert_eq.
    assert (HcbA : breakers stA !! p
                   = Some (gobreaker.with_counts cb0 (failures 0))).
    { unfold stA. simpl. by apply list_lookup_middle. }
    assert (Hfrom : forall m, 0 < m ->
               after_calls m (guarded cfg rid h) ctx req st0
               = after_calls m (guarded cfg rid h) ctx req stA).
    { intros [|m] Hm; [lia|]. simpl.
      by rewrite (guarded_after_acquire cfg rid h ctx req st0 p stA Hacq). }
    destruct (failures_counted cfg rid h ctx req (<[n := p]> reg) p t0 k 0 stA
                Hh eq_refl HregA HnA HcbA Hno) as (Hc & Hr & Hb).
    simpl in Hb. split.
    + intros Hk. unfold stk. rewrite (Hfrom k Hk).
      eexists. split; [exact Hb|].
      split; [|split; reflexivity].
      eapply configured_settings; [|apply (NewCircuitBreaker_configured cfg n t0)].
      reflexivity.
    + unfold stT. rewrite (Hfrom (S k) ltac:(lia)), after_calls_snoc.
      set (sk := after_calls k (guarded cfg rid h) ctx req stA) in *.
      destruct (guarded_failure_step cfg rid h ctx req sk (<[n := p]> reg) p t0 k
                  Hh Hc ltac:(by rewrite Hr) HnA Hb) as (Hc1 & Hr1 & Hb1).
      fold n in Hb1. rewrite onFailure_closed in Hb1. fold n in Hb1.
      rewrite Htrip in Hb1.
      eexists. split; [exact Hb1|].
      split; [reflexivity|]. split; [reflexivity|].
      intros h'.
      eapply (guarded_open_rejects cfg rid h' ctx req _ (<[n := p]> reg) p).
      * rewrite Hr1, Hr. exact HregA.
      * exact HnA.
      * exact Hb1.
      * reflexivity.
      * reflexivity.
      * rewrite Hc1. simpl. unfold t0.
        destruct (Z.leb_spec (timeout cfg) 0); lia.
  - intros c. unfold default_options, default_readyToTrip. simpl.
    rewrite andb_true_iff, !Z.leb_le. reflexivity.
  - reflexivity.
Qed.

(** C8 (as amended).  The registry creates a breaker for a key only
    when the lookup of the key misses.  So when the requests are served
    one after the other, from a registry whose breakers are those the
    middleware created: every request gets the breaker registered for
    its key, requests with the same key get the same one, distinct keys
    have distinct breakers, each with the key as its name and the
    configured settings; the keys registered afterwards are those
    registered before and those asked for, and exactly one breaker has
    been created for each new key, the breakers that existed being left
    where they were.  The registry has no guard of its own and no
    double-checked acquisition: two requests that both look a new key
    up before either has stored its breaker create one each.  The state
    of a breaker is changed only by the breaker's own guarded
    operations, admission and bookkeeping: [Execute] is the one
    followed by the other, and however the requests on one breaker
    interleave at these operations, the breaker's counters account for
    every request.  A request writes no breaker but the one of its key,
    so requests for unrelated operations never meet on a breaker. *)
Theorem registry_one_breaker_per_key_in_sequence (cfg : @options U)
    (rid : nat) :
  (forall names st reg,
      registries st !! rid = Some reg ->
      registry_ok cfg reg (breakers st) ->
      exists cbs st' reg' created,
        acquire_all cfg rid names st = Some (cbs, st') /\
        length cbs = length names /\
        registries st' !! rid = Some reg' /\
        registry_ok cfg reg' (breakers st') /\
        (forall i n, names !! i = Some n -> cbs !! i = reg' !! n) /\
        (forall n m p, reg' !! n = Some p -> reg' !! m = Some p -> n = m) /\
        dom reg' = dom reg ∪ list_to_set names /\
        reg ⊆ reg' /\
        breakers st' = breakers st ++ created /\
        length created = size reg' - size reg) /\
  (forall n st reg,
      registries st !! rid = Some reg ->
      reg !! n = None ->
      (run_schedule cfg rid [0; 1; 0; 1] [AtLookup n; AtLookup n] st).1
      = [Holding (length (breakers st));
         Holding (S (length (breakers st)))]) /\
  (forall p (req : State U -> outcome * State U) st cb cb1 out gen o st2 cb2,
      breakers st !! p = Some cb ->
      gobreaker.beforeRequest (clock st) cb = (cb1, out, inl gen) ->
      req (log_lines out (set_breaker p cb1 st)) = (o, st2) ->
      breakers st2 !! p = Some cb2 ->
      let success :=
        match o with
        | Return _ e => gobreaker.IsSuccessful (gobreaker.settings cb2) e
        | Panic _ => false
        end in
      breaker_step (clock st) (Entering success) cb
      = (Running gen success, cb1) /\
      breakers (Execute p req st).2 !! p
      = Some (breaker_step (clock st2) (Running gen success) cb2).2) /\
  (forall (s : gobreaker.Settings) now ts,
      Forall (fun t => exists success, t = Entering success) ts ->
      accounted ts (gobreaker.NewCircuitBreaker s now)) /\
  (forall sched ts cb,
      accounted ts cb ->
      accounted (run_breaker sched ts cb).1 (run_breaker sched ts cb).2) /\
  (forall h ctx req st reg (q : nat) o st',
      registries st !! rid = Some reg ->
      reg !! circuitBreakerName cfg ctx <> Some q ->
      (q < length (breakers st))%nat ->
      keeps_breaker q h ->
      keeps_breaker q (fallbackHandler cfg) ->
      guarded cfg rid h ctx req st = (o, st') ->
      breakers st' !! q = breakers st !! q).
Proof.
  split; [|split; [|split; [|split; [|split]]]].
  - intros names st reg Hreg Hok.
    destruct (acquire_all_registry cfg rid names st reg Hreg Hok)
      as (cbs & st' & reg' & created & Hall & Hlen & Hreg' & Hok' & Hget
          & Hdom & Hsub & Hbs & Hcr).
    exists cbs, st', reg', created. repeat (split; [assumption|]).
    split; [|by repeat split].
    intros n m p Hn Hm.
    destruct (Hok' n p Hn) as (cb & Hcb & Hname & _).
    destruct (Hok' m p Hm) as (cb' & Hcb' & Hname' & _). congruence.
  - intros n st reg. apply unguarded_first_access.
  - intros p req st cb cb1 out gen o st2 cb2 Hcb Hbefore Hreq Hcb2 success.
    split; [simpl; by rewrite Hbefore|].
    unfold Execute. rewrite Hcb, Hbefore, Hreq, Hcb2. fold success. simpl.
    destruct (gobreaker.afterRequest gen success (clock st2) cb2)
      as [cb3 out3]. simpl.
    apply list_lookup_insert_eq. by eapply lookup_lt_Some.
  - intros s now ts Hts. unfold accounted. simpl.
    assert (Hrun : forall g, running g ts = 0%Z).
    { intros g. induction Hts as [|t ts [s0 ->] _ IH]; simpl; [reflexivity|].
      exact IH. }
    rewrite Hrun. split; [|by split].
    eapply Forall_impl; [exact Hts|]. by intros t [s0 ->].
  - apply run_breaker_accounted.
  - intros h ctx req st reg q o st'. apply guarded_frame.
Qed.

End BreakerTheorems.

(** The sequential [acquire] is a task that takes its two steps with
    nothing in between. *)
Lemma acquire_two_steps {U : Type} (cfg : @circuitbreaker.options U)
    (rid : nat) (n : string) (st : middleware.State U) :
  circuitbreaker.acquire cfg rid n st
  = match circuitbreaker.task_step cfg rid (circuitbreaker.AtLookup n) st with
    | (circuitbreaker.Holding cb, st1) => Some (cb, st1)
    | (t, st1) =>
        match circuitbreaker.task_step cfg rid t st1 with
        | (circuitbreaker.Holding cb, st2) => Some (cb, st2)
        | _ => None
        end
    end.
Proof.
  unfold circuitbreaker.acquire, circuitbreaker.task_step.
  destruct (middleware.registries st !! rid) as [reg|] eqn:Hr; [|by rewrite Hr].
  destruct (reg !! n); [reflexivity|]. by rewrite Hr.
Qed.

(** The two states used in the examples further down are the ones nine
    and ten failed calls lead to from the state in which the middleware
    was built. *)
Lemma nine_failures_reached :
  examples.call_times 9
    (circuitbreaker.guarded examples.default_breaker 0 examples.failing)
    examples.breaker_built = examples.nine_failures /\
  examples.call_times 10
    (circuitbreaker.guarded examples.default_breaker 0 examples.failing)
    examples.breaker_built = examples.ten_failures.
Proof. split; vm_compute; reflexivity. Qed.

(** C1 from the state in which the middleware was built, at the default
    configuration (the tenth failing call opens the breaker for 60
    seconds) and at one that opens on three failures in a row for five
    seconds and answers from a cache: the call after that, to a handler
    that would serve it, is answered by the fallback. *)
Lemma breaker_trips_then_rejects_witness :
  (exists cb,
      middleware.breakers
        (after_calls 10
           (circuitbreaker.guarded examples.default_breaker 0 examples.failing)
           Background None examples.breaker_built) !! 0 = Some cb /\
      gobreaker.state cb = gobreaker.StateOpen /\
      gobreaker.expiry cb = Some 60000000000%Z /\
      circuitbreaker.guarded examples.default_breaker 0 examples.serving
        Background None
        (after_calls 10
           (circuitbreaker.guarded examples.default_breaker 0 examples.failing)
           Background None examples.breaker_built)
      = (middleware.Return None (Some ErrCircuitOpen),
         middleware.log_lines [breaker_open_line Background]
           (after_calls 10
              (circuitbreaker.guarded examples.default_breaker 0
                 examples.failing)
              Background None examples.breaker_built))) /\
  (exists cb,
      middleware.breakers
        (after_calls 3
           (circuitbreaker.guarded examples.strict_breaker 0 examples.failing)
           examples.pay_request None examples.breaker_built) !! 0 = Some cb /\
      gobreaker.state cb = gobreaker.StateOpen /\
      gobreaker.expiry cb = Some 5000000000%Z /\
      circuitbreaker.guarded examples.strict_breaker 0 examples.serving
        examples.pay_request None
        (after_calls 3
           (circuitbreaker.guarded examples.strict_breaker 0 examples.failing)
           examples.pay_request None examples.breaker_built)
      = (middleware.Return (Some (AnyStr "cached")) None,
         middleware.log_lines [breaker_open_line examples.pay_request]
           (after_calls 3
              (circuitbreaker.guarded examples.strict_breaker 0
                 examples.failing)
              examples.pay_request None examples.breaker_built))).
Proof.
  assert (Hfail : forall cfg ctx,
             circuitbreaker.isSuccessful cfg
               (Some (Errorf "backend down")) = false ->
             fails_quietly cfg examples.failing ctx None).
  { intros cfg ctx Hs st.
    exists (middleware.Return None (Some (Errorf "backend down"))), st.
    split; [reflexivity|]. split; [split; [exact Hs|reflexivity]|].
    repeat split. }
  split.
  - destruct (breaker_trips_then_rejects examples.default_breaker 0)
      as (_ & _ & _ & Hseq & _ & _).
    destruct (Hseq examples.failing Background None examples.breaker_built
                ∅ 9 eq_refl eq_refl
                (Hfail examples.default_breaker Background eq_refl)
                ltac:(repeat constructor) eq_refl)
      as (_ & cb & Hcb & Hopen & Hexp & Hrej).
    exists cb. split; [exact Hcb|]. split; [exact Hopen|].
    split; [exact Hexp|]. exact (Hrej examples.serving).
  - destruct (breaker_trips_then_rejects examples.strict_breaker 0)
      as (_ & _ & _ & Hseq & _ & _).
    destruct (Hseq examples.failing examples.pay_request None
                examples.breaker_built ∅ 2 eq_refl eq_refl
                (Hfail examples.strict_breaker examples.pay_request eq_refl)
                ltac:(repeat constructor) eq_refl)
      as (_ & cb & Hcb & Hopen & Hexp & Hrej).
    exists cb. split; [exact Hcb|]. split; [exact Hopen|].
    split; [exact Hexp|]. exact (Hrej examples.serving).
Defined.

(** C8 fails as stated: two tasks serving the first two requests for one
    key, each looking the key up before the other has stored its
    breaker, both create one; the registry keeps the second, the first
    task goes on with the first. *)
Lemma interleaved_first_access_creates_two_breakers :
  let '(tasks, st') :=
    circuitbreaker.run_schedule examples.default_breaker 0 [0; 1; 0; 1]
      [circuitbreaker.AtLookup "k"; circuitbreaker.AtLookup "k"]
      examples.breaker_built in
  middleware.breakers examples.breaker_built = [] /\
  tasks = [circuitbreaker.Holding 0; circuitbreaker.Holding 1] /\
  (fun cb => gobreaker.Name (gobreaker.settings cb))
    <$> middleware.breakers st' = ["k"; "k"]%string /\
  (middleware.registries st' !! 0) ≫= (fun reg => reg !! "k"%string) = Some 1.
Proof. vm_compute. repeat split; reflexivity. Qed.

(** The amended C8 on three requests, the first and the last for the
    same key, and on three requests interleaved on a new breaker. *)
Lemma registry_one_breaker_per_key_in_sequence_witness :
  (exists cbs st' (reg' : gmap string nat) created,
      circuitbreaker.acquire_all examples.default_breaker 0
        ["a"; "b"; "a"]%string examples.breaker_built = Some (cbs, st') /\
      cbs !! 0 = cbs !! 2 /\
      middleware.breakers st' = [] ++ created /\
      length created = size reg' - size (∅ : gmap string nat)) /\
  accounted
    (run_breaker [(0, 0%Z); (1, 5%Z); (0, 7%Z); (2, 8%Z); (1, 9%Z)]
       [Entering false; Entering true; Entering false]
       (gobreaker.NewCircuitBreaker examples.server_settings 0%Z)).1
    (run_breaker [(0, 0%Z); (1, 5%Z); (0, 7%Z); (2, 8%Z); (1, 9%Z)]
       [Entering false; Entering true; Entering false]
       (gobreaker.NewCircuitBreaker examples.server_settings 0%Z)).2.
Proof.
  destruct (@registry_one_breaker_per_key_in_sequence unit
              examples.default_breaker 0)
    as (Hseq & _ & _ & Hnew & Hrun & _).
  split.
  - destruct (Hseq ["a"; "b"; "a"]%string examples.breaker_built ∅ eq_refl)
      as (cbs & st' & reg' & created & Hall & _ & _ & _ & Hget & _ & _ & _
          & Hbs & Hcr).
    { intros n p Hn. by rewrite lookup_empty in Hn. }
    exists cbs, st', reg', created. split; [exact Hall|].
    split; [|split; [exact Hbs|exact Hcr]].
    rewrite (Hget 0 "a"%string eq_refl), (Hget 2 "a"%string eq_refl).
    reflexivity.
  - apply Hrun, Hnew. repeat constructor; eexists; reflexivity.
Defined.

(** ** How the pieces above are reached from the constructors *)

(** The parent context given with the [Context] option is the one [New]
    derives the root token from. *)
Lemma configure_Context {W : Type} (opts : list (newMilli.Option W))
    (c : context) :
  newMilli.ctx (newMilli.configure (opts ++ [newMilli.Context c])) = c.
Proof. unfold newMilli.configure. by rewrite fold_left_app. Qed.

(** An enabled rate limiter is [limited] on a bucket created full at the
    time of construction. *)
Lemma ratelimit_Server_enabled {U : Type} (opts : list ratelimit.Option)
    (st : middleware.State U) (b : juju.Bucket) :
  ratelimit.disabled (ratelimit.configure opts) = false ->
  juju.NewBucketWithRate (ratelimit.rate (ratelimit.configure opts))
    (ratelimit.capacity (ratelimit.configure opts)) (middleware.clock st)
  = Some b ->
  ratelimit.Server opts st
  = Some (ratelimit.limited (ratelimit.configure opts)
            (length (middleware.buckets st)),
          middleware.set_buckets (middleware.buckets st ++ [b]) st) /\
  juju.availableTokens b = juju.capacity b.
Proof.
  intros Hd Hb. unfold ratelimit.Server. rewrite Hd, Hb. split; [reflexivity|].
  unfold juju.NewBucketWithRate in Hb.
  repeat match type of Hb with
         | (if ?c then _ else _) = _ => destruct c; [discriminate|]
         end.
  destruct (juju.find_quantum _ _ _) as [[q fi]|]; [|discriminate].
  by inversion Hb.
Qed.

(** An enabled circuit breaker is [guarded] on a registry created empty. *)
Lemma circuitbreaker_Server_enabled {U : Type}
    (opts : list (@circuitbreaker.Option U)) (st : middleware.State U) :
  circuitbreaker.disabled (circuitbreaker.configure opts) = false ->
  circuitbreaker.Server opts st
  = (circuitbreaker.guarded (circuitbreaker.configure opts)
       (length (middleware.registries st)),
     middleware.set_registries (middleware.registries st ++ [∅]) st).
Proof. intros Hd. unfold circuitbreaker.Server. by rewrite Hd. Qed.


(** * Further properties of the code *)

(** ** The application *)

Section AppExtras.
Import newMilli.
Context {W : Type}.
Implicit Types (p : Process W) (a : App W).

Lemma launch_trace (srvs : list (transport_Server W)) : forall i p,
  world (launch i srvs p) = world p /\
  cells (launch i srvs p) = cells p /\
  trace (launch i srvs p) = trace p ++ launched i (length srvs).
Proof.
  induction srvs as [|srv rest IH]; intros i p; simpl.
  - unfold launched. simpl. by rewrite app_nil_r.
  - destruct (IH (S i) (noted (EvGoStart i) (noted (EvGoStop i) p)))
      as (Hw & Hc & Ht).
    rewrite Hw, Hc, Ht. simpl. repeat split.
    unfold launched. simpl. by rewrite <- !app_assoc.
Qed.

Lemma run_hooks_cells ph c (hooks : list (Hook W)) i p :
  cells (run_hooks ph c i hooks p).2 = cells p.
Proof.
  pose proof (run_hooks_trace ph c hooks i p) as H.
  destruct (run_hooks ph c i hooks p) as [r p']. by destruct H.
Qed.

(** A context derived from one that is done is done, for the same
    cause. *)
Lemma extends_Err (own_first : context -> bool) cs now base ctx :
  extends base ctx -> is_Some (ctx_Err own_first cs now base) ->
  is_Some (ctx_Err own_first cs now ctx).
Proof.
  intros Hext Hbase.
  induction Hext; simpl; auto using ctx_first_inherited.
Qed.

(** X1.  A beforeStop hook that fails ends [Stop] before the cancel
    function is called: [Stop] returns the hook's error, the cancel
    cells are as they were (the root token is not cancelled), and the
    calls made are those of the hooks up to the failing one: no
    afterStop hook runs. *)
Theorem Stop_beforeStop_error_keeps_token a p (pre : list (Hook W))
    (h : Hook W) (post : list (Hook W)) (e : err) p1 (w2 : W) :
  let c := NewContext (app_ctx a) (AppInfo_of a) in
  beforeStop (app_opts a) = pre ++ h :: post ->
  run_hooks PBeforeStop c 0 pre p = (None, p1) ->
  h c (world p1) = (w2, Some e) ->
  exists p', Stop a p = (Some e, p') /\
    world p' = w2 /\
    cells p' = cells p /\
    trace p' = trace p ++ hooks_ok PBeforeStop 0 (length pre)
                       ++ [EvHook PBeforeStop (length pre) (Some e)].
Proof.
  intros c Hhooks Hpre Hh.
  pose proof (run_hooks_prefix_fail PBeforeStop c pre h post e w2 0 p p1 Hpre Hh) as Hrun.
  pose proof (run_hooks_trace PBeforeStop c pre 0 p) as Htr.
  rewrite Hpre in Htr. destruct Htr as [Hc Htr].
  eexists. split.
  - unfold Stop. rewrite Hhooks. subst c. rewrite Hrun. reflexivity.
  - simpl. split; [reflexivity|]. split; [exact Hc|].
    rewrite Htr. by rewrite <- app_assoc.
Qed.

(** X2.  When the beforeStop hooks all return nil, [Stop] cancels the
    root token whatever the afterStop hooks return: afterwards the
    application's context, and every context derived from it (the one
    [Run] gave the servers and the stop waiters among them), is done. *)
Theorem Stop_cancels_root_token a p (parent : context) (c : nat) p1 :
  app_ctx a = WithCancel parent c ->
  app_cancel a = Some c ->
  c < length (cells p) ->
  run_hooks PBeforeStop (NewContext (app_ctx a) (AppInfo_of a)) 0
    (beforeStop (app_opts a)) p = (None, p1) ->
  forall own_first now ctx, extends (app_ctx a) ctx ->
    is_Some (ctx_Err own_first (cells (Stop a p).2) now ctx).
Proof.
  intros Hctx Hcancel Hlt Hpre own_first now ctx Hext.
  assert (Hcell : cells (Stop a p).2 !! c = Some true).
  { unfold Stop. rewrite Hpre. rewrite run_hooks_cells.
    unfold cancel. rewrite Hcancel. simpl.
    apply list_lookup_insert_eq.
    pose proof (run_hooks_cells PBeforeStop
                  (NewContext (app_ctx a) (AppInfo_of a)) (beforeStop (app_opts a)) 0 p) as Hc.
    rewrite Hpre in Hc. simpl in Hc. by rewrite Hc. }
  assert (Hroot : is_Some (ctx_Err own_first (cells (Stop a p).2) now
                              (app_ctx a))).
  { rewrite Hctx. simpl. rewrite Hcell. simpl.
    destruct (ctx_Err own_first (cells (Stop a p).2) now parent); simpl; eauto. }
  by eapply extends_Err.
Qed.

Lemma run_hooks_among_trace
    (eg_tasks : App W -> context -> nat -> W -> list bool -> W * list bool)
    a ph c (hooks : list (Hook W)) : forall i p p',
  run_hooks_among eg_tasks a ph c i hooks p = (None, p') ->
  trace p' = trace p ++ hooks_ok ph i (length hooks).
Proof.
  induction hooks as [|fn rest IH]; intros i p p'; simpl.
  - intros H; inversion H; subst. unfold hooks_ok. simpl. by rewrite app_nil_r.
  - destruct (fn c _) as [w [e|]]; [discriminate|].
    intros H. rewrite (IH _ _ _ H). simpl. by rewrite <- app_assoc.
Qed.

Lemma run_hooks_among_prefix_fail
    (eg_tasks : App W -> context -> nat -> W -> list bool -> W * list bool)
    a ph c (pre : list (Hook W)) (h : Hook W) (post : list (Hook W)) e w2 :
  forall i p p1,
  run_hooks_among eg_tasks a ph c i pre p = (None, p1) ->
  h c (world (meanwhile eg_tasks a c (i + length pre) p1)) = (w2, Some e) ->
  run_hooks_among eg_tasks a ph c i (pre ++ h :: post) p
  = (Some e, called (EvHook ph (i + length pre) (Some e)) w2
               (meanwhile eg_tasks a c (i + length pre) p1)).
Proof.
  induction pre as [|fn rest IH]; intros i p p1 Hpre Hh; simpl in *.
  - inversion Hpre; subst. rewrite Nat.add_0_r in *. by rewrite Hh.
  - destruct (fn c _) as [w [e'|]]; [discriminate|].
    replace (i + S (length rest)) with (S i + length rest) in * by lia.
    by rewrite (IH _ _ _ Hpre Hh).
Qed.

(** X3.  When an afterStart hook fails, [Run] returns its error at once.
    By then the stop waiter and the start task of every server have been
    handed to the error group, in list order; what these tasks have done
    meanwhile is left open (a start task may have failed and the group's
    token be cancelled), and each hook finds the world as they have left
    it.  [Run] makes no call after the failing hook: it neither waits for
    the tasks nor cancels anything itself. *)
Theorem Run_afterStart_error_leaves_servers
    (eg_tasks : App W -> context -> nat -> W -> list bool -> W * list bool)
    (eg_Wait : App W -> context -> Process W -> error * Process W)
    a p (pre : list (Hook W)) (h : Hook W) (post : list (Hook W))
    (e : err) p1 p2 (w3 : W) :
  let c := WithCancel (NewContext (app_ctx a) (AppInfo_of a))
                      (length (cells p)) in
  let p0 := {| world := world p; cells := cells p ++ [false];
               trace := trace p |} in
  run_hooks PBeforeStart c 0 (beforeStart (app_opts a)) p0 = (None, p1) ->
  afterStart (app_opts a) = pre ++ h :: post ->
  run_hooks_among eg_tasks a PAfterStart c 0 pre
    (launch 0 (servers (app_opts a)) p1) = (None, p2) ->
  h c (world (meanwhile eg_tasks a c (length pre) p2)) = (w3, Some e) ->
  exists p', Run eg_tasks eg_Wait a p = (Some e, p') /\
    world p' = w3 /\
    trace p'
    = trace p ++ hooks_ok PBeforeStart 0 (length (beforeStart (app_opts a)))
        ++ launched 0 (length (servers (app_opts a)))
        ++ hooks_ok PAfterStart 0 (length pre)
        ++ [EvHook PAfterStart (length pre) (Some e)].
Proof.
  intros c p0 Hbefore Hafter Hpre Hh.
  pose proof (run_hooks_among_prefix_fail eg_tasks a PAfterStart c pre h post
                e w3 0 _ p2 Hpre Hh) as Hrun.
  pose proof (run_hooks_trace PBeforeStart c (beforeStart (app_opts a)) 0 p0) as Hb.
  rewrite Hbefore in Hb. destruct Hb as [_ Hbt].
  pose proof (run_hooks_among_trace eg_tasks a PAfterStart c pre 0 _ _ Hpre)
    as Hat.
  destruct (launch_trace (servers (app_opts a)) 0 p1) as (_ & _ & Hlt).
  eexists. split.
  - unfold Run. subst c p0. rewrite Hbefore, Hafter, Hrun. reflexivity.
  - simpl. split; [reflexivity|].
    rewrite Hat, Hlt, Hbt. simpl. by rewrite <- !app_assoc.
Qed.

(** X4.  A start-up in which every hook returns nil: the calls are made
    in the order beforeStart hooks, then per server in list order the
    stop waiter and the start task, then the afterStart hooks, then the
    signal registration; only then [Run] waits, and it returns the error
    of the error group, except that a cancellation is returned as
    nil. *)
Theorem Run_startup_order
    (eg_tasks : App W -> context -> nat -> W -> list bool -> W * list bool)
    (eg_Wait : App W -> context -> Process W -> error * Process W)
    a p p1 p3 :
  let c := WithCancel (NewContext (app_ctx a) (AppInfo_of a))
                      (length (cells p)) in
  let p0 := {| world := world p; cells := cells p ++ [false];
               trace := trace p |} in
  run_hooks PBeforeStart c 0 (beforeStart (app_opts a)) p0 = (None, p1) ->
  run_hooks_among eg_tasks a PAfterStart c 0 (afterStart (app_opts a))
    (launch 0 (servers (app_opts a)) p1) = (None, p3) ->
  let p4 := noted (EvNotify (sigs (app_opts a))) p3 in
  trace p4
  = trace p ++ hooks_ok PBeforeStart 0 (length (beforeStart (app_opts a)))
      ++ launched 0 (length (servers (app_opts a)))
      ++ hooks_ok PAfterStart 0 (length (afterStart (app_opts a)))
      ++ [EvNotify (sigs (app_opts a))] /\
  Run eg_tasks eg_Wait a p
  = (hide_Canceled (eg_Wait a c p4).1, (eg_Wait a c p4).2).
Proof.
  intros c p0 Hbefore Hafter p4.
  pose proof (run_hooks_trace PBeforeStart c (beforeStart (app_opts a)) 0 p0) as Hb.
  rewrite Hbefore in Hb. destruct Hb as [_ Hbt].
  pose proof (run_hooks_among_trace eg_tasks a PAfterStart c
                (afterStart (app_opts a)) 0 _ _ Hafter) as Hat.
  destruct (launch_trace (servers (app_opts a)) 0 p1) as (_ & _ & Hlt).
  split.
  - unfold p4. simpl. rewrite Hat, Hlt, Hbt. simpl. by rewrite <- !app_assoc.
  - unfold Run. subst c p0. rewrite Hbefore, Hafter. fold p4.
    destruct (eg_Wait _ _ p4) as [[[]|] p5]; reflexivity.
Qed.

(** X5.  The identity given with the [ID], [Name] and [Version] options
    is the one the application's methods return, and the one the
    contexts built by [NewContext] carry, also under the cancellable
    context [Run] derives for the hooks and the servers. *)
Theorem New_identity (opts : list (Option W)) (i n v : string) p :
  match New (opts ++ [ID i; Name n; Version v]) p with
  | (Some a, None, _) =>
      App.ID a = i /\ App.Name a = n /\ App.Version a = v /\
      forall ctx cell,
        FromContext (NewContext ctx (AppInfo_of a))
        = Some {| info_ID := i; info_Name := n; info_Version := v |} /\
        FromContext (WithCancel (NewContext ctx (AppInfo_of a)) cell)
        = Some {| info_ID := i; info_Name := n; info_Version := v |}
  | (None, Some _, _) => True
  | _ => False
  end.
Proof.
  unfold New.
  assert (Hcfg : configure (opts ++ [ID i; Name n; Version v])
                 = Version v (Name n (ID i (configure opts)))).
  { unfold configure. by rewrite fold_left_app. }
  rewrite Hcfg.
  destruct (init_servers _ 0 _ p) as [[e|] p1]; [exact I|].
  simpl. repeat split.
Qed.

End AppExtras.

(** X1 at an application whose only beforeStop hook fails. *)
Lemma Stop_beforeStop_error_keeps_token_witness :
  exists p', newMilli.Stop examples.stuck_app examples.started
             = (Some (Errorf "boom"), p') /\
    newMilli.world p' = 0 /\
    newMilli.cells p' = [false] /\
    newMilli.trace p'
    = [] ++ newMilli.hooks_ok newMilli.PBeforeStop 0 0
         ++ [newMilli.EvHook newMilli.PBeforeStop 0 (Some (Errorf "boom"))].
Proof.
  exact (Stop_beforeStop_error_keeps_token examples.stuck_app examples.started
           [] examples.failing_hook [] (Errorf "boom") _ 0
           eq_refl eq_refl eq_refl).
Defined.

(** X2 at the application with one hook before and one after stop: the
    context [Run] would derive is done after [Stop]. *)
Lemma Stop_cancels_root_token_witness :
  is_Some (ctx_Err examples.parent_first
             (newMilli.cells
                (newMilli.Stop examples.stopping_app examples.started).2)
             0 (WithCancel
                  (NewContext (newMilli.app_ctx examples.stopping_app)
                     (newMilli.AppInfo_of examples.stopping_app)) 7)).
Proof.
  apply (Stop_cancels_root_token examples.stopping_app examples.started
           Background 0 _ eq_refl eq_refl ltac:(repeat constructor) eq_refl
           examples.parent_first).
  repeat constructor.
Defined.

(** X3 at an application with two servers whose afterStart hook fails,
    when a start task has failed meanwhile. *)
Lemma Run_afterStart_error_leaves_servers_witness :
  exists p', newMilli.Run examples.failed_task (fun _ _ p => (None, p))
               examples.failing_afterStart_app examples.started
             = (Some (Errorf "boom"), p') /\
    newMilli.world p' = 11 /\
    newMilli.trace p'
    = [] ++ newMilli.hooks_ok newMilli.PBeforeStart 0 1
         ++ launched 0 2
         ++ newMilli.hooks_ok newMilli.PAfterStart 0 0
         ++ [newMilli.EvHook newMilli.PAfterStart 0 (Some (Errorf "boom"))].
Proof.
  exact (Run_afterStart_error_leaves_servers examples.failed_task
           (fun _ _ p => (None, p))
           examples.failing_afterStart_app examples.started
           [] examples.failing_hook [] (Errorf "boom") _ _ 11
           eq_refl eq_refl eq_refl eq_refl).
Defined.

(** X4 at an application with one server, when the error group ends by
    cancellation. *)
Lemma Run_startup_order_witness :
  exists p4 p5 : newMilli.Process nat,
    newMilli.trace p4
    = [newMilli.EvHook newMilli.PBeforeStart 0 None;
       newMilli.EvGoStop 0; newMilli.EvGoStart 0;
       newMilli.EvHook newMilli.PAfterStart 0 None;
       newMilli.EvNotify [newMilli.SIGTERM; newMilli.SIGINT; newMilli.SIGQUIT]] /\
    newMilli.Run examples.quiet_tasks (fun _ _ p => (Some Canceled, p))
      examples.starting_app examples.started = (None, p5).
Proof.
  destruct (Run_startup_order examples.quiet_tasks
              (fun _ _ p => (Some Canceled, p))
              examples.starting_app examples.started _ _ eq_refl eq_refl)
    as [Ht Hr].
  eexists. eexists. split; [exact Ht|exact Hr].
Defined.

(** ** Recovery and logging *)

Section RecoveryExtras.
Import middleware recovery.
Context {U : Type} (maxAlloc : Z) (runtime_Stack : Z -> bool -> string).

(** X23.  With recovery enabled and a stack size that the runtime
    allocates (not negative and within its allocation limit), a call in
    which the handler panics with [r] returns a nil reply and the error
    the configured translator makes of [r] (by default the error
    "panic: r"); nothing but the log changes, and a later call through
    the same wrapped handler in which the handler returns normally
    returns what the handler returns.  A normal return passes through
    unchanged. *)
Theorem recovery_Server_recovers (opts : list recovery.Option)
    (h : Handler U) :
  let cfg := recovery.configure opts in
  let wrapped := recovery.Server maxAlloc runtime_Stack opts h in
  recovery.disabled cfg = false ->
  (0 <= stackSize cfg <= maxAlloc)%Z ->
  (forall ctx req st reply e st1,
      h ctx req st = (Return reply e, st1) ->
      wrapped ctx req st = (Return reply e, st1)) /\
  (forall ctx req st r st1,
      h ctx req st = (Panic r, st1) ->
      exists st2,
        wrapped ctx req st = (Return None (recoveryHandler cfg ctx r), st2) /\
        user st2 = user st1 /\ clock st2 = clock st1 /\
        cells st2 = cells st1 /\ buckets st2 = buckets st1 /\
        breakers st2 = breakers st1 /\ registries st2 = registries st1 /\
        (forall ctx' req' reply e st3,
            h ctx' req' st2 = (Return reply e, st3) ->
            wrapped ctx' req' st2 = (Return reply e, st3))) /\
  (forall ctx r,
      recoveryHandler (recovery.configure []) ctx r
      = Some (Errorf ("panic: " +:+ fmt_v r))).
Proof.
  intros cfg wrapped Hen Hsz.
  assert (Hret : forall ctx req st reply e st1,
             h ctx req st = (Return reply e, st1) ->
             wrapped ctx req st = (Return reply e, st1)).
  { intros ctx req st reply e st1 Hh. by apply recovery_Server_returns. }
  split; [exact Hret|]. split; [|reflexivity].
  intros ctx req st r st1 Hh. unfold wrapped.
  rewrite (recovery_Server_panics _ _ _ _ _ _ _ _ _ Hen Hh).
  unfold recovered. fold cfg. rewrite (makeslice_allocates _ _ Hsz).
  eexists. split; [reflexivity|].
  destruct (disablePrint cfg); repeat split; try reflexivity;
    intros; apply Hret; assumption.
Qed.

(** X6.  Recovery wrapped around recovery: when the inner one is enabled
    with a stack size that the runtime allocates (not negative and within
    its allocation limit), no panic reaches the outer one, so the outer
    one changes nothing, whatever its options. *)
Theorem recovery_Server_nested (outer inner : list recovery.Option)
    (h : Handler U) :
  recovery.disabled (recovery.configure inner) = false ->
  (0 <= stackSize (recovery.configure inner) <= maxAlloc)%Z ->
  forall ctx req st,
    recovery.Server maxAlloc runtime_Stack outer
      (recovery.Server maxAlloc runtime_Stack inner h) ctx req st
    = recovery.Server maxAlloc runtime_Stack inner h ctx req st.
Proof.
  intros Hen Hsz ctx req st.
  set (wrapped := recovery.Server maxAlloc runtime_Stack inner h).
  assert (Hnp : forall v st1, wrapped ctx req st <> (Panic v, st1)).
  { intros v st1. unfold wrapped, recovery.Server. rewrite Hen.
    destruct (h ctx req st) as [[reply e|r] st2]; [discriminate|].
    unfold recovered. rewrite (makeslice_allocates _ _ Hsz). discriminate. }
  unfold recovery.Server at 1.
  destruct (recovery.disabled (recovery.configure outer)); [reflexivity|].
  destruct (wrapped ctx req st) as [[reply e|v] st1] eqn:Hw; [reflexivity|].
  exfalso. by eapply Hnp.
Qed.

End RecoveryExtras.

(** X23 at the default configuration and a handler that panics. *)
Lemma recovery_Server_recovers_witness :
  exists st2,
    recovery.Server examples.maxAlloc64 examples.no_stack [] examples.panicking
      Background None (examples.idle 0)
    = (middleware.Return None (Some (Errorf "panic: boom")), st2).
Proof.
  destruct (recovery_Server_recovers examples.maxAlloc64 examples.no_stack []
              examples.panicking eq_refl)
    as (_ & Hp & _); [vm_compute; split; discriminate|].
  destruct (Hp Background None (examples.idle 0) (AnyStr "boom")
              (examples.idle 0) eq_refl) as (st2 & Hw & _).
  exists st2. exact Hw.
Defined.

(** X6 at a handler that panics, the outer recovery with a negative stack
    size. *)
Lemma recovery_Server_nested_witness :
  recovery.Server examples.maxAlloc64 examples.no_stack
    [recovery.WithStackSize (-1)]
    (recovery.Server examples.maxAlloc64 examples.no_stack []
       examples.panicking)
    Background None (examples.idle 0)
  = recovery.Server examples.maxAlloc64 examples.no_stack [] examples.panicking
      Background None (examples.idle 0).
Proof.
  apply (recovery_Server_nested examples.maxAlloc64 examples.no_stack
           [recovery.WithStackSize (-1)] [] examples.panicking eq_refl).
  vm_compute. split; discriminate.
Defined.

Section LoggingExtras.
Import middleware logging.
Context {U : Type} (Duration_String : Z -> string) (fmt_d : Z -> string).

(** X7.  Logging is transparent.  A call that returns, returns the
    handler's reply and error, and the state the handler left with one
    line more: at the warning level exactly when the call took longer
    than the slow threshold, with code 500 and the error text when the
    handler returned an error and code 200 and "OK" otherwise.  A call
    that panics is left alone: the panic goes on and nothing is
    written. *)
Theorem logging_Server_transparent (opts : list logging.Option)
    (h : Handler U) ctx req st :
  logging.disabled (logging.configure opts) = false ->
  match h ctx req st with
  | (Return reply e, st1) =>
      exists kind operation,
        logging.Server Duration_String fmt_d opts h ctx req st
        = (Return reply e,
           log_lines
             [request_line Duration_String fmt_d
                (slowThreshold (logging.configure opts) <? clock st1 - clock st)%Z
                kind "server" operation
                (match e with Some _ => 500 | None => 200 end)%Z
                (match e with Some er => Error er | None => "OK"%string end)
                (clock st1 - clock st)%Z] st1)
  | (Panic v, st1) =>
      logging.Server Duration_String fmt_d opts h ctx req st = (Panic v, st1)
  end.
Proof.
  intros Hen. unfold logging.Server. rewrite Hen.
  destruct (h ctx req st) as [[reply e|v] st1].
  - destruct (FromServerContext ctx) as [tr|]; destruct e; eexists; eexists;
      reflexivity.
  - destruct (FromServerContext ctx); reflexivity.
Qed.

Lemma configure_level_blind (opts : list logging.Option) :
  Forall level_blind opts ->
  forall cfg cfg',
    logging.disabled cfg = logging.disabled cfg' ->
    slowThreshold cfg = slowThreshold cfg' ->
    logging.disabled (fold_left (fun c o => o c) opts cfg)
    = logging.disabled (fold_left (fun c o => o c) opts cfg') /\
    slowThreshold (fold_left (fun c o => o c) opts cfg)
    = slowThreshold (fold_left (fun c o => o c) opts cfg').
Proof.
  induction 1 as [|o opts Ho _ IH]; intros cfg cfg' Hd Hs; simpl; [auto|].
  destruct (Ho cfg cfg' Hd Hs). by apply IH.
Qed.

(** X8.  The level option of the logging middleware has no effect: the
    three options of the package do not look at the level, and among
    options that do not, a [WithLevel] placed anywhere changes neither
    the server nor the client middleware. *)
Theorem logging_WithLevel_ignored (before after : list logging.Option)
    (l : Level) :
  (forall d, level_blind (logging.WithDisabled d)) /\
  (forall l', level_blind (logging.WithLevel l')) /\
  (forall t, level_blind (logging.WithSlowThreshold t)) /\
  (Forall level_blind after ->
   logging.Server (U := U) Duration_String fmt_d (before ++ WithLevel l :: after)
   = logging.Server Duration_String fmt_d (before ++ after) /\
   logging.Client (U := U) Duration_String fmt_d (before ++ WithLevel l :: after)
   = logging.Client Duration_String fmt_d (before ++ after)).
Proof.
  split; [|split; [|split]]; try (intros x cfg cfg' Hd Hs; simpl; auto).
  intros Hafter.
  assert (H : logging.disabled (logging.configure (before ++ WithLevel l :: after))
              = logging.disabled (logging.configure (before ++ after)) /\
              slowThreshold (logging.configure (before ++ WithLevel l :: after))
              = slowThreshold (logging.configure (before ++ after))).
  { unfold logging.configure. rewrite !fold_left_app. simpl.
    apply configure_level_blind; [exact Hafter| |]; reflexivity. }
  destruct H as [Hd Hs].
  unfold logging.Server, logging.Client. rewrite Hd, Hs. split; reflexivity.
Qed.

End LoggingExtras.

(** X7 at a handler that fails after 600 ms, under the default
    threshold of 500 ms. *)
Lemma logging_Server_transparent_witness :
  exists kind operation,
    logging.Server (fun _ => "600ms"%string) (fun _ => "500"%string) []
      (fun _ _ st => (middleware.Return None (Some (Errorf "backend down")),
                       middleware.set_clock 600000000 st))
      Background None (examples.idle 0)
    = (middleware.Return None (Some (Errorf "backend down")),
       middleware.log_lines
         [logging.request_line (fun _ => "600ms"%string) (fun _ => "500"%string)
            true kind "server" operation 500 "backend down" 600000000]
         (middleware.set_clock 600000000 (examples.idle 0))).
Proof.
  exact (logging_Server_transparent (fun _ => "600ms"%string)
           (fun _ => "500"%string) []
           (fun _ _ st => (middleware.Return None (Some (Errorf "backend down")),
                            middleware.set_clock 600000000 st))
           Background None (examples.idle 0) eq_refl).
Defined.

(** X8 at the options of the package's documentation: a level followed by
    a threshold. *)
Lemma logging_WithLevel_ignored_witness :
  logging.Server (U := unit) (fun _ => ""%string) (fun _ => ""%string)
    ([] ++ logging.WithLevel logging.LevelError
        :: [logging.WithSlowThreshold 1000000000])
  = logging.Server (fun _ => ""%string) (fun _ => ""%string)
      ([] ++ [logging.WithSlowThreshold 1000000000]).
Proof.
  destruct (logging_WithLevel_ignored (U := unit) (fun _ => ""%string)
              (fun _ => ""%string) [] [logging.WithSlowThreshold 1000000000]
              logging.LevelError) as (_ & _ & Hslow & H).
  exact (proj1 (H (Forall_cons_2 _ _ _ (Hslow _) (Forall_nil_2 _)))).
Defined.

(** ** More on rate limiting *)

Section RateLimitExtras.
Import middleware ratelimit.
Context {U : Type}.
Implicit Types (st : State U) (h : Handler U).

(** X9.  Without waiting, when the bucket, refilled for the time that
    has passed, holds at least one token, the call is the handler's call
    with the same token and request, in the state in which exactly one
    token has been taken; the middleware writes nothing. *)
Theorem ratelimit_admits_with_one_token (cfg : ratelimit.options)
    (bucket : nat) h ctx req st (b : juju.Bucket) :
  waitIfFull cfg = false ->
  buckets st !! bucket = Some b ->
  let b1 := juju.adjustavailableTokens b (juju.currentTick b (clock st)) in
  (1 <= juju.availableTokens b1)%Z ->
  limited cfg bucket h ctx req st
  = h ctx req
      (set_bucket bucket
         (juju.set_available b1 (juju.latestTick b1)
            (juju.availableTokens b1 - 1)) st).
Proof.
  intros Hw Hb b1 Hge.
  assert (Htake : juju.TakeAvailable (clock st) 1 b
                  = (1%Z, juju.set_available b1 (juju.latestTick b1)
                            (juju.availableTokens b1 - 1))).
  { unfold juju.TakeAvailable. simpl. fold b1.
    destruct (Z.leb_spec (juju.availableTokens b1) 0); [lia|].
    rewrite Z.min_l by lia. reflexivity. }
  unfold limited. rewrite Hb, Hw, Htake. simpl.
  destruct (FromServerContext ctx); reflexivity.
Qed.

(** X10.  [AllowN] does not use the time it is given: for every limiter,
    every [now], every number of tokens and every state it is [Allow],
    deciding on the tokens available at the current time.  So on a
    bucket that holds no token at the current time it returns false
    for every [now], however far in the future. *)
Theorem AllowN_ignores_now :
  (forall (limiter : nat) (now n : Z) st,
      AllowN limiter now n st = Allow limiter n st) /\
  (forall (limiter : nat) (now n : Z) st (b : juju.Bucket),
      buckets st !! limiter = Some b ->
      (juju.availableTokens
         (juju.adjustavailableTokens b (juju.currentTick b (clock st))) <= 0)%Z ->
      exists st', AllowN limiter now n st = Some (false, st')).
Proof.
  split; [reflexivity|]. intros limiter now n st b Hb Hempty.
  change (AllowN limiter now n st) with (Allow limiter n st).
  destruct (Allow_admits_iff_some_token limiter n st b Hb) as (st' & HA & _).
  exists st'. rewrite HA. do 2 f_equal.
  destruct (Z.ltb_spec 0 (juju.availableTokens
     (juju.adjustavailableTokens b (juju.currentTick b (clock st))))); [lia|].
  apply andb_false_r.
Qed.

(** The debt [Take] leaves is repaid by the time it tells the caller to
    sleep until. *)
Lemma Take_repaid b now n :
  bucket_sound b now -> (juju.startTime b <= now)%Z -> (0 < n)%Z ->
  let t := (juju.Wait now n b).1 in
  let b' := (juju.Wait now n b).2 in
  (now <= t)%Z /\
  juju.availableTokens b'
  = (juju.availableTokens
       (juju.adjustavailableTokens b (juju.currentTick b now)) - n)%Z /\
  (0 <= juju.availableTokens
          (juju.adjustavailableTokens b' (juju.currentTick b' t)))%Z.
Proof.
  intros (Hav & Hq & Hfi & Htick) Hstart Hn.
  unfold juju.Wait, juju.Take.
  destruct (Z.leb_spec n 0) as [|_]; [lia|].
  set (tick := juju.currentTick b now).
  set (b1 := juju.adjustavailableTokens b tick).
  assert (Hb1 : (0 <= juju.availableTokens b1 <= juju.capacity b)%Z /\
                juju.capacity b1 = juju.capacity b /\
                juju.quantum b1 = juju.quantum b /\
                juju.startTime b1 = juju.startTime b /\
                juju.fillInterval b1 = juju.fillInterval b).
  { unfold b1, juju.adjustavailableTokens.
    destruct (Z.leb_spec (juju.capacity b) (juju.availableTokens b)); simpl;
      repeat split; try lia.
    apply Z.min_glb; [|lia].
    assert (0 <= (tick - juju.latestTick b) * juju.quantum b)%Z
      by (apply Z.mul_nonneg_nonneg; unfold tick; lia).
    lia. }
  destruct Hb1 as (Hav1 & Hc1 & Hq1 & Hs1 & Hf1).
  assert (Htk : (juju.startTime b + tick * juju.fillInterval b <= now
                 < juju.startTime b + (tick + 1) * juju.fillInterval b)%Z).
  { unfold tick, juju.currentTick. rewrite Z.quot_div_nonneg by lia.
    pose proof (Z.div_mod (now - juju.startTime b) (juju.fillInterval b) ltac:(lia)).
    pose proof (Z.mod_pos_bound (now - juju.startTime b) (juju.fillInterval b) Hfi).
    nia. }
  destruct (Z.leb_spec 0 (juju.availableTokens b1 - n)) as [Hok|Hdebt].
  - cbn [fst snd]. rewrite Z.ltb_irrefl. cbn [fst snd].
    split; [lia|]. split; [reflexivity|].
    assert (Ht : juju.currentTick
                   (juju.set_available b1 tick (juju.availableTokens b1 - n)) now
                 = tick).
    { unfold juju.currentTick at 1. simpl. rewrite Hs1, Hf1. reflexivity. }
    rewrite Ht. unfold juju.adjustavailableTokens. simpl.
    destruct (Z.leb_spec (juju.capacity b1) (juju.availableTokens b1 - n)); simpl;
      [lia|].
    rewrite Z.sub_diag. apply Z.min_glb; lia.
  - set (a := (- (juju.availableTokens b1 - n))%Z) in *.
    set (k := Z.quot (a + juju.quantum b - 1) (juju.quantum b)).
    assert (Hk : (a <= k * juju.quantum b)%Z /\ (1 <= k)%Z).
    { unfold k. rewrite Z.quot_div_nonneg by lia.
      pose proof (Z.div_mod (a + juju.quantum b - 1) (juju.quantum b) ltac:(lia)).
      pose proof (Z.mod_pos_bound (a + juju.quantum b - 1) (juju.quantum b) Hq).
      split; [nia|]. apply Z.div_le_lower_bound; lia. }
    destruct Hk as [Hka Hk1].
    set (endTime := (juju.startTime b + (tick + k) * juju.fillInterval b)%Z).
    assert (Hlt : (now < endTime)%Z) by (unfold endTime; nia).
    destruct (Z.ltb_spec 0 (endTime - now)); [|lia]. simpl.
    replace (now + (endTime - now))%Z with endTime by lia.
    split; [lia|]. split; [reflexivity|].
    unfold juju.adjustavailableTokens, juju.currentTick. simpl.
    rewrite Hs1, Hf1, Hc1, Hq1.
    replace (endTime - juju.startTime b)%Z
      with ((tick + k) * juju.fillInterval b)%Z by (unfold endTime; lia).
    rewrite Z.quot_mul by lia.
    destruct (Z.leb_spec (juju.capacity b) (juju.availableTokens b1 - n)); simpl;
      [lia|].
    apply Z.min_glb; [|lia].
    replace (tick + k - tick)%Z with k by lia. unfold a in Hka. lia.
Qed.

(** X12.  A [Wait] for [n] tokens on a token that is not cancelled, when
    the bucket is in good standing: the tokens are taken at once, which
    may leave the bucket in debt (so that callers who do not wait find no
    token meanwhile), [Wait] returns nil, not before the call, and at the
    time it returns the refill has repaid the debt. *)
Theorem Wait_returns_when_tokens_accrued (own_first : context -> bool)
    (ctx : context) (l : nat) (n : Z) st (b : juju.Bucket) :
  ctx_Err own_first (cells st) (clock st) ctx = None ->
  buckets st !! l = Some b ->
  bucket_sound b (clock st) ->
  (juju.startTime b <= clock st)%Z ->
  (0 < n)%Z ->
  exists st' b',
    ratelimit.Wait own_first ctx l n st = Some (None, st') /\
    (clock st <= clock st')%Z /\
    buckets st' !! l = Some b' /\
    juju.availableTokens b'
    = (juju.availableTokens
         (juju.adjustavailableTokens b (juju.currentTick b (clock st))) - n)%Z /\
    (0 <= juju.availableTokens
            (juju.adjustavailableTokens b' (juju.currentTick b' (clock st'))))%Z.
Proof.
  intros Hctx Hb Hsound Hstart Hn.
  destruct (Take_repaid b (clock st) n Hsound Hstart Hn) as (Ht & Hdebt & Hrep).
  unfold ratelimit.Wait. rewrite Hctx, Hb.
  destruct (juju.Wait (clock st) n b) as [t b'] eqn:HW. simpl in *.
  eexists _, b'. split; [reflexivity|]. simpl.
  split; [exact Ht|]. split; [by eapply set_bucket_lookup|].
  split; [exact Hdebt|exact Hrep].
Qed.

Lemma nextQuantum_pos q : (0 < q)%Z -> (0 < juju.nextQuantum q)%Z.
Proof.
  intros Hq. unfold juju.nextQuantum.
  assert (q <= Z.quot (q * 11) 10)%Z.
  { rewrite Z.quot_div_nonneg by lia. apply Z.div_le_lower_bound; lia. }
  destruct (Z.eqb_spec (Z.quot (q * 11) 10) q); lia.
Qed.

Lemma find_quantum_pos fuel : forall rate q q' fi,
  (0 < q)%Z -> juju.find_quantum fuel rate q = Some (q', fi) ->
  (0 < q')%Z /\ (0 < fi)%Z.
Proof.
  induction fuel as [|fuel IH]; intros rate q q' fi Hq; simpl; [discriminate|].
  destruct (2 ^ 50 <=? q)%Z; [discriminate|].
  destruct (Z.leb_spec (Z.quot (1000000000 * q) rate) 0) as [Hfi|Hfi].
  - intros Hf. eapply IH; [|exact Hf]. by apply nextQuantum_pos.
  - destruct (_ <=? _)%Z.
    + intros Hf; inversion Hf; subst. lia.
    + intros Hf. eapply IH; [|exact Hf]. by apply nextQuantum_pos.
Qed.

Lemma NewBucketWithRate_sound rate capacity now b :
  juju.NewBucketWithRate rate capacity now = Some b ->
  bucket_sound b now /\ juju.capacity b = capacity /\ juju.startTime b = now.
Proof.
  unfold juju.NewBucketWithRate.
  destruct (Z.leb_spec capacity 0) as [Hcap|Hcap]; [discriminate|].
  destruct (rate <=? 0)%Z; [discriminate|].
  destruct (juju.find_quantum 400 rate 1) as [[q fi]|] eqn:Hq; [|discriminate].
  intros Hb; inversion Hb; subst. clear Hb.
  destruct (find_quantum_pos 400 rate 1 q fi ltac:(lia) Hq) as [Hq' Hfi].
  unfold bucket_sound, juju.currentTick. simpl.
  rewrite Z.sub_diag, Z.quot_0_l by lia. repeat split; lia.
Qed.

Lemma currentTick_mono b now now' :
  (0 < juju.fillInterval b)%Z -> (now <= now')%Z ->
  (juju.currentTick b now <= juju.currentTick b now')%Z.
Proof.
  intros Hfi Hle. unfold juju.currentTick. apply Z.quot_le_mono; lia.
Qed.

(** One [TakeAvailable] at a later time keeps a bucket in good standing. *)
Lemma TakeAvailable_sound b now now' n :
  bucket_sound b now -> (now <= now')%Z ->
  bucket_sound (juju.TakeAvailable now' n b).2 now' /\
  juju.capacity (juju.TakeAvailable now' n b).2 = juju.capacity b /\
  juju.startTime (juju.TakeAvailable now' n b).2 = juju.startTime b /\
  juju.fillInterval (juju.TakeAvailable now' n b).2 = juju.fillInterval b.
Proof.
  intros (Hav & Hq & Hfi & Htick) Hle.
  pose proof (currentTick_mono b now now' Hfi Hle) as Hmono.
  unfold juju.TakeAvailable.
  destruct (Z.leb_spec n 0) as [Hn|Hn]; simpl.
  { unfold bucket_sound. repeat split; lia. }
  set (tick := juju.currentTick b now').
  assert (Hb1 : bucket_sound (juju.adjustavailableTokens b tick) now' /\
                juju.capacity (juju.adjustavailableTokens b tick) = juju.capacity b /\
                juju.startTime (juju.adjustavailableTokens b tick) = juju.startTime b /\
                juju.fillInterval (juju.adjustavailableTokens b tick) = juju.fillInterval b /\
                juju.latestTick (juju.adjustavailableTokens b tick) = tick).
  { unfold juju.adjustavailableTokens, bucket_sound, juju.currentTick.
    destruct (Z.leb_spec (juju.capacity b) (juju.availableTokens b)); simpl;
      fold (juju.currentTick b now'); fold tick; repeat split; try lia.
    apply Z.min_glb; [|lia].
    assert (0 <= (tick - juju.latestTick b) * juju.quantum b)%Z by (apply Z.mul_nonneg_nonneg; lia).
    lia. }
  destruct Hb1 as ((Hav1 & Hq1 & Hfi1 & Htick1) & Hc1 & Hs1 & Hf1 & Hl1).
  set (b1 := juju.adjustavailableTokens b tick) in *.
  destruct (Z.leb_spec (juju.availableTokens b1) 0); simpl.
  { unfold bucket_sound. repeat split; try lia. }
  unfold bucket_sound, juju.currentTick in *. simpl.
  rewrite Hs1, Hf1 in *. repeat split; try lia.
Qed.

(** X11.  Used without waiting, a limiter never overdraws and never
    overfills: after any sequence of [Allow] calls, for any numbers of
    tokens, with any non-negative time between them, on a limiter made
    by [NewLimiter], every call returned and the bucket holds between
    zero and its capacity. *)
Theorem Allow_keeps_bucket_within_capacity (rate capacity : Z) st
    (l : nat) st0 (calls : list (Z * Z)) :
  NewLimiter rate capacity st = Some (l, st0) ->
  Forall (fun c => 0 <= c.1)%Z calls ->
  exists oks st' b',
    Allow_after calls l st0 = Some (oks, st') /\
    length oks = length calls /\
    buckets st' !! l = Some b' /\
    juju.capacity b' = capacity /\
    (0 <= juju.availableTokens b' <= capacity)%Z.
Proof.
  intros Hnew Hcalls.
  unfold NewLimiter in Hnew.
  destruct (juju.NewBucketWithRate rate capacity (clock st)) as [b0|] eqn:Hb0;
    [|discriminate].
  inversion Hnew; subst. clear Hnew.
  destruct (NewBucketWithRate_sound _ _ _ _ Hb0) as (Hsound & Hcap & _).
  set (st0 := set_buckets (buckets st ++ [b0]) st).
  assert (Hl : buckets st0 !! length (buckets st) = Some b0)
    by (unfold st0; simpl; by apply list_lookup_middle).
  assert (Hs0 : bucket_sound b0 (clock st0)) by exact Hsound.
  clearbody st0. clear Hb0 Hsound.
  revert st0 b0 Hl Hs0 Hcap.
  induction Hcalls as [|[delay n] calls Hd _ IH]; intros st0 b0 Hl Hs0 Hcap.
  - exists [], st0, b0. simpl. destruct Hs0 as (Hav & _).
    repeat split; try assumption; lia.
  - simpl in Hd. cbn [Allow_after].
    set (st1 := set_clock (clock st0 + delay) st0).
    assert (Hl1 : buckets st1 !! length (buckets st) = Some b0) by exact Hl.
    rewrite (Allow_at _ _ _ _ Hl1).
    destruct (TakeAvailable_sound b0 (clock st0) (clock st1) n Hs0
                ltac:(simpl; lia)) as (Hs' & Hc' & _ & _).
    set (b1 := (juju.TakeAvailable (clock st1) n b0).2) in *.
    destruct (IH (set_bucket (length (buckets st)) b1 st1) b1
                ltac:(by eapply set_bucket_lookup) Hs' ltac:(congruence))
      as (oks & st' & b' & Hrun & Hlen & Hb' & Hcb' & Hav').
    rewrite Hrun. eexists _, st', b'. split; [reflexivity|].
    simpl. rewrite Hlen. auto.
Qed.

End RateLimitExtras.

(** X9 at a full bucket and a handler that serves. *)
Lemma ratelimit_admits_with_one_token_witness :
  ratelimit.limited ratelimit.default_options 0 examples.serving
    Background None (examples.with_bucket 10)
  = examples.serving Background None
      (ratelimit.set_bucket 0
         (juju.set_available (examples.bucket10 0 10) 0 (10 - 1))
         (examples.with_bucket 10)).
Proof.
  exact (ratelimit_admits_with_one_token ratelimit.default_options 0
           examples.serving Background None (examples.with_bucket 10)
           (examples.bucket10 0 10) eq_refl eq_refl ltac:(discriminate)).
Defined.

(** X10 at the empty bucket, asked about a time ten seconds ahead. *)
Lemma AllowN_ignores_now_witness :
  exists st',
    ratelimit.AllowN 0 10000000000 1 (examples.with_bucket 0)
    = Some (false, st').
Proof.
  exact (proj2 (@AllowN_ignores_now unit) 0 10000000000%Z 1%Z
           (examples.with_bucket 0) (examples.bucket10 0 0) eq_refl
           ltac:(discriminate)).
Defined.

(** X12 at the empty bucket: a wait for 3 tokens returns at 300 ms. *)
Lemma Wait_returns_when_tokens_accrued_witness :
  exists st' b',
    ratelimit.Wait examples.parent_first Background 0 3
      (examples.with_bucket 0) = Some (None, st') /\
    (0 <= middleware.clock st')%Z /\
    middleware.buckets st' !! 0 = Some b' /\
    juju.availableTokens b' = (0 - 3)%Z /\
    (0 <= juju.availableTokens
            (juju.adjustavailableTokens b'
               (juju.currentTick b' (middleware.clock st'))))%Z.
Proof.
  apply (Wait_returns_when_tokens_accrued examples.parent_first Background 0 3
           (examples.with_bucket 0) (examples.bucket10 0 0) eq_refl eq_refl).
  - unfold bucket_sound. simpl. repeat split; try lia; discriminate.
  - simpl. lia.
  - lia.
Defined.

(** X11 at a limiter of 10 tokens asked for 7, then 5 at once, then 20
    after two seconds. *)
Lemma Allow_keeps_bucket_within_capacity_witness :
  exists oks st' b',
    Allow_after [(0, 7); (0, 5); (2000000000, 20)]%Z 0 (examples.with_bucket 10)
    = Some (oks, st') /\
    length oks = 3 /\
    middleware.buckets st' !! 0 = Some b' /\
    juju.capacity b' = 10%Z /\
    (0 <= juju.availableTokens b' <= 10)%Z.
Proof.
  apply (Allow_keeps_bucket_within_capacity 10 10 (examples.idle 0) 0
           (examples.with_bucket 10) [(0, 7); (0, 5); (2000000000, 20)]%Z
           eq_refl).
  repeat constructor; discriminate.
Defined.

(** ** More on circuit breaking *)

Section BreakerExtras.
Import middleware circuitbreaker.
Context {U : Type}.
Implicit Types (st : State U) (h : Handler U) (cfg : @options U).

Lemma same_but_name_guarded cfg cfg' rid :
  same_but_name cfg cfg' -> guarded cfg rid = guarded cfg' rid.
Proof.
  destruct cfg, cfg'. unfold same_but_name. simpl.
  intros (-> & -> & -> & -> & -> & -> & -> & -> & ->). reflexivity.
Qed.

Lemma configure_name_blind (opts : list (@Option U)) :
  Forall name_blind opts ->
  forall cfg cfg',
    same_but_name cfg cfg' ->
    same_but_name (fold_left (fun c o => o c) opts cfg)
                  (fold_left (fun c o => o c) opts cfg').
Proof.
  induction 1 as [|o opts Ho _ IH]; intros cfg cfg' Hs; simpl; [exact Hs|].
  apply IH, Ho, Hs.
Qed.

(** X13.  The name option of the breaker middleware has no effect on
    [Server]: the options of the package do not let the name decide
    anything else, and among such options a [WithName] placed anywhere
    changes neither the middleware nor the state it is built in.  (The
    breakers are named by the key function.) *)
Theorem circuitbreaker_WithName_ignored (before after : list (@Option U))
    (n : string) st :
  (forall d, name_blind (U := U) (WithDisabled d)) /\
  (forall n', name_blind (U := U) (WithName n')) /\
  (forall k, name_blind (U := U) (WithMaxRequests k)) /\
  (forall d, name_blind (U := U) (WithInterval d)) /\
  (forall d, name_blind (U := U) (WithTimeout d)) /\
  (forall fn, name_blind (U := U) (WithReadyToTrip fn)) /\
  (forall fn, name_blind (U := U) (WithOnStateChange fn)) /\
  (forall fn, name_blind (U := U) (WithIsSuccessful fn)) /\
  (forall fn, name_blind (U := U) (WithFallbackHandler fn)) /\
  (forall fn, name_blind (U := U) (WithCircuitBreakerName fn)) /\
  (Forall name_blind after ->
   Server (before ++ WithName n :: after) st = Server (before ++ after) st).
Proof.
  repeat (split;
    [intros x cfg cfg' (H1 & H2 & H3 & H4 & H5 & H6 & H7 & H8 & H9);
     unfold same_but_name; simpl; tauto|]).
  intros Hafter.
  assert (H : same_but_name (configure (before ++ WithName n :: after))
                            (configure (before ++ after))).
  { unfold configure. rewrite !fold_left_app. simpl.
    apply configure_name_blind; [exact Hafter|].
    unfold same_but_name. simpl. tauto. }
  unfold Server. rewrite (same_but_name_guarded _ _ _ H).
  destruct H as (-> & _). reflexivity.
Qed.

(** What [guarded] does with a call its breaker admits and whose handler
    returns. *)
Lemma guarded_admitted cfg rid h ctx req st reg p cb cb1 out gen result e
    st2 cb2 :
  registries st !! rid = Some reg ->
  reg !! circuitBreakerName cfg ctx = Some p ->
  breakers st !! p = Some cb ->
  gobreaker.beforeRequest (clock st) cb = (cb1, out, inl gen) ->
  h ctx req (log_lines out (set_breaker p cb1 st)) = (Return result e, st2) ->
  breakers st2 !! p = Some cb2 ->
  let after :=
    gobreaker.afterRequest gen
      (gobreaker.IsSuccessful (gobreaker.settings cb2) e) (clock st2) cb2 in
  let st3 := log_lines after.2 (set_breaker p after.1 st2) in
  guarded cfg rid h ctx req st
  = if is_ErrOpenState e
    then fallbackHandler cfg ctx req (log_lines [breaker_open_line ctx] st3)
    else (Return result e, st3).
Proof.
  intros Hreg Hp Hcb Hbefore Hh Hcb2 after st3.
  unfold guarded, acquire, breaker_open_line. rewrite Hreg, Hp.
  unfold Execute. rewrite Hcb, Hbefore, Hh, Hcb2.
  subst st3 after.
  destruct (gobreaker.afterRequest _ _ _ _) as [cb3 out3]. simpl.
  destruct (FromServerContext ctx); destruct (is_ErrOpenState e); reflexivity.
Qed.

(** X15.  The fallback is chosen by the error value, not by the state of
    the breaker: a call that the breaker admits and whose handler itself
    returns the breaker library's open-state error (a breaker further
    down the chain rejected it) is recorded in the breaker like any
    other result, and is then answered by the fallback handler, after
    the line saying that the circuit breaker is open. *)
Theorem handler_ErrOpenState_runs_fallback cfg rid h ctx req st reg p cb cb1
    out gen result st2 cb2 :
  registries st !! rid = Some reg ->
  reg !! circuitBreakerName cfg ctx = Some p ->
  breakers st !! p = Some cb ->
  gobreaker.beforeRequest (clock st) cb = (cb1, out, inl gen) ->
  h ctx req (log_lines out (set_breaker p cb1 st))
  = (Return result (Some ErrOpenState), st2) ->
  breakers st2 !! p = Some cb2 ->
  let after :=
    gobreaker.afterRequest gen
      (gobreaker.IsSuccessful (gobreaker.settings cb2) (Some ErrOpenState))
      (clock st2) cb2 in
  guarded cfg rid h ctx req st
  = fallbackHandler cfg ctx req
      (log_lines [breaker_open_line ctx]
         (log_lines after.2 (set_breaker p after.1 st2))).
Proof.
  intros Hreg Hp Hcb Hbefore Hh Hcb2.
  exact (guarded_admitted cfg rid h ctx req st reg p cb cb1 out gen result
           (Some ErrOpenState) st2 cb2 Hreg Hp Hcb Hbefore Hh Hcb2).
Qed.

(** X14.  The breakers are independent: a call leaves every breaker
    other than the one of its own key as it is, whatever the handler
    returns, as long as the handler and the fallback themselves leave it
    alone. *)
Theorem guarded_leaves_other_breakers cfg rid h ctx req st reg (q : nat) o st' :
  registries st !! rid = Some reg ->
  reg !! circuitBreakerName cfg ctx <> Some q ->
  (q < length (breakers st))%nat ->
  keeps_breaker q h ->
  keeps_breaker q (fallbackHandler cfg) ->
  guarded cfg rid h ctx req st = (o, st') ->
  breakers st' !! q = breakers st !! q.
Proof.
  exact (guarded_frame cfg rid h ctx req st reg q o st').
Qed.

(** X16.  The default key function keys the breakers by operation alone:
    two requests that carry a transport get the same key exactly when
    their operations are the same, whatever their kinds, and the key of
    a request without transport is the key of no request with one. *)
Theorem default_key_by_operation (ctx ctx' : context) (tr tr' : Transporter) :
  FromServerContext ctx = Some tr ->
  FromServerContext ctx' = Some tr' ->
  (circuitBreakerName (U := U) (configure []) ctx
   = circuitBreakerName (U := U) (configure []) ctx'
   <-> Operation tr = Operation tr') /\
  (forall ctx0, FromServerContext ctx0 = None ->
     circuitBreakerName (U := U) (configure []) ctx0
     <> circuitBreakerName (U := U) (configure []) ctx).
Proof.
  intros Htr Htr'. simpl. rewrite Htr, Htr'. split.
  - split; [|by intros ->].
    intros H. simpl in H. by inversion H.
  - intros ctx0 ->. simpl. discriminate.
Qed.

End BreakerExtras.

(** X13 at a name given between two other options. *)
Lemma circuitbreaker_WithName_ignored_witness :
  circuitbreaker.Server
    ([circuitbreaker.WithMaxRequests 5]
     ++ circuitbreaker.WithName "orders" :: [circuitbreaker.WithTimeout 1000])
    (examples.idle 0)
  = circuitbreaker.Server
      ([circuitbreaker.WithMaxRequests 5] ++ [circuitbreaker.WithTimeout 1000])
      (examples.idle 0).
Proof.
  destruct (circuitbreaker_WithName_ignored (U := unit)
              [circuitbreaker.WithMaxRequests 5]
              [circuitbreaker.WithTimeout 1000] "orders" (examples.idle 0))
    as (_ & _ & _ & _ & Htimeout & _ & _ & _ & _ & _ & H).
  exact (H (Forall_cons_2 _ _ _ (Htimeout _) (Forall_nil_2 _))).
Defined.

(** X15 at the default middleware whose breaker for requests without
    transport is Closed after nine failures; the error handed on is the
    tenth. *)
Lemma handler_ErrOpenState_runs_fallback_witness :
  circuitbreaker.guarded examples.default_breaker 0 examples.nested_open
    Background None examples.nine_failures
  = (middleware.Return None (Some ErrCircuitOpen),
     middleware.log_lines ["[] server  circuit breaker is open"%string]
       examples.ten_failures).
Proof.
  rewrite (handler_ErrOpenState_runs_fallback examples.default_breaker 0
             examples.nested_open Background None examples.nine_failures
             {[ "server"%string := 0%nat ]} 0 (examples.after_failures 9)
             (examples.admitted 9) [] 1 None
             (middleware.log_lines []
                (circuitbreaker.set_breaker 0 (examples.admitted 9)
                   examples.nine_failures))
             (examples.admitted 9)
             eq_refl eq_refl eq_refl eq_refl eq_refl eq_refl).
  vm_compute. reflexivity.
Defined.

(** X14 at a failing request for [/pay], which gets a breaker of its
    own: the breaker of the requests without transport keeps its nine
    failures. *)
Lemma guarded_leaves_other_breakers_witness :
  middleware.breakers
    (circuitbreaker.guarded examples.default_breaker 0 examples.failing
       examples.pay_request None examples.nine_failures).2 !! 0%nat
  = Some (examples.after_failures 9).
Proof.
  rewrite (guarded_leaves_other_breakers examples.default_breaker 0
             examples.failing examples.pay_request None examples.nine_failures
             {[ "server"%string := 0%nat ]} 0
             (circuitbreaker.guarded examples.default_breaker 0 examples.failing
                examples.pay_request None examples.nine_failures).1
             (circuitbreaker.guarded examples.default_breaker 0 examples.failing
                examples.pay_request None examples.nine_failures).2).
  - reflexivity.
  - reflexivity.
  - vm_compute. discriminate.
  - simpl. lia.
  - intros ctx req st o st' H. inversion H; subst. reflexivity.
  - intros ctx req st o st' H. inversion H; subst. reflexivity.
  - vm_compute. reflexivity.
Defined.

(** X16 at the same operation over gRPC and over HTTP. *)
Lemma default_key_by_operation_witness :
  circuitbreaker.circuitBreakerName (U := unit) (circuitbreaker.configure [])
    (NewServerContext Background {| Kind := KindGRPC; Operation := "/pay" |})
  = circuitbreaker.circuitBreakerName (U := unit) (circuitbreaker.configure [])
      examples.pay_request.
Proof.
  exact (proj2 (proj1 (default_key_by_operation (U := unit)
                         (NewServerContext Background
                            {| Kind := KindGRPC; Operation := "/pay" |})
                         examples.pay_request _ _ eq_refl eq_refl))
           eq_refl).
Defined.

(** ** The HTTP adapter *)

Section AdapterExtras.
Import middleware govern.
Context {U : Type}.
Implicit Types (st : State U) (rc : RequestContext U).

(** X17.  Behind the adapter a request that the rate limiter rejects is
    aborted with status 500: the limiter sees the request as an HTTP
    request whose operation is its path, the rest of the chain is not
    run (the result is the same for every [Next]), and nothing but the
    bucket, the log and the effect of the abort differs from the state
    before. *)
Theorem convertMiddleware_rate_limited (cfg : ratelimit.options)
    (bucket : nat) (c : context) (path : string)
    (next : context -> State U -> option any * State U)
    (abort : Z -> State U -> State U) st (b : juju.Bucket) :
  ratelimit.waitIfFull cfg = false ->
  buckets st !! bucket = Some b ->
  let b1 := juju.adjustavailableTokens b (juju.currentTick b (clock st)) in
  (juju.availableTokens b1 < 1)%Z ->
  convertMiddleware (ratelimit.limited cfg bucket) c
    {| URI_Path := path; Next := next; AbortWithStatus := abort |} st
  = (None,
     abort 500%Z
       (log_lines ["[http] server " +:+ path +:+ " rate limit exceeded"]
          (ratelimit.set_bucket bucket b1 st))).
Proof.
  intros Hw Hb b1 Hlt.
  assert (Htake : juju.TakeAvailable (clock st) 1 b = (0%Z, b1)).
  { unfold juju.TakeAvailable. simpl. fold b1.
    destruct (Z.leb_spec (juju.availableTokens b1) 0); [reflexivity|lia]. }
  unfold convertMiddleware, ratelimit.limited. simpl.
  rewrite Hb, Hw, Htake. reflexivity.
Qed.

(** X18.  Behind the adapter the breaker never sees what the rest of the
    chain did with a request: whenever the rest of the chain returns,
    the call is recorded as the breaker's [IsSuccessful] judges the nil
    error, and the adapter does not abort. *)
Theorem convertMiddleware_breaker_sees_nil (cfg : @circuitbreaker.options U)
    (rid : nat) (c : context) rc st reg p cb cb1 out gen st2 cb2 :
  let newCtx :=
    NewServerContext c {| Kind := KindHTTP; Operation := URI_Path rc |} in
  registries st !! rid = Some reg ->
  reg !! circuitbreaker.circuitBreakerName cfg newCtx = Some p ->
  breakers st !! p = Some cb ->
  gobreaker.beforeRequest (clock st) cb = (cb1, out, inl gen) ->
  Next rc newCtx (log_lines out (circuitbreaker.set_breaker p cb1 st))
  = (None, st2) ->
  breakers st2 !! p = Some cb2 ->
  let after :=
    gobreaker.afterRequest gen
      (gobreaker.IsSuccessful (gobreaker.settings cb2) None) (clock st2) cb2 in
  convertMiddleware (circuitbreaker.guarded cfg rid) c rc st
  = (None, log_lines after.2 (circuitbreaker.set_breaker p after.1 st2)).
Proof.
  intros newCtx Hreg Hp Hcb Hbefore Hnext Hcb2 after.
  unfold convertMiddleware. fold newCtx.
  rewrite (guarded_admitted cfg rid (next_handler rc) newCtx None st reg p cb
             cb1 out gen None None st2 cb2 Hreg Hp Hcb Hbefore).
  - reflexivity.
  - unfold next_handler. by rewrite Hnext.
  - exact Hcb2.
Qed.

End AdapterExtras.

(** X17 at the empty bucket, with a rest of the chain that would
    answer. *)
Lemma convertMiddleware_rate_limited_witness :
  govern.convertMiddleware (ratelimit.limited ratelimit.default_options 0)
    Background (examples.pay_page examples.answers_500)
    (examples.with_bucket 0)
  = (None,
     middleware.log_lines
       ["[http] server /pay rate limit exceeded"; "status 500"]%string
       (examples.with_bucket 0)).
Proof.
  refine (eq_trans
            (convertMiddleware_rate_limited ratelimit.default_options 0
               Background "/pay" examples.answers_500
               (govern.AbortWithStatus (examples.pay_page examples.answers_500))
               (examples.with_bucket 0) (examples.bucket10 0 0) eq_refl eq_refl
               eq_refl) _).
  vm_compute. reflexivity.
Defined.

(** X18 at a rest of the chain that answers with status 500, after nine
    failures: the breaker counts a success. *)
Lemma convertMiddleware_breaker_sees_nil_witness :
  govern.convertMiddleware (circuitbreaker.guarded examples.one_breaker 0)
    Background (examples.pay_page examples.answers_500)
    examples.nine_failures
  = (None,
     middleware.log_lines ["status 500"%string]
       (circuitbreaker.set_breaker 0
          (gobreaker.with_counts (examples.admitted 9)
             (gobreaker.Counts_onSuccess
                (gobreaker.counts (examples.admitted 9))))
          examples.nine_failures)).
Proof.
  rewrite (convertMiddleware_breaker_sees_nil examples.one_breaker 0
             Background (examples.pay_page examples.answers_500)
             examples.nine_failures
             {[ "server"%string := 0%nat ]} 0 (examples.after_failures 9)
             (examples.admitted 9) [] 1
             (middleware.log_lines ["status 500"%string]
                (middleware.log_lines []
                   (circuitbreaker.set_breaker 0 (examples.admitted 9)
                      examples.nine_failures)))
             (examples.admitted 9)
             eq_refl eq_refl eq_refl eq_refl eq_refl eq_refl).
  vm_compute. reflexivity.
Defined.

(** ** The header carriers *)

Lemma elem_of_keys (m : gmap string string) (k : string) :
  k ∈ (map_to_list m).*1 <-> is_Some (m !! k).
Proof.
  rewrite list_elem_of_fmap. split.
  - intros ([k0 v] & -> & H). apply elem_of_map_to_list in H. eauto.
  - intros [v H]. exists (k, v). split; [done|]. by apply elem_of_map_to_list.
Qed.

(** X19.  A carrier returns for a key the value last set for it, also
    when it was created without a map; setting a key leaves the values
    of the other keys as they are, and a key never set reads as the
    empty string. *)
Theorem HeaderCarrier_Get_after_Set (hc : govern.HeaderCarrier)
    (k v k' : string) :
  govern.HeaderCarrier_Get (govern.HeaderCarrier_Set hc k v) k'
  = (if decide (k' = k) then v else govern.HeaderCarrier_Get hc k') /\
  govern.HeaderCarrier_Get {| govern.header := None |} k' = ""%string.
Proof.
  split; [|reflexivity].
  unfold govern.HeaderCarrier_Get, govern.HeaderCarrier_Set. simpl.
  destruct (decide (k' = k)) as [->|Hne].
  - by rewrite lookup_insert_eq.
  - rewrite lookup_insert_ne by done.
    destruct (govern.header hc); simpl; [done|]. by rewrite lookup_empty.
Qed.

(** X20.  The keys a carrier lists are, without repetition, the keys
    that were set: after a [Set] they are the key set and the keys
    listed before; and a key that is not listed reads as the empty
    string. *)
Theorem HeaderCarrier_Keys_after_Set (hc : govern.HeaderCarrier)
    (k v : string) :
  NoDup (govern.HeaderCarrier_Keys (govern.HeaderCarrier_Set hc k v)) /\
  (forall k',
     k' ∈ govern.HeaderCarrier_Keys (govern.HeaderCarrier_Set hc k v)
     <-> k' = k \/ k' ∈ govern.HeaderCarrier_Keys hc) /\
  (forall k', k' ∉ govern.HeaderCarrier_Keys hc ->
     govern.HeaderCarrier_Get hc k' = ""%string).
Proof.
  unfold govern.HeaderCarrier_Keys, govern.HeaderCarrier_Get,
    govern.HeaderCarrier_Set. simpl.
  split; [apply NoDup_fst_map_to_list|]. split.
  - intros k'. rewrite elem_of_keys, lookup_insert_is_Some.
    destruct (govern.header hc) as [m|]; simpl.
    + rewrite elem_of_keys. split.
      * intros [->|[_ H]]; auto.
      * intros [->|H]; [by left|].
        destruct (decide (k = k')); [by left|by right].
    + rewrite lookup_empty. split.
      * intros [->|[_ H]]; [by left|by destruct H].
      * intros [->|H]; [by left|by apply elem_of_nil in H].
  - intros k'. destruct (govern.header hc) as [m|]; [|done].
    rewrite elem_of_keys. intros H.
    destruct (m !! k') eqn:E; [|done]. destruct H. eauto.
Qed.

(** ** The gRPC server *)

Section GrpcExtras.
Context {U Kitex : Type} (kitex_Run kitex_Stop : Kitex -> error).
Context (ResolveTCPAddr : string -> option string) (fmt_T : any -> string).

Lemma use_step_server (us : list grpc.use) : forall s : grpc.Server U Kitex,
  grpc.server (fold_left (grpc.use_step ResolveTCPAddr fmt_T) us s)
  = grpc.server s.
Proof.
  induction us as [|u us IH]; intros s; simpl; [reflexivity|].
  rewrite IH. by destruct u.
Qed.

(** X21.  The gRPC server never serves: whatever options it is built
    with, and however often it is initialised and services are
    registered, it holds no Kitex server, so that [Start] and [Stop]
    return nil at once without running or stopping anything. *)
Theorem grpc_Server_never_serves (os : list (transport.ServerOptions U))
    (us : list grpc.use) (ctx : context) :
  grpc.GetKitexServer
    (fold_left (grpc.use_step ResolveTCPAddr fmt_T) us
       (grpc.NewServer (Kitex := Kitex) os)) = None /\
  grpc.Start kitex_Run ctx
    (fold_left (grpc.use_step ResolveTCPAddr fmt_T) us (grpc.NewServer os))
  = None /\
  grpc.Stop kitex_Stop ctx
    (fold_left (grpc.use_step ResolveTCPAddr fmt_T) us (grpc.NewServer os))
  = None.
Proof.
  unfold grpc.GetKitexServer, grpc.Start, grpc.Stop.
  rewrite use_step_server. simpl. auto.
Qed.

Lemma init_servers_grpc (o : newMilli.options (nat -> grpc.Server U Kitex)) :
  forall (addrs : list nat) (k : nat) (p : newMilli.Process (nat -> grpc.Server U Kitex)),
  exists p',
    newMilli.init_servers o k
      (map (grpc.as_transport_Server kitex_Run kitex_Stop) addrs) p
    = (None, p') /\
    newMilli.cells p' = newMilli.cells p /\
    forall j,
      newMilli.world p' j
      = if bool_decide (j ∈ addrs)
        then {| grpc.opts :=
                  transport.Version (newMilli.version o)
                    (transport.Name (newMilli.name o)
                       (transport.ID (newMilli.id o)
                          (grpc.opts (newMilli.world p j))));
                grpc.server := grpc.server (newMilli.world p j) |}
        else newMilli.world p j.
Proof.
  induction addrs as [|a addrs IH]; intros k p.
  - exists p. split; [reflexivity|]. split; [reflexivity|].
    intros j. rewrite bool_decide_eq_false_2; [reflexivity|apply not_elem_of_nil].
  - simpl.
    destruct (IH (S k)
                (newMilli.called
                   (newMilli.EvInit k
                      [transport_ID (newMilli.id o);
                       transport_Name (newMilli.name o);
                       transport_Version (newMilli.version o)] None)
                   (grpc.with_server (newMilli.world p) a
                      (grpc.Init
                         [transport_ID (newMilli.id o);
                          transport_Name (newMilli.name o);
                          transport_Version (newMilli.version o)]
                         (newMilli.world p a)).1) p))
      as (p' & Hrun & Hcells & Hworld).
    exists p'. split; [exact Hrun|]. split; [exact Hcells|].
    intros j. rewrite Hworld. simpl. unfold grpc.with_server.
    destruct (Nat.eqb_spec j a) as [->|Hne].
    + rewrite (bool_decide_eq_true_2 (a ∈ a :: addrs)) by apply list_elem_of_here.
      destruct (bool_decide (a ∈ addrs)); reflexivity.
    + destruct (bool_decide_reflect (j ∈ addrs)) as [Hin|Hout].
      * rewrite bool_decide_eq_true_2 by (by apply list_elem_of_further).
        reflexivity.
      * rewrite bool_decide_eq_false_2; [reflexivity|].
        intros [?|?]%elem_of_cons; [by apply Hne|by apply Hout].
Qed.

(** X22.  [New] over gRPC servers never fails, and it stamps every one
    of them with the application's ID, name and version: afterwards the
    options of each server of the application are the options it had
    with these three set, its address, timeout and middleware as they
    were, and the servers that are not the application's are
    untouched. *)
Theorem New_stamps_grpc_servers
    (opts : list (newMilli.Option (nat -> grpc.Server U Kitex)))
    (addrs : list nat) (p : newMilli.Process (nat -> grpc.Server U Kitex)) :
  newMilli.servers (newMilli.configure opts)
  = map (grpc.as_transport_Server kitex_Run kitex_Stop) addrs ->
  exists a p',
    newMilli.New opts p = (Some a, None, p') /\
    forall j,
      newMilli.world p' j
      = if bool_decide (j ∈ addrs)
        then {| grpc.opts :=
                  transport.Version (App.Version a)
                    (transport.Name (App.Name a)
                       (transport.ID (App.ID a)
                          (grpc.opts (newMilli.world p j))));
                grpc.server := grpc.server (newMilli.world p j) |}
        else newMilli.world p j.
Proof.
  intros Hsrv. unfold newMilli.New. rewrite Hsrv.
  destruct (init_servers_grpc (newMilli.configure opts) addrs 0 p)
    as (p' & Hrun & _ & Hworld).
  rewrite Hrun. eexists _, _. split; [reflexivity|]. exact Hworld.
Qed.

End GrpcExtras.

(** X22 at an application of two gRPC servers. *)
Lemma New_stamps_grpc_servers_witness :
  exists a p',
    newMilli.New
      [newMilli.ID "node-1"; newMilli.Name "orders"; newMilli.Version "v2";
       newMilli.Server
         (map (grpc.as_transport_Server (fun _ : unit => None) (fun _ => None))
            [0; 1])]
      examples.two_grpc
    = (Some a, None, p') /\
    forall j,
      newMilli.world p' j
      = if bool_decide (j ∈ [0; 1])
        then {| grpc.opts :=
                  transport.Version (App.Version a)
                    (transport.Name (App.Name a)
                       (transport.ID (App.ID a)
                          (grpc.opts (newMilli.world examples.two_grpc j))));
                grpc.server := grpc.server (newMilli.world examples.two_grpc j) |}
        else newMilli.world examples.two_grpc j.
Proof.
  exact (New_stamps_grpc_servers (fun _ : unit => None) (fun _ => None)
           [newMilli.ID "node-1"; newMilli.Name "orders"; newMilli.Version "v2";
            newMilli.Server
              (map (grpc.as_transport_Server (fun _ : unit => None)
                      (fun _ => None)) [0; 1])]
           [0; 1] examples.two_grpc eq_refl).
Defined.
